(** * HackTheCloud25 CTF manager: variable resolution, state probing and
      the destroy/apply lifecycle

    A shallow embedding of [lib/challenge.py], [lib/terraform_manager.py],
    [lib/credential_manager.py], [lib/config_loader.py] and the destroy
    operations of [ctf-manager.py].

    Conventions of the embedding.
    - Python objects that come out of YAML or JSON are values of [PyVal];
      a dictionary is an association list in insertion order, with
      strings for keys.
    - Text is a Rocq [string]; the model covers ASCII text, so
      [str.strip] removes the ASCII characters for which [str.isspace]
      holds and [str.lower] maps [A-Z] to [a-z].
    - A method that talks to the outside world is a computation in the
      monad [M]: it threads the system state [Sys] (file system, process
      environment, pending operator input, trace of events) and either
      returns a value or raises an exception of class [Exception].
      [KeyboardInterrupt] and [SystemExit] are outside the model.
    - The external collaborators (the subprocess runner, the JSON and YAML
      parsers, [pathlib]'s path join, the operating system's verdict on
      opening a file for writing, [str] of lists and dictionaries) are the
      fields of the class [Platform]; every theorem holds for all of them.
    - [print] output is not recorded; log records are. *)

From Stdlib Require Import ZArith Ascii Lia.
From stdpp Require Import base gmap strings pretty list.

Set Warnings "-register-all".

(** ** Python strings *)

Module PyStr.

Definition startswith (p s : string) : bool := String.prefix p s.

Definition endswith (suf s : string) : bool :=
  (String.length suf <=? String.length s) &&
  String.eqb
    (String.substring (String.length s - String.length suf)
                      (String.length suf) s)
    suf.

(** [s[2:-1]] *)
Definition slice_2_m1 (s : string) : string :=
  String.substring 2 (String.length s - 1 - 2) s.

(** [sub in s] *)
Fixpoint contains (sub s : string) : bool :=
  String.prefix sub s ||
  match s with
  | EmptyString => false
  | String _ t => contains sub t
  end.

(** [s.split(sep, 1)] for a one-character separator *)
Fixpoint split1 (sep : ascii) (s : string) : list string :=
  match s with
  | EmptyString => [EmptyString]
  | String c t =>
      if Ascii.eqb c sep then [EmptyString; t]
      else match split1 sep t with
           | h :: r => String c h :: r
           | [] => [String c EmptyString]
           end
  end.

(** [str.isspace] on ASCII: TAB, LF, VT, FF, CR, FS, GS, RS, US, SPACE *)
Definition isspace (c : ascii) : bool :=
  let n := nat_of_ascii c in
  ((9 <=? n) && (n <=? 13)) || ((28 <=? n) && (n <=? 32)).

Fixpoint lstrip (s : string) : string :=
  match s with
  | EmptyString => EmptyString
  | String c t => if isspace c then lstrip t else s
  end.

Definition rstrip (s : string) : string :=
  String.rev (lstrip (String.rev s)).

Definition strip (s : string) : string := rstrip (lstrip s).

Definition lower_char (c : ascii) : ascii :=
  let n := nat_of_ascii c in
  if (65 <=? n) && (n <=? 90) then ascii_of_nat (n + 32) else c.

Fixpoint lower (s : string) : string :=
  match s with
  | EmptyString => EmptyString
  | String c t => String (lower_char c) (lower t)
  end.

(** truth value of a string: non-empty *)
Definition truthy (s : string) : bool :=
  match s with EmptyString => false | _ => true end.

End PyStr.

(** ** Python values *)

Inductive PyVal : Type :=
| PNone
| PBool (b : bool)
| PInt (z : Z)
| PFloat (repr : string)   (* a float, carried by its [repr] *)
| PStr (s : string)
| PList (l : list PyVal)
| PDict (d : list (string * PyVal)).

(** ** Exceptions *)

Inductive ExnClass : Type :=
| TimeoutExpired | FileNotFoundError | OSError | JSONDecodeError | YAMLError
| AttributeError | TypeError | ValueError | EOFError
| OtherException.

Record Exn : Type := { exn_class : ExnClass; exn_str : string }.

Inductive Res (A : Type) : Type :=
| Ok (a : A)
| Raise (e : Exn).
Arguments Ok {A} a.
Arguments Raise {A} e.

Module Py.

Definition dict := list (string * PyVal).

Fixpoint dict_lookup (k : string) (d : dict) : option PyVal :=
  match d with
  | [] => None
  | (k', v) :: r => if String.eqb k k' then Some v else dict_lookup k r
  end.

(** [d[k] = v] *)
Fixpoint dict_set (k : string) (v : PyVal) (d : dict) : dict :=
  match d with
  | [] => [(k, v)]
  | (k', v') :: r =>
      if String.eqb k k' then (k, v) :: r else (k', v') :: dict_set k v r
  end.

(** [bool(v)] *)
Definition truthy (v : PyVal) : bool :=
  match v with
  | PNone => false
  | PBool b => b
  | PInt z => negb (z =? 0)%Z
  | PFloat r => negb (String.eqb r "0.0" || String.eqb r "-0.0")
  | PStr s => PyStr.truthy s
  | PList l => match l with [] => false | _ => true end
  | PDict d => match d with [] => false | _ => true end
  end.

Definition type_name (v : PyVal) : string :=
  match v with
  | PNone => "NoneType"
  | PBool _ => "bool"
  | PInt _ => "int"
  | PFloat _ => "float"
  | PStr _ => "str"
  | PList _ => "list"
  | PDict _ => "dict"
  end.

Definition attribute_error (v : PyVal) (attr : string) : Exn :=
  {| exn_class := AttributeError;
     exn_str := "'" +:+ type_name v +:+ "' object has no attribute '"
                +:+ attr +:+ "'" |}.

(** [v.get(k, dflt)]: only dictionaries have the method *)
Definition get (v : PyVal) (k : string) (dflt : PyVal) : Res PyVal :=
  match v with
  | PDict d => Ok (default dflt (dict_lookup k d))
  | _ => Raise (attribute_error v "get")
  end.

(** [v.items()] *)
Definition items (v : PyVal) : Res dict :=
  match v with
  | PDict d => Ok d
  | _ => Raise (attribute_error v "items")
  end.

(** [v == s] for a string literal [s] *)
Definition eq_str (v : PyVal) (s : string) : bool :=
  match v with
  | PStr t => String.eqb t s
  | _ => false
  end.

(** [v is not None] *)
Definition is_not_none (v : PyVal) : bool :=
  match v with PNone => false | _ => true end.

End Py.

(** ** The outside world *)

(** One call of [subprocess.run]. *)
Record Invocation : Type := {
  argv : list string;
  cwd : option string;
  env : option (gmap string PyVal);       (* [None]: inherited *)
  capture_output : bool;
  timeout : Z                              (* seconds *)
}.

Record CompletedProcess : Type := {
  returncode : Z;
  stdout : string;
  stderr : string
}.

Inductive Outcome : Type :=
| Completed (r : CompletedProcess)
| Raised (e : Exn).

Inductive Level : Type := DEBUG | INFO | WARNING | ERROR.

(** The calls of [TerraformLogFilter]: their rendering (line splitting,
    pattern levels, wall-clock durations) is not modelled. *)
Inductive TfLogRecord : Type :=
| LogCommand (command working_dir : string)
| LogOutput (output : string)
| LogResult (command : string) (success : bool).

Inductive Event : Type :=
| ESpawn (inv : Invocation)                 (* a subprocess was started *)
| EWrite (path content : string)            (* a file was (over)written *)
| EInput (prompt : string)                  (* the operator was asked *)
| ELog (lvl : Level) (msg : string)
| ETfLog (r : TfLogRecord).                 (* a call of TerraformLogFilter *)

Inductive Node : Type :=
| Dir
| File (content : string).

Record Sys : Type := {
  fs : gmap string Node;          (* path -> what is there *)
  environ : gmap string string;   (* [os.environ] *)
  stdin : list string;            (* answers the operator will type *)
  events : list Event             (* newest first *)
}.

Class Platform : Type := {
  (** [base / part] of [pathlib] *)
  joinpath : string -> string -> string;
  (** what a subprocess does: its outcome and the file system it leaves *)
  subprocess_run : Invocation -> Sys -> Outcome * gmap string Node;
  json_loads : string -> Res PyVal;
  yaml_safe_load : string -> Res PyVal;
  (** the error of [open(path, 'w')], if it fails *)
  open_w_error : gmap string Node -> string -> option Exn;
  (** [str] of a list or a dictionary *)
  py_repr : PyVal -> string
}.

(** ** The monad of effectful methods *)

Definition M (A : Type) : Type := Sys -> Res A * Sys.

Definition ret {A} (a : A) : M A := fun s => (Ok a, s).

Definition bind {A B} (m : M A) (k : A -> M B) : M B :=
  fun s =>
    match m s with
    | (Ok a, s') => k a s'
    | (Raise e, s') => (Raise e, s')
    end.

Definition raise {A} (e : Exn) : M A := fun s => (Raise e, s).

(** a pure computation that may raise *)
Definition lift {A} (r : Res A) : M A := fun s => (r, s).

(** [try: m  except Exception as e: h e] *)
Definition try_except {A} (m : M A) (h : Exn -> M A) : M A :=
  fun s =>
    match m s with
    | (Ok a, s') => (Ok a, s')
    | (Raise e, s') => h e s'
    end.

Declare Scope py_scope.
Delimit Scope py_scope with py.
Notation "x <- m ;; k" := (bind m (fun x => k))
  (at level 100, m at next level, right associativity) : py_scope.
Notation "m ;; k" := (bind m (fun _ => k))
  (at level 100, right associativity) : py_scope.
Open Scope py_scope.

Definition res_bind {A B} (r : Res A) (k : A -> Res B) : Res B :=
  match r with
  | Ok a => k a
  | Raise e => Raise e
  end.

Definition emit (e : Event) : M unit :=
  fun s => (Ok tt, {| fs := fs s; environ := environ s; stdin := stdin s;
                      events := e :: events s |}).

Definition log (lvl : Level) (msg : string) : M unit := emit (ELog lvl msg).

Definition tf_log (r : TfLogRecord) : M unit := emit (ETfLog r).

(** [try: m  except C as e: h e] for the classes [C] selected by [sel] *)
Definition try_except_on {A} (sel : ExnClass -> bool) (m : M A)
                         (h : Exn -> M A) : M A :=
  fun s =>
    match m s with
    | (Ok a, s') => (Ok a, s')
    | (Raise e, s') => if sel (exn_class e) then h e s' else (Raise e, s')
    end.

(** a [for] loop whose body may raise, building a list of results *)
Fixpoint mapM {A B} (f : A -> M B) (l : list A) : M (list B) :=
  match l with
  | [] => ret []
  | a :: r => b <- f a ;; bs <- mapM f r ;; ret (b :: bs)
  end.

(** a [for] loop that threads an accumulator *)
Fixpoint foldM {A B} (f : B -> A -> M B) (l : list A) (acc : B) : M B :=
  match l with
  | [] => ret acc
  | a :: r => acc' <- f acc a ;; foldM f r acc'
  end.

(** [[x for x in l if p(x)]] with an effectful test *)
Fixpoint filterM {A} (p : A -> M bool) (l : list A) : M (list A) :=
  match l with
  | [] => ret []
  | a :: r => b <- p a ;; rest <- filterM p r ;;
              ret (if b then a :: rest else rest)
  end.

Fixpoint res_mapM {A B} (f : A -> Res B) (l : list A) : Res (list B) :=
  match l with
  | [] => Ok []
  | a :: r => res_bind (f a) (fun b =>
              res_bind (res_mapM f r) (fun bs => Ok (b :: bs)))
  end.

Definition dquote : string := String (ascii_of_nat 34) EmptyString.
Definition newline : string := String (ascii_of_nat 10) EmptyString.

(** a look at the state *)
Definition reads {A} (f : Sys -> A) : M A := fun s => (Ok (f s), s).

(** [Path.exists()] *)
Definition path_exists (p : string) : M bool :=
  fun s => (Ok (bool_decide (is_Some (fs s !! p))), s).

(** [os.getenv(k)] *)
Definition getenv (k : string) : M (option string) :=
  fun s => (Ok (environ s !! k), s).

(** [input(prompt)] *)
Definition input (prompt : string) : M string :=
  fun s =>
    match stdin s with
    | [] => (Raise {| exn_class := EOFError;
                      exn_str := "EOF when reading a line" |},
             {| fs := fs s; environ := environ s; stdin := [];
                events := EInput prompt :: events s |})
    | r :: rest => (Ok r,
             {| fs := fs s; environ := environ s; stdin := rest;
                events := EInput prompt :: events s |})
    end.

Section Primitives.
Context `{Platform}.

(** [subprocess.run(argv, cwd=..., env=..., timeout=...)] *)
Definition run (inv : Invocation) : M CompletedProcess :=
  fun s =>
    let '(o, fs') := subprocess_run inv s in
    let s' := {| fs := fs'; environ := environ s; stdin := stdin s;
                 events := ESpawn inv :: events s |} in
    match o with
    | Completed r => (Ok r, s')
    | Raised e => (Raise e, s')
    end.

(** [with open(p, 'w') as f: f.write(content)] *)
Definition write_text (p content : string) : M unit :=
  fun s =>
    match open_w_error (fs s) p with
    | Some e => (Raise e, s)
    | None => (Ok tt, {| fs := <[p := File content]> (fs s);
                         environ := environ s; stdin := stdin s;
                         events := EWrite p content :: events s |})
    end.

(** [with open(p, 'r') as f: f.read()] *)
Definition read_text (p : string) : M string :=
  fun s =>
    match fs s !! p with
    | Some (File c) => (Ok c, s)
    | Some Dir => (Raise {| exn_class := OSError;
                            exn_str := "Is a directory" |}, s)
    | None => (Raise {| exn_class := FileNotFoundError;
                        exn_str := "No such file or directory" |}, s)
    end.

(** [str(v)] *)
Definition py_str (v : PyVal) : string :=
  match v with
  | PNone => "None"
  | PBool true => "True"
  | PBool false => "False"
  | PInt z => pretty z
  | PStr s => s
  | PFloat r => r
  | _ => py_repr v
  end.

End Primitives.

(** ** [lib/config_loader.py] *)

Module ConfigLoader.
Section ConfigLoader.
Context `{Platform}.

Record t : Type := {
  config_dir : string;
  challenges_config : PyVal;
  credentials_config : PyVal
}.

Definition init (dir : string) : t :=
  {| config_dir := dir; challenges_config := PNone;
     credentials_config := PNone |}.

(** Returns the loader with its cache filled, and the parsed document. *)
Definition load_challenges_config (self : t) : M (t * PyVal) :=
  let config_path := joinpath (config_dir self) "challenges.yaml" in
  ex <- path_exists config_path ;;
  if negb ex then
    raise {| exn_class := FileNotFoundError;
             exn_str := "Challenges config file not found: " +:+ config_path |}
  else
    try_except
      (text <- read_text config_path ;;
       doc <- lift (yaml_safe_load text) ;;
       log INFO ("Loaded challenges config from " +:+ config_path) ;;
       ret ({| config_dir := config_dir self; challenges_config := doc;
               credentials_config := credentials_config self |}, doc))
      (fun e =>
         match exn_class e with
         | YAMLError =>
             log ERROR ("Error parsing YAML config: " +:+ exn_str e) ;;
             raise e
         | _ =>
             log ERROR ("Error loading config file: " +:+ exn_str e) ;;
             raise e
         end).

Definition load_credentials_config (self : t) : M (t * PyVal) :=
  let config_path := joinpath (config_dir self) "credentials.yaml" in
  ex <- path_exists config_path ;;
  if negb ex then
    log WARNING ("Credentials file not found: " +:+ config_path) ;;
    log INFO "Using environment variables and defaults" ;;
    ret (self, PDict [])
  else
    try_except
      (text <- read_text config_path ;;
       doc <- lift (yaml_safe_load text) ;;
       log INFO ("Loaded credentials config from " +:+ config_path) ;;
       ret ({| config_dir := config_dir self;
               challenges_config := challenges_config self;
               credentials_config := doc |}, doc))
      (fun e =>
         match exn_class e with
         | YAMLError =>
             log ERROR ("Error parsing credentials YAML: " +:+ exn_str e) ;;
             raise e
         | _ =>
             log ERROR ("Error loading credentials file: " +:+ exn_str e) ;;
             raise e
         end).

(** [if not self.challenges_config: self.load_challenges_config()] *)
Definition ensure_loaded (self : t) : M t :=
  if negb (Py.truthy (challenges_config self)) then
    r <- load_challenges_config self ;; ret (fst r)
  else ret self.

(** [None] of Python is [PNone]. *)
Definition get_challenge_config (self : t) (challenge_name : string)
  : M (t * PyVal) :=
  self <- ensure_loaded self ;;
  challenges <- lift (Py.get (challenges_config self) "challenges" (PDict [])) ;;
  r <- lift (Py.get challenges challenge_name PNone) ;;
  ret (self, r).

Definition get_all_challenges (self : t) : M (t * PyVal) :=
  self <- ensure_loaded self ;;
  challenges <- lift (Py.get (challenges_config self) "challenges" (PDict [])) ;;
  ret (self, challenges).

End ConfigLoader.
End ConfigLoader.

(** ** [lib/credential_manager.py] *)

Module CredentialManager.
Section CredentialManager.
Context `{Platform}.

Record t : Type := { credentials : PyVal }.

(** [__init__] with [_load_credentials]; the loader is shared with the
    caller, so it is handed back. *)
Definition init (config_loader : ConfigLoader.t) : M (ConfigLoader.t * t) :=
  try_except
    (r <- ConfigLoader.load_credentials_config config_loader ;;
     log DEBUG "Credentials loaded from configuration file" ;;
     ret (fst r, {| credentials := snd r |}))
    (fun e =>
       log WARNING ("Could not load credentials file: " +:+ exn_str e) ;;
       ret (config_loader, {| credentials := PDict [] |})).

(** [os.getenv(k, dflt)] as a Python value *)
Definition getenv_or (k : string) (dflt : PyVal) : M PyVal :=
  v <- getenv k ;;
  ret (match v with Some x => PStr x | None => dflt end).

(** [{k: v for k, v in credentials.items() if v is not None}] *)
Definition drop_none (d : Py.dict) : Py.dict :=
  filter (fun kv => Py.is_not_none (snd kv) = true) d.

Definition get_aws_credentials (self : t) : M Py.dict :=
  aws_config <- lift (Py.get (credentials self) "aws" (PDict [])) ;;
  d <- getenv_or "AWS_PROFILE" (PStr "default") ;;
  profile <- lift (Py.get aws_config "profile" d) ;;
  d <- getenv_or "AWS_DEFAULT_REGION" (PStr "us-east-1") ;;
  region <- lift (Py.get aws_config "region" d) ;;
  access_key_id <- getenv_or "AWS_ACCESS_KEY_ID" PNone ;;
  secret_access_key <- getenv_or "AWS_SECRET_ACCESS_KEY" PNone ;;
  session_token <- getenv_or "AWS_SESSION_TOKEN" PNone ;;
  ret (drop_none
         [("profile", profile); ("region", region);
          ("access_key_id", access_key_id);
          ("secret_access_key", secret_access_key);
          ("session_token", session_token)]).

Definition az_account_show : Invocation :=
  {| argv := ["az"; "account"; "show"; "--output"; "json"];
     cwd := None; env := None; capture_output := true; timeout := 10 |}.

Definition azure_cli_handler {A} (e : Exn) (keep : A) : M A :=
  match exn_class e with
  | TimeoutExpired | FileNotFoundError | JSONDecodeError =>
      log WARNING ("Could not get Azure CLI credentials: " +:+ exn_str e) ;;
      ret keep
  | _ =>
      log WARNING ("Unexpected error getting Azure CLI credentials: "
                   +:+ exn_str e) ;;
      ret keep
  end.

Definition get_azure_credentials (self : t) : M Py.dict :=
  azure_config <- lift (Py.get (credentials self) "azure" (PDict [])) ;;
  d <- getenv_or "AZURE_SUBSCRIPTION_ID" PNone ;;
  subscription_id <- lift (Py.get azure_config "subscription_id" d) ;;
  d <- getenv_or "AZURE_TENANT_ID" PNone ;;
  tenant_id <- lift (Py.get azure_config "tenant_id" d) ;;
  ids <-
    (if negb (Py.truthy subscription_id) || negb (Py.truthy tenant_id) then
       try_except
         (result <- run az_account_show ;;
          if (returncode result =? 0)%Z then
            account_info <- lift (json_loads (stdout result)) ;;
            sid <- (if negb (Py.truthy subscription_id) then
                      v <- lift (Py.get account_info "id" PNone) ;;
                      log INFO "Detected Azure subscription ID from Azure CLI" ;;
                      ret v
                    else ret subscription_id) ;;
            tid <- (if negb (Py.truthy tenant_id) then
                      v <- lift (Py.get account_info "tenantId" PNone) ;;
                      log INFO "Detected Azure tenant ID from Azure CLI" ;;
                      ret v
                    else ret tenant_id) ;;
            ret (sid, tid)
          else
            log WARNING "Azure CLI not authenticated or available" ;;
            ret (subscription_id, tenant_id))
         (fun e => azure_cli_handler e (subscription_id, tenant_id))
     else ret (subscription_id, tenant_id)) ;;
  d <- getenv_or "AZURE_CLIENT_ID" PNone ;;
  client_id <- lift (Py.get azure_config "client_id" d) ;;
  d <- getenv_or "AZURE_CLIENT_SECRET" PNone ;;
  client_secret <- lift (Py.get azure_config "client_secret" d) ;;
  location <- lift (Py.get azure_config "location" (PStr "East US")) ;;
  ret (drop_none
         [("subscription_id", fst ids); ("tenant_id", snd ids);
          ("client_id", client_id); ("client_secret", client_secret);
          ("location", location)]).

Definition gcloud_get_value (what : string) : Invocation :=
  {| argv := ["gcloud"; "config"; "get-value"; what];
     cwd := None; env := None; capture_output := true; timeout := 10 |}.

Definition gcp_cli_handler {A} (e : Exn) (keep : A) : M A :=
  match exn_class e with
  | TimeoutExpired | FileNotFoundError =>
      log WARNING ("Could not get GCP CLI credentials: " +:+ exn_str e) ;;
      ret keep
  | _ =>
      log WARNING ("Unexpected error getting GCP CLI credentials: "
                   +:+ exn_str e) ;;
      ret keep
  end.

(** One [gcloud config get-value] query: the detected value replaces
    [current] when the command succeeds with a usable answer. *)
Definition gcloud_detect (what msg : string) (current : PyVal) : M PyVal :=
  if negb (Py.truthy current) then
    result <- run (gcloud_get_value what) ;;
    if (returncode result =? 0)%Z then
      let detected := PyStr.strip (stdout result) in
      if PyStr.truthy detected && negb (String.eqb detected "(unset)") then
        log INFO msg ;; ret (PStr detected)
      else ret current
    else ret current
  else ret current.

(** The source has one [try] around both queries; an exception in the
    second one keeps the project detected by the first, which the nested
    handlers below reproduce. *)
Definition get_gcp_credentials (self : t) : M Py.dict :=
  gcp_config <- lift (Py.get (credentials self) "gcp" (PDict [])) ;;
  d <- getenv_or "GCP_PROJECT_ID" PNone ;;
  project_id <- lift (Py.get gcp_config "project_id" d) ;;
  d <- getenv_or "GCP_REGION" (PStr "us-central1") ;;
  region <- lift (Py.get gcp_config "region" d) ;;
  d <- getenv_or "GCP_USER_EMAIL" PNone ;;
  user_email <- lift (Py.get gcp_config "user_email" d) ;;
  ids <-
    (if negb (Py.truthy project_id) || negb (Py.truthy user_email) then
       try_except
         (project_id' <- gcloud_detect "project"
                           "Detected GCP project ID from gcloud CLI"
                           project_id ;;
          try_except
            (user_email' <- gcloud_detect "account"
                              "Detected GCP user email from gcloud CLI"
                              user_email ;;
             (if negb (Py.truthy project_id') && negb (Py.truthy user_email')
              then log WARNING "gcloud CLI not configured or authenticated"
              else ret tt) ;;
             ret (project_id', user_email'))
            (fun e => gcp_cli_handler e (project_id', user_email)))
         (fun e => gcp_cli_handler e (project_id, user_email))
     else ret (project_id, user_email)) ;;
  d <- getenv_or "GOOGLE_APPLICATION_CREDENTIALS" PNone ;;
  credentials_file <- lift (Py.get gcp_config "credentials_file" d) ;;
  ret (drop_none
         [("project_id", fst ids); ("region", region);
          ("user_email", snd ids); ("credentials_file", credentials_file)]).

Definition get_provider_credentials (self : t) (provider : PyVal)
  : M Py.dict :=
  if Py.eq_str provider "aws" then get_aws_credentials self
  else if Py.eq_str provider "azure" then get_azure_credentials self
  else if Py.eq_str provider "gcp" then get_gcp_credentials self
  else raise {| exn_class := ValueError;
                exn_str := "Unsupported provider: " +:+ py_str provider |}.

(** [if creds.get(k): env_vars[var] = creds[k]], over a list of pairs *)
Fixpoint export_present (creds : Py.dict) (fields : list (string * string))
                        (env_vars : Py.dict) : Py.dict :=
  match fields with
  | [] => env_vars
  | (k, var) :: r =>
      let v := default PNone (Py.dict_lookup k creds) in
      export_present creds r
        (if Py.truthy v then Py.dict_set var v env_vars else env_vars)
  end.

(** One round of the loop over [challenge_variables.items()] *)
Definition export_variable (environ : gmap string string)
                           (env_vars : Py.dict) (kv : string * PyVal)
  : Py.dict :=
  let '(key, value) := kv in
  match value with
  | PStr v =>
      if PyStr.startswith "${" v && PyStr.endswith "}" v then
        let env_var := PyStr.slice_2_m1 v in
        match environ !! env_var with
        | Some x => Py.dict_set ("TF_VAR_" +:+ key) (PStr x) env_vars
        | None => env_vars
        end
      else Py.dict_set ("TF_VAR_" +:+ key) (PStr (py_str value)) env_vars
  | _ => Py.dict_set ("TF_VAR_" +:+ key) (PStr (py_str value)) env_vars
  end.

Definition setup_environment_variables (self : t) (provider : PyVal)
                                       (challenge_variables : PyVal)
  : M Py.dict :=
  env_vars <-
    (if Py.eq_str provider "aws" then
       aws_creds <- get_aws_credentials self ;;
       ret (export_present aws_creds
              [("profile", "AWS_PROFILE"); ("region", "AWS_DEFAULT_REGION");
               ("access_key_id", "AWS_ACCESS_KEY_ID");
               ("secret_access_key", "AWS_SECRET_ACCESS_KEY");
               ("session_token", "AWS_SESSION_TOKEN")] [])
     else if Py.eq_str provider "azure" then
       azure_creds <- get_azure_credentials self ;;
       ret (export_present azure_creds
              [("subscription_id", "AZURE_SUBSCRIPTION_ID");
               ("tenant_id", "AZURE_TENANT_ID");
               ("client_id", "AZURE_CLIENT_ID");
               ("client_secret", "AZURE_CLIENT_SECRET")] [])
     else if Py.eq_str provider "gcp" then
       gcp_creds <- get_gcp_credentials self ;;
       ret (export_present gcp_creds
              [("project_id", "GCP_PROJECT_ID"); ("region", "GCP_REGION");
               ("user_email", "GCP_USER_EMAIL");
               ("credentials_file", "GOOGLE_APPLICATION_CREDENTIALS")] [])
     else ret []) ;;
  if Py.truthy challenge_variables then
    items <- lift (Py.items challenge_variables) ;;
    reads (fun s => fold_left (export_variable (environ s)) items env_vars)
  else ret env_vars.

End CredentialManager.
End CredentialManager.

(** ** [lib/challenge.py]: the descriptor *)

Inductive ChallengeStatus : Type :=
| NOT_DEPLOYED | DEPLOYING | DEPLOYED | DESTROYING | FAILED | UNKNOWN.

Definition ChallengeStatus_eqb (a b : ChallengeStatus) : bool :=
  match a, b with
  | NOT_DEPLOYED, NOT_DEPLOYED | DEPLOYING, DEPLOYING | DEPLOYED, DEPLOYED
  | DESTROYING, DESTROYING | FAILED, FAILED | UNKNOWN, UNKNOWN => true
  | _, _ => false
  end.

Module Challenge.
Section Challenge.
Context `{Platform}.

Record t : Type := {
  name : string;
  config : PyVal;
  base_path : string;
  provider : PyVal;
  difficulty : PyVal;
  description : PyVal;
  directory : PyVal;
  backend_config : PyVal;
  web_content : PyVal;
  variables : PyVal;
  outputs : PyVal;
  tags : PyVal;
  full_directory_path : option string;
  full_backend_config_path : option string;
  full_web_content_path : option string
}.

(** [self.base_path / rel if rel else None] *)
Definition path_under (base : string) (rel : PyVal) : Res (option string) :=
  if Py.truthy rel then
    match rel with
    | PStr r => Ok (Some (joinpath base r))
    | _ => Raise {| exn_class := TypeError;
                    exn_str := "unsupported operand type(s) for /: 'PosixPath' and '"
                               +:+ Py.type_name rel +:+ "'" |}
    end
  else Ok None.

(** [Challenge(name, config, base_path)] *)
Definition init (name : string) (config : PyVal) (base_path : string)
  : Res t :=
  res_bind (Py.get config "provider" PNone) (fun provider =>
  res_bind (Py.get config "difficulty" PNone) (fun difficulty =>
  res_bind (Py.get config "description" (PStr "")) (fun description =>
  res_bind (Py.get config "directory" PNone) (fun directory =>
  res_bind (Py.get config "backend_config" PNone) (fun backend_config =>
  res_bind (Py.get config "web_content" PNone) (fun web_content =>
  res_bind (Py.get config "variables" (PDict [])) (fun variables =>
  res_bind (Py.get config "outputs" (PList [])) (fun outputs =>
  res_bind (Py.get config "tags" (PList [])) (fun tags =>
  res_bind (path_under base_path directory) (fun full_directory_path =>
  res_bind (path_under base_path backend_config) (fun full_backend_config_path =>
  res_bind (path_under base_path web_content) (fun full_web_content_path =>
  Ok {| name := name; config := config; base_path := base_path;
        provider := provider; difficulty := difficulty;
        description := description; directory := directory;
        backend_config := backend_config; web_content := web_content;
        variables := variables; outputs := outputs; tags := tags;
        full_directory_path := full_directory_path;
        full_backend_config_path := full_backend_config_path;
        full_web_content_path := full_web_content_path |})))))))))))).

End Challenge.
End Challenge.

(** ** Methods of [Challenge] and [TerraformManager]

    The two Python modules import each other (the resolver of
    [challenge.py] calls [TerraformManager.get_outputs], and
    [TerraformManager.apply] calls
    [Challenge.create_terraform_variables_file]), so their methods are
    given together, in dependency order. A [TerraformManager] is
    determined by its credential manager. *)

Section Methods.
Context `{Platform}.

Definition terraform_state_list (dir : string) : Invocation :=
  {| argv := ["terraform"; "state"; "list"];
     cwd := Some dir; env := None; capture_output := true; timeout := 30 |}.

(** [Challenge.get_status_from_terraform_state] *)
Definition get_status_from_terraform_state (self : Challenge.t)
  : M ChallengeStatus :=
  match Challenge.full_directory_path self with
  | None => ret UNKNOWN
  | Some full_directory_path =>
      let terraform_dir := joinpath full_directory_path ".terraform" in
      ex <- path_exists terraform_dir ;;
      if negb ex then ret NOT_DEPLOYED
      else
        try_except
          (result <- run (terraform_state_list full_directory_path) ;;
           if (returncode result =? 0)%Z then
             if PyStr.truthy (PyStr.strip (stdout result))
             then ret DEPLOYED
             else ret NOT_DEPLOYED
           else
             if PyStr.contains "No state file was found" (stderr result)
                || PyStr.contains "Failed to load state" (stderr result)
             then ret NOT_DEPLOYED
             else
               log WARNING ("Terraform state list failed: "
                            +:+ stderr result) ;;
               ret UNKNOWN)
          (fun e =>
             match exn_class e with
             | TimeoutExpired =>
                 log WARNING "Terraform state list command timed out" ;;
                 ret UNKNOWN
             | FileNotFoundError =>
                 log WARNING "Terraform command not found" ;;
                 ret UNKNOWN
             | _ =>
                 log WARNING ("Error checking Terraform state: "
                              +:+ exn_str e) ;;
                 ret UNKNOWN
             end)
  end.

(** [os.environ.copy()] updated with [env_vars] *)
Definition subprocess_env (environ : gmap string string)
                          (env_vars : Py.dict) : gmap string PyVal :=
  fold_left (fun m kv => <[fst kv := snd kv]> m) env_vars (PStr <$> environ).

Definition list_in (x : string) (l : list string) : bool :=
  existsb (String.eqb x) l.

(** [TerraformManager._run_terraform_command]: (success, stdout, stderr) *)
Definition _run_terraform_command (command : list string)
                                  (working_dir : string)
                                  (env_vars : Py.dict) (timeout : Z)
  : M (bool * string * string) :=
  env <- reads (fun s => subprocess_env (environ s) env_vars) ;;
  let cmd_str := String.concat " " command in
  tf_log (LogCommand cmd_str working_dir) ;;
  try_except
    (if (list_in "apply" command || list_in "destroy" command)
        && negb (list_in "-auto-approve" command)
     then
       result <- run {| argv := command; cwd := Some working_dir;
                        env := Some env;
                        capture_output := false; timeout := timeout |} ;;
       ret ((returncode result =? 0)%Z, EmptyString, EmptyString)
     else
       result <- run {| argv := command; cwd := Some working_dir;
                        env := Some env;
                        capture_output := true; timeout := timeout |} ;;
       let success := (returncode result =? 0)%Z in
       (if PyStr.truthy (stdout result)
        then tf_log (LogOutput (stdout result)) else ret tt) ;;
       (if PyStr.truthy (stderr result)
        then tf_log (LogOutput (stderr result)) else ret tt) ;;
       tf_log (LogResult cmd_str success) ;;
       ret (success, stdout result, stderr result))
    (fun e =>
       match exn_class e with
       | TimeoutExpired =>
           log ERROR ("Terraform command timed out after " +:+ pretty timeout
                      +:+ "s: " +:+ cmd_str) ;;
           tf_log (LogResult cmd_str false) ;;
           ret (false, EmptyString,
                "Command timed out after " +:+ pretty timeout +:+ "s")
       | _ =>
           log ERROR ("Error executing terraform command: " +:+ exn_str e) ;;
           tf_log (LogResult cmd_str false) ;;
           ret (false, EmptyString, exn_str e)
       end).

(** [{k: v.get('value', v) for k, v in outputs.items()}] *)
Definition output_values (outputs : PyVal) : Res Py.dict :=
  res_bind (Py.items outputs) (fun items =>
  res_mapM (fun kv => res_bind (Py.get (snd kv) "value" (snd kv))
                               (fun v => Ok (fst kv, v))) items).

Definition is_JSONDecodeError (c : ExnClass) : bool :=
  match c with JSONDecodeError => true | _ => false end.

(** [TerraformManager.get_outputs] *)
Definition get_outputs (self : CredentialManager.t)
                       (challenge : Challenge.t) (output_format : string)
  : M (bool * Py.dict) :=
  match Challenge.full_directory_path challenge with
  | None =>
      log ERROR ("Invalid directory path for challenge "
                 +:+ Challenge.name challenge) ;;
      ret (false, [])
  | Some full_directory_path =>
      env_vars <- CredentialManager.setup_environment_variables self
                    (Challenge.provider challenge)
                    (Challenge.variables challenge) ;;
      let command :=
        ["terraform"; "output"]
        ++ (if String.eqb output_format "json" then ["-json"] else []) in
      r <- _run_terraform_command command full_directory_path env_vars 600 ;;
      let '(success, stdout, stderr) := r in
      if negb success then
        log ERROR ("Failed to get outputs for " +:+ Challenge.name challenge
                   +:+ ": " +:+ stderr) ;;
        ret (false, [])
      else if String.eqb output_format "json" && PyStr.truthy stdout then
        try_except_on is_JSONDecodeError
          (outputs <- lift (json_loads stdout) ;;
           values <- lift (output_values outputs) ;;
           ret (true, values))
          (fun e =>
             log ERROR ("Failed to parse JSON outputs: " +:+ exn_str e) ;;
             ret (false, []))
      else ret (true, [("raw_output", PStr stdout)])
  end.

(** [f"${{{dependency}}}"] *)
Definition unresolved (dependency : string) : string :=
  "${" +:+ dependency +:+ "}".

(** The managers that [_resolve_challenge_dependency] builds afresh, and
    the configuration it finds for the challenge referred to:
    [TerraformManager(CredentialManager(ConfigLoader(base / "config")))]
    and [config_loader.get_challenge_config(challenge_name)]. *)
Definition dependency_context (self : Challenge.t) (challenge_name : string)
  : M (CredentialManager.t * PyVal) :=
  let config_loader :=
    ConfigLoader.init (joinpath (Challenge.base_path self) "config") in
  r <- CredentialManager.init config_loader ;;
  let config_loader := fst r in
  let terraform_manager := snd r in
  r <- ConfigLoader.get_challenge_config config_loader challenge_name ;;
  ret (terraform_manager, snd r).

(** The body of the [try] of [_resolve_challenge_dependency] *)
Definition dependency_lookup (self : Challenge.t) (dependency : string)
  : M string :=
  match PyStr.split1 "." dependency with
  | [challenge_name; output_name] =>
      ctx <- dependency_context self challenge_name ;;
      let terraform_manager := fst ctx in
      let dependency_config := snd ctx in
      if negb (Py.truthy dependency_config) then
        log ERROR ("Dependency challenge not found: " +:+ challenge_name) ;;
        ret (unresolved dependency)
      else
        dependency_challenge <-
          lift (Challenge.init challenge_name dependency_config
                               (Challenge.base_path self)) ;;
        status <- get_status_from_terraform_state dependency_challenge ;;
        if negb (ChallengeStatus_eqb status DEPLOYED) then
          log ERROR ("Dependency challenge " +:+ challenge_name
                     +:+ " is not deployed") ;;
          ret (unresolved dependency)
        else
          r <- get_outputs terraform_manager dependency_challenge "json" ;;
          let '(success, outputs) := r in
          (* [if not success or output_name not in outputs] *)
          match (if success then Py.dict_lookup output_name outputs
                 else None) with
          | None =>
              log ERROR ("Could not get output " +:+ output_name
                         +:+ " from " +:+ challenge_name) ;;
              ret (unresolved dependency)
          | Some resolved_value =>
              log INFO ("✅ Resolved dependency " +:+ dependency
                        +:+ " = '" +:+ py_str resolved_value +:+ "'") ;;
              ret (py_str resolved_value)
          end
  | _ =>
      log WARNING ("Invalid dependency format: " +:+ dependency) ;;
      ret (unresolved dependency)
  end.

Definition dependency_error (dependency : string) (e : Exn) : Event :=
  ELog ERROR ("Error resolving challenge dependency " +:+ dependency
              +:+ ": " +:+ exn_str e).

(** [Challenge._resolve_challenge_dependency] *)
Definition _resolve_challenge_dependency (self : Challenge.t)
                                         (dependency : string) : M string :=
  try_except
    (dependency_lookup self dependency)
    (fun e =>
       emit (dependency_error dependency e) ;;
       ret (unresolved dependency)).

Definition var_mapping : list (string * string) :=
  [("AZURE_SUBSCRIPTION_ID", "subscription_id");
   ("AZURE_TENANT_ID", "tenant_id");
   ("AZURE_CLIENT_ID", "client_id");
   ("AZURE_CLIENT_SECRET", "client_secret");
   ("AWS_ACCESS_KEY_ID", "access_key_id");
   ("AWS_SECRET_ACCESS_KEY", "secret_access_key");
   ("GCP_PROJECT_ID", "project_id");
   ("GCP_REGION", "region");
   ("GCP_USER_EMAIL", "user_email")].

Fixpoint assoc (k : string) (l : list (string * string)) : option string :=
  match l with
  | [] => None
  | (k', v) :: r => if String.eqb k k' then Some v else assoc k r
  end.

(** The value found in the provider credentials through [var_mapping]:
    [var_name in var_mapping] and [cred_key in provider_creds]. *)
Definition credential_for (var_name : string) (provider_creds : Py.dict)
  : option PyVal :=
  match assoc var_name var_mapping with
  | Some cred_key => Py.dict_lookup cred_key provider_creds
  | None => None
  end.

(** [Challenge._resolve_variable_value] *)
Definition _resolve_variable_value (self : Challenge.t) (value : PyVal)
                                   (provider_creds : Py.dict) : M PyVal :=
  match value with
  | PStr v =>
      if PyStr.startswith "${" v && PyStr.endswith "}" v then
        let var_name := PyStr.slice_2_m1 v in
        if PyStr.contains "." var_name then
          r <- _resolve_challenge_dependency self var_name ;;
          ret (PStr r)
        else
          match credential_for var_name provider_creds with
          | Some resolved =>
              log INFO ("Resolved " +:+ var_name
                        +:+ " from provider credentials") ;;
              ret resolved
          | None =>
              resolved <- getenv var_name ;;
              match resolved with
              | Some r =>
                  if PyStr.truthy r then
                    log INFO ("Resolved " +:+ var_name
                              +:+ " from environment variable") ;;
                    ret (PStr r)
                  else
                    log WARNING ("Could not resolve variable " +:+ var_name
                                 +:+ ", using original value") ;;
                    ret value
              | None =>
                  log WARNING ("Could not resolve variable " +:+ var_name
                               +:+ ", using original value") ;;
                  ret value
              end
          end
      else ret value
  | _ => ret value
  end.

(** One assignment line of [terraform.tfvars] *)
Definition tfvars_line (key : string) (resolved_value : PyVal) : string :=
  match resolved_value with
  | PStr r => key +:+ " = " +:+ dquote +:+ r +:+ dquote
  | PBool b => key +:+ " = " +:+ PyStr.lower (py_str resolved_value)
  | PInt _ | PFloat _ => key +:+ " = " +:+ py_str resolved_value
  | _ => key +:+ " = " +:+ dquote +:+ py_str resolved_value +:+ dquote
  end.

(** [Challenge.get_terraform_variables_file_content] *)
Definition get_terraform_variables_file_content (self : Challenge.t)
  : M string :=
  let header :=
    ["# Auto-generated variables file for CTF Manager";
     "# Challenge: " +:+ Challenge.name self;
     "# Provider: " +:+ py_str (Challenge.provider self);
     EmptyString] in
  provider_creds <-
    try_except
      (let config_loader :=
         ConfigLoader.init (joinpath (Challenge.base_path self) "config") in
       r <- CredentialManager.init config_loader ;;
       CredentialManager.get_provider_credentials (snd r)
         (Challenge.provider self))
      (fun e =>
         log WARNING ("Could not get credentials for variable resolution: "
                      +:+ exn_str e) ;;
         ret []) ;;
  items <- lift (Py.items (Challenge.variables self)) ;;
  lines <- mapM (fun kv =>
                   resolved_value <-
                     _resolve_variable_value self (snd kv) provider_creds ;;
                   ret (tfvars_line (fst kv) resolved_value))
                items ;;
  ret (String.concat newline (header ++ lines) +:+ newline).

(** [Challenge.create_terraform_variables_file] *)
Definition create_terraform_variables_file (self : Challenge.t) : M string :=
  match Challenge.full_directory_path self with
  | None => raise {| exn_class := ValueError;
                     exn_str := "Challenge directory not set" |}
  | Some full_directory_path =>
      let tfvars_path := joinpath full_directory_path "terraform.tfvars" in
      content <- get_terraform_variables_file_content self ;;
      write_text tfvars_path content ;;
      log DEBUG ("Created terraform.tfvars for " +:+ Challenge.name self
                 +:+ ": " +:+ tfvars_path) ;;
      ret tfvars_path
  end.

(** [try: challenge.create_terraform_variables_file()
     except Exception as e: warning] *)
Definition regenerate_variables_file (challenge : Challenge.t) : M unit :=
  try_except
    (create_terraform_variables_file challenge ;; ret tt)
    (fun e =>
       log WARNING ("Could not create variables file: " +:+ exn_str e)).

(** [-var-file <path>] when asked for and the file is there *)
Definition var_file_args (full_directory_path : string) (var_file : bool)
  : M (list string) :=
  if var_file then
    let tfvars_file := joinpath full_directory_path "terraform.tfvars" in
    ex <- path_exists tfvars_file ;;
    ret (if ex then ["-var-file"; tfvars_file] else [])
  else ret [].

(** [2400 if challenge.name == 'challenge-04-aws-only' else 1200] *)
Definition lifecycle_timeout (challenge : Challenge.t) : Z :=
  if String.eqb (Challenge.name challenge) "challenge-04-aws-only"
  then 2400 else 1200.

(** [TerraformManager.plan]: (success, plan_output) *)
Definition plan (self : CredentialManager.t) (challenge : Challenge.t)
                (var_file : bool) : M (bool * string) :=
  match Challenge.full_directory_path challenge with
  | None =>
      log ERROR ("Invalid directory path for challenge "
                 +:+ Challenge.name challenge) ;;
      ret (false, EmptyString)
  | Some full_directory_path =>
      (if var_file then regenerate_variables_file challenge else ret tt) ;;
      env_vars <- CredentialManager.setup_environment_variables self
                    (Challenge.provider challenge)
                    (Challenge.variables challenge) ;;
      extra <- var_file_args full_directory_path var_file ;;
      let command := ["terraform"; "plan"] ++ extra in
      r <- _run_terraform_command command full_directory_path env_vars 600 ;;
      let '(success, stdout, stderr) := r in
      (if success then
         log INFO ("Terraform plan successful for "
                   +:+ Challenge.name challenge)
       else
         log ERROR ("Terraform plan failed for "
                    +:+ Challenge.name challenge) ;;
         log ERROR ("Error: " +:+ stderr)) ;;
      ret (success, stdout)
  end.

(** [TerraformManager.apply] *)
Definition apply (self : CredentialManager.t) (challenge : Challenge.t)
                 (auto_approve var_file : bool) : M bool :=
  match Challenge.full_directory_path challenge with
  | None =>
      log ERROR ("Invalid directory path for challenge "
                 +:+ Challenge.name challenge) ;;
      ret false
  | Some full_directory_path =>
      (if var_file then regenerate_variables_file challenge else ret tt) ;;
      env_vars <- CredentialManager.setup_environment_variables self
                    (Challenge.provider challenge)
                    (Challenge.variables challenge) ;;
      extra <- var_file_args full_directory_path var_file ;;
      let command :=
        ["terraform"; "apply"]
        ++ (if auto_approve then ["-auto-approve"] else []) ++ extra in
      r <- _run_terraform_command command full_directory_path env_vars
             (lifecycle_timeout challenge) ;;
      let '(success, stdout, stderr) := r in
      (if success then
         log INFO ("Terraform apply successful for "
                   +:+ Challenge.name challenge)
       else
         log ERROR ("Terraform apply failed for "
                    +:+ Challenge.name challenge) ;;
         log ERROR ("Error: " +:+ stderr)) ;;
      ret success
  end.

(** [TerraformManager.destroy] *)
Definition destroy (self : CredentialManager.t) (challenge : Challenge.t)
                   (auto_approve var_file : bool) : M bool :=
  match Challenge.full_directory_path challenge with
  | None =>
      log ERROR ("Invalid directory path for challenge "
                 +:+ Challenge.name challenge) ;;
      ret false
  | Some full_directory_path =>
      env_vars <- CredentialManager.setup_environment_variables self
                    (Challenge.provider challenge)
                    (Challenge.variables challenge) ;;
      extra <- var_file_args full_directory_path var_file ;;
      let command :=
        ["terraform"; "destroy"]
        ++ (if auto_approve then ["-auto-approve"] else []) ++ extra in
      r <- _run_terraform_command command full_directory_path env_vars
             (lifecycle_timeout challenge) ;;
      let '(success, stdout, stderr) := r in
      (if success then
         log INFO ("Terraform destroy successful for "
                   +:+ Challenge.name challenge)
       else
         log ERROR ("Terraform destroy failed for "
                    +:+ Challenge.name challenge) ;;
         log ERROR ("Error: " +:+ stderr)) ;;
      ret success
  end.

End Methods.

(** ** [ctf-manager.py]: the destroy operations of [CTFManager]

    The manager owns one configuration loader, whose cache a lookup may
    fill; each method hands the manager back together with its result. *)

Module CTFManager.
Section CTFManager.
Context `{Platform}.

Record t : Type := {
  base_path : string;
  config_loader : ConfigLoader.t;
  terraform_manager : CredentialManager.t
}.

Definition with_loader (self : t) (cl : ConfigLoader.t) : t :=
  {| base_path := base_path self; config_loader := cl;
     terraform_manager := terraform_manager self |}.

(** [None] of Python is [None] here. *)
Definition get_challenge (self : t) (challenge_name : string)
  : M (t * option Challenge.t) :=
  r <- ConfigLoader.get_challenge_config (config_loader self) challenge_name ;;
  let self := with_loader self (fst r) in
  let config := snd r in
  if negb (Py.truthy config) then ret (self, None)
  else
    c <- lift (Challenge.init challenge_name config (base_path self)) ;;
    ret (self, Some c).

Definition get_all_challenges (self : t) : M (t * list Challenge.t) :=
  r <- ConfigLoader.get_all_challenges (config_loader self) ;;
  let self := with_loader self (fst r) in
  items <- lift (Py.items (snd r)) ;;
  cs <- lift (res_mapM (fun kv => Challenge.init (fst kv) (snd kv)
                                                 (base_path self)) items) ;;
  ret (self, cs).

Definition destroy_challenge (self : t) (challenge_name : string)
                             (auto_approve : bool) : M (t * bool) :=
  r <- get_challenge self challenge_name ;;
  let self := fst r in
  match snd r with
  | None =>
      log ERROR ("Challenge not found: " +:+ challenge_name) ;;
      ret (self, false)
  | Some challenge =>
      status <- get_status_from_terraform_state challenge ;;
      if ChallengeStatus_eqb status NOT_DEPLOYED then ret (self, true)
      else
        ok <- destroy (terraform_manager self) challenge auto_approve true ;;
        if negb ok then
          log ERROR "Terraform destroy failed" ;;
          ret (self, false)
        else ret (self, true)
  end.

Definition is_deployed (c : Challenge.t) : M bool :=
  status <- get_status_from_terraform_state c ;;
  ret (ChallengeStatus_eqb status DEPLOYED).

Definition destroy_all_prompt : string :=
  newline
  +:+ "⚠️  This will destroy ALL deployed challenges. Continue? (yes/no): ".

(** One round of the loop: the manager and the success count so far. *)
Definition destroy_next (acc : t * nat) (challenge : Challenge.t)
  : M (t * nat) :=
  r <- destroy_challenge (fst acc) (Challenge.name challenge) true ;;
  if snd r then ret (fst r, S (snd acc))
  else
    log ERROR ("Failed to destroy " +:+ Challenge.name challenge) ;;
    ret (fst r, snd acc).

Definition destroy_all_challenges (self : t) (auto_approve : bool)
  : M (t * bool) :=
  r <- get_all_challenges self ;;
  let self := fst r in
  deployed_challenges <- filterM is_deployed (snd r) ;;
  match deployed_challenges with
  | [] => ret (self, true)
  | _ =>
      go <- (if negb auto_approve then
               response <- input destroy_all_prompt ;;
               ret (String.eqb (PyStr.lower response) "yes")
             else ret true) ;;
      if negb go then ret (self, false)
      else
        r <- foldM destroy_next deployed_challenges (self, 0) ;;
        ret (fst r, Nat.eqb (snd r) (length deployed_challenges))
  end.

End CTFManager.
End CTFManager.

(** ** A fake platform and a small deployment, for concrete runs *)

Module Fixture.

(** A scripted stand-in for the external tools: subprocesses answer by
    [script] and leave the file system alone; the parsers are tables. *)
Definition fake (script : Invocation -> Outcome)
                (yaml json : string -> Res PyVal) : Platform :=
  {| joinpath := fun base part => base +:+ "/" +:+ part;
     subprocess_run := fun inv s => (script inv, fs s);
     json_loads := json;
     yaml_safe_load := yaml;
     open_w_error := fun _ _ => None;
     py_repr := fun _ => "<object>" |}.

Definition completed (rc : Z) (out err : string) : Outcome :=
  Completed {| returncode := rc; stdout := out; stderr := err |}.

Definition not_found : Outcome :=
  Raised {| exn_class := FileNotFoundError;
            exn_str := "No such file or directory: 'terraform'" |}.

Definition argv_is (inv : Invocation) (l : list string) : bool :=
  bool_decide (argv inv = l).

Definition cwd_is (inv : Invocation) (d : string) : bool :=
  bool_decide (cwd inv = Some d).

(** The registry: [challenge-x] and [challenge-y] have a directory,
    [challenge-y] refers to an output of [challenge-x],
    [challenge-z] has no directory, [challenge-w] has [variables: null]
    and a variables file left from an earlier run, and
    [challenge-04-aws-only] is the heavyweight one. *)
Definition challenges_doc : PyVal :=
  PDict [("challenges", PDict [
    ("challenge-x", PDict [("provider", PStr "aws");
                           ("directory", PStr "x");
                           ("backend_config", PStr "x/backend.hcl")]);
    ("challenge-y", PDict [("provider", PStr "aws");
                           ("directory", PStr "y");
                           ("backend_config", PStr "y/backend.hcl");
                           ("variables", PDict [
                              ("db_pass", PStr "${challenge-x.db_password}");
                              ("replicas", PInt 2)])]);
    ("challenge-z", PDict [("provider", PStr "aws")]);
    ("challenge-w", PDict [("provider", PStr "aws");
                           ("directory", PStr "w");
                           ("backend_config", PStr "w/backend.hcl");
                           ("variables", PNone)]);
    ("challenge-04-aws-only", PDict [("provider", PStr "aws");
                                     ("directory", PStr "dc");
                                     ("backend_config", PStr "dc/backend.hcl")])])].

Definition yaml (text : string) : Res PyVal :=
  if String.eqb text "registry" then Ok challenges_doc
  else Raise {| exn_class := YAMLError; exn_str := "could not parse" |}.

(** [challenge-x] exposes [db_password]; its second output is itself a
    reference-shaped string. *)
Definition outputs_x : PyVal :=
  PDict [("db_password", PDict [("value", PStr "s3cr3t")]);
         ("chained", PDict [("value", PStr "${challenge-y.db_pass}")])].

Definition json (text : string) : Res PyVal :=
  if String.eqb text "outputs of x" then Ok outputs_x
  else if String.eqb text "a list" then Ok (PList [PInt 1])
  else Raise {| exn_class := JSONDecodeError; exn_str := "Expecting value" |}.

Definition files : gmap string Node :=
  <["/ctf/config/challenges.yaml" := File "registry"]>
  (<["/ctf/x/.terraform" := Dir]>
  (<["/ctf/y/.terraform" := Dir]>
  (<["/ctf/y/main.tf" := File "resource"]>
  (<["/ctf/w/terraform.tfvars" := File "stale"]> ∅)))).


Definition world (answers : list string) : Sys :=
  {| fs := files;
     environ := <["AWS_ACCESS_KEY_ID" := "from-environment"]>
                (<["REGION" := "eu-west-1"]> ∅);
     stdin := answers; events := [] |}.

(** [challenge-x] and [challenge-y] are deployed. *)
Definition script_deployed (inv : Invocation) : Outcome :=
  if argv_is inv ["terraform"; "state"; "list"] then
    completed 0 ("aws_instance.web" +:+ newline) ""
  else if argv_is inv ["terraform"; "output"; "-json"] && cwd_is inv "/ctf/x"
  then completed 0 "outputs of x" ""
  else completed 0 "" "".

(** [challenge-x] has an initialised directory but no resources. *)
Definition script_empty (inv : Invocation) : Outcome :=
  if argv_is inv ["terraform"; "state"; "list"] then completed 0 "" ""
  else completed 0 "" "".




(** The provisioning tool is not installed. *)
Definition script_missing (inv : Invocation) : Outcome := not_found.

Definition deployed : Platform := fake script_deployed yaml json.
Definition empty : Platform := fake script_empty yaml json.
Definition missing : Platform := fake script_missing yaml json.

(** A descriptor built the way [Challenge(...)] builds it. *)
Definition challenge `{Platform} (name : string) : option Challenge.t :=
  match challenges_doc with
  | PDict [(_, PDict cs)] =>
      match Py.dict_lookup name cs with
      | Some cfg =>
          match Challenge.init name cfg "/ctf" with
          | Ok c => Some c
          | Raise _ => None
          end
      | None => None
      end
  | _ => None
  end.

Definition nobody : Challenge.t :=
  {| Challenge.name := ""; Challenge.config := PNone;
     Challenge.base_path := ""; Challenge.provider := PNone;
     Challenge.difficulty := PNone; Challenge.description := PNone;
     Challenge.directory := PNone; Challenge.backend_config := PNone;
     Challenge.web_content := PNone; Challenge.variables := PNone;
     Challenge.outputs := PNone; Challenge.tags := PNone;
     Challenge.full_directory_path := None;
     Challenge.full_backend_config_path := None;
     Challenge.full_web_content_path := None |}.

Definition x : Challenge.t := default nobody (@challenge deployed "challenge-x").
Definition y : Challenge.t := default nobody (@challenge deployed "challenge-y").
Definition z : Challenge.t := default nobody (@challenge deployed "challenge-z").
Definition w : Challenge.t := default nobody (@challenge deployed "challenge-w").
Definition dc : Challenge.t :=
  default nobody (@challenge deployed "challenge-04-aws-only").

Definition no_credentials : CredentialManager.t :=
  {| CredentialManager.credentials := PDict [] |}.

Definition manager : CTFManager.t :=
  {| CTFManager.base_path := "/ctf";
     CTFManager.config_loader := ConfigLoader.init "/ctf/config";
     CTFManager.terraform_manager := no_credentials |}.

End Fixture.

(** ** Vocabulary of the properties *)

(** A declared value that the resolver treats as a reference: a string
    that starts with [${] and ends with [}]. *)
Definition is_reference (value : PyVal) : bool :=
  match value with
  | PStr v => PyStr.startswith "${" v && PyStr.endswith "}" v
  | _ => false
  end.



Definition is_log (e : Event) : Prop :=
  match e with ELog _ _ | ETfLog _ => True | _ => False end.


(** The warning of the resolver for a bare reference it cannot resolve. *)
Definition unresolved_warning (tok : string) : Event :=
  ELog WARNING ("Could not resolve variable " +:+ tok
                +:+ ", using original value").

(** Every event that [m] adds to the trace satisfies [P]. *)
Definition emits {A} (P : Event -> Prop) (m : M A) : Prop :=
  forall s, exists new,
    events (snd (m s)) = new ++ events s /\ Forall P new.

(** A call of the provisioning tool's subcommand [sub]. *)
Definition is_terraform (sub : string) (inv : Invocation) : bool :=
  match argv inv with
  | prog :: arg :: _ => String.eqb prog "terraform" && String.eqb arg sub
  | _ => false
  end.

(** The subprocesses that only ask: the cloud CLIs' account queries and
    the provisioning tool's [state list] and [output]. *)
Definition is_query (inv : Invocation) : bool :=
  match argv inv with
  | prog :: _ =>
      String.eqb prog "az" || String.eqb prog "gcloud"
      || is_terraform "state" inv || is_terraform "output" inv
  | [] => false
  end.

(** Log records and querying subprocesses. *)
Definition benign (e : Event) : Prop :=
  match e with
  | ELog _ _ | ETfLog _ => True
  | ESpawn inv => is_query inv = true
  | _ => False
  end.

Definition is_write (e : Event) : Prop :=
  match e with EWrite _ _ => True | _ => False end.

Definition is_destroy_spawn (e : Event) : Prop :=
  match e with ESpawn inv => is_terraform "destroy" inv = true | _ => False end.

(** The spawn of subcommand [sub] for [challenge], with the timeout in
    seconds that the specification gives for its name. *)
Definition lifecycle_spawn (sub : string) (challenge : Challenge.t)
                           (e : Event) : Prop :=
  match e with
  | ESpawn inv =>
      is_terraform sub inv = true /\
      cwd inv = Challenge.full_directory_path challenge /\
      timeout inv = (if String.eqb (Challenge.name challenge)
                                   "challenge-04-aws-only"
                     then 2400 else 1200)%Z
  | _ => False
  end.

(** An apply or destroy of the provisioning tool runs with the timeout
    that the specification gives for the name of [challenge]. *)
Definition timeout_respected (challenge : Challenge.t) (e : Event) : Prop :=
  match e with
  | ESpawn inv =>
      is_terraform "apply" inv = true \/ is_terraform "destroy" inv = true ->
      timeout inv = (if String.eqb (Challenge.name challenge)
                                   "challenge-04-aws-only"
                     then 2400 else 1200)%Z
  | _ => True
  end.

Definition wrote (e : Event) : bool :=
  match e with EWrite _ _ => true | _ => false end.

Definition started (sub : string) (e : Event) : bool :=
  match e with ESpawn inv => is_terraform sub inv | _ => false end.


(** * More of the code

    The rest of the five modules: validation of a descriptor, the
    remaining methods of the credential and Terraform managers, the
    deployment operations and the preparation scripts of
    [ctf-manager.py], the substitution of the configuration loader and
    the levels that the logger gives to Terraform's output. *)

(** ** More of Python's strings *)

Module PyText.

(** [s.split(sep)] for a one-character separator *)
Fixpoint split (sep : ascii) (s : string) : list string :=
  match s with
  | EmptyString => [EmptyString]
  | String c t =>
      if Ascii.eqb c sep then EmptyString :: split sep t
      else match split sep t with
           | h :: r => String c h :: r
           | [] => [String c EmptyString]
           end
  end.

(** [s.split('\n')] *)
Definition lines (s : string) : list string := split (ascii_of_nat 10) s.

Definition upper_char (c : ascii) : ascii :=
  let n := nat_of_ascii c in
  if (97 <=? n) && (n <=? 122) then ascii_of_nat (n - 32) else c.

Fixpoint upper (s : string) : string :=
  match s with
  | EmptyString => EmptyString
  | String c t => String (upper_char c) (upper t)
  end.

(** [x in l] for a list of string literals *)
Definition among (x : string) (l : list string) : bool :=
  existsb (String.eqb x) l.

End PyText.

(** ** [Challenge.validate] *)

Section Validate.
Context `{Platform}.

(** [v in ['aws', 'azure', 'gcp']] *)
Definition supported_provider (v : PyVal) : bool :=
  Py.eq_str v "aws" || Py.eq_str v "azure" || Py.eq_str v "gcp".

(** [path and not path.exists()] for a computed path *)
Definition missing_on_disk (p : option string) : M (option string) :=
  match p with
  | None => ret None
  | Some path => ex <- path_exists path ;;
                 ret (if ex then None else Some path)
  end.

(** [Challenge.validate]: (is_valid, errors) *)
Definition validate (self : Challenge.t) : M (bool * list string) :=
  let errors := [] in
  let errors :=
    if negb (PyStr.truthy (Challenge.name self))
    then errors ++ ["Challenge name is required"] else errors in
  let errors :=
    if negb (Py.truthy (Challenge.provider self))
    then errors ++ ["Provider is required"]
    else if negb (supported_provider (Challenge.provider self))
    then errors ++ ["Invalid provider: " +:+ py_str (Challenge.provider self)]
    else errors in
  errors <-
    (if negb (Py.truthy (Challenge.directory self))
     then ret (errors ++ ["Directory is required"])
     else
       gone <- missing_on_disk (Challenge.full_directory_path self) ;;
       ret (match gone with
            | Some path => errors ++ ["Challenge directory not found: " +:+ path]
            | None => errors
            end)) ;;
  errors <-
    (if negb (Py.truthy (Challenge.backend_config self))
     then ret (errors ++ ["Backend config is required"])
     else
       gone <- missing_on_disk (Challenge.full_backend_config_path self) ;;
       ret (match gone with
            | Some path => errors ++ ["Backend config file not found: " +:+ path]
            | None => errors
            end)) ;;
  errors <-
    (match Challenge.full_directory_path self with
     | Some full_directory_path =>
         let main_tf := joinpath full_directory_path "main.tf" in
         ex <- path_exists main_tf ;;
         ret (if negb ex
              then errors ++ ["main.tf not found in challenge directory: "
                              +:+ main_tf]
              else errors)
     | None => ret errors
     end) ;;
  errors <-
    (if Py.truthy (Challenge.web_content self) then
       gone <- missing_on_disk (Challenge.full_web_content_path self) ;;
       ret (match gone with
            | Some path => errors ++ ["Web content directory not found: " +:+ path]
            | None => errors
            end)
     else ret errors) ;;
  ret (Nat.eqb (length errors) 0, errors).

End Validate.

(** What [validate] asks of a descriptor and of the disk. *)
Definition well_formed `{Platform} (files : gmap string Node)
                       (c : Challenge.t) : Prop :=
  Challenge.name c <> EmptyString /\
  supported_provider (Challenge.provider c) = true /\
  Py.truthy (Challenge.directory c) = true /\
  Py.truthy (Challenge.backend_config c) = true /\
  (forall p, Challenge.full_directory_path c = Some p ->
             is_Some (files !! p) /\ is_Some (files !! joinpath p "main.tf")) /\
  (forall p, Challenge.full_backend_config_path c = Some p ->
             is_Some (files !! p)) /\
  (Py.truthy (Challenge.web_content c) = true ->
   forall p, Challenge.full_web_content_path c = Some p ->
             is_Some (files !! p)).

(** ** The rest of [lib/credential_manager.py] *)

Module CredentialChecks.
Section CredentialChecks.
Context `{Platform}.

(** [creds.get(k)] as a truth value *)
Definition has (creds : Py.dict) (k : string) : bool :=
  Py.truthy (default PNone (Py.dict_lookup k creds)).

(** [CredentialManager.validate_provider_credentials]:
    (is_valid, missing) *)
Definition validate_provider_credentials (self : CredentialManager.t)
                                         (provider : PyVal)
  : M (bool * list string) :=
  missing <-
    (if Py.eq_str provider "aws" then
       creds <- CredentialManager.get_aws_credentials self ;;
       ret (if negb (has creds "profile")
               && negb (has creds "access_key_id"
                        && has creds "secret_access_key")
            then ["AWS_PROFILE or (AWS_ACCESS_KEY_ID and AWS_SECRET_ACCESS_KEY)"]
            else [])
     else if Py.eq_str provider "azure" then
       creds <- CredentialManager.get_azure_credentials self ;;
       ret (flat_map (fun req => if negb (has creds req)
                                 then ["AZURE_" +:+ PyText.upper req] else [])
                     ["subscription_id"; "tenant_id"])
     else if Py.eq_str provider "gcp" then
       creds <- CredentialManager.get_gcp_credentials self ;;
       ret (if negb (has creds "project_id") then ["GCP_PROJECT_ID"] else [])
     else ret []) ;;
  ret (Nat.eqb (length missing) 0, missing).

Definition terraform_version : Invocation :=
  {| argv := ["terraform"; "version"]; cwd := None; env := None;
     capture_output := true; timeout := 10 |}.

(** The classes named by
    [except (TimeoutExpired, FileNotFoundError, SubprocessError)]; without
    [check=True] the only [SubprocessError] that [subprocess.run] raises
    is [TimeoutExpired]. *)
Definition installation_failure (c : ExnClass) : bool :=
  match c with
  | TimeoutExpired | FileNotFoundError => true
  | _ => false
  end.

(** [CredentialManager.check_terraform_installation]:
    (is_installed, version_string) *)
Definition check_terraform_installation : M (bool * option string) :=
  try_except_on installation_failure
    (result <- run terraform_version ;;
     if (returncode result =? 0)%Z then
       ret (true, head (PyText.lines (stdout result)))
     else ret (false, None))
    (fun _ => ret (false, None)).

(** The dictionary of [validate_environment]; its keys are fixed. *)
Record Readiness : Type := {
  r_provider : PyVal;
  terraform_installed : bool;
  terraform_version_line : option string;
  credentials_valid : bool;
  missing_credentials : list string;
  environment_ready : bool
}.

(** [CredentialManager.validate_environment] *)
Definition validate_environment (self : CredentialManager.t)
                                (provider : PyVal) : M Readiness :=
  tf <- check_terraform_installation ;;
  creds <- validate_provider_credentials self provider ;;
  ret {| r_provider := provider;
         terraform_installed := fst tf;
         terraform_version_line := snd tf;
         credentials_valid := fst creds;
         missing_credentials := snd creds;
         environment_ready := fst tf && fst creds |}.

End CredentialChecks.
End CredentialChecks.

(** ** The rest of [lib/terraform_manager.py] *)

Module TerraformManager.
Section TerraformManager.
Context `{Platform}.

(** [TerraformManager.init] *)
Definition init (self : CredentialManager.t) (challenge : Challenge.t)
                (force_reconfigure : bool) : M bool :=
  match Challenge.full_directory_path challenge,
        Challenge.full_backend_config_path challenge with
  | Some full_directory_path, Some full_backend_config_path =>
      env_vars <- CredentialManager.setup_environment_variables self
                    (Challenge.provider challenge)
                    (Challenge.variables challenge) ;;
      let command :=
        ["terraform"; "init"; "-backend-config=" +:+ full_backend_config_path]
        ++ (if force_reconfigure then ["-reconfigure"] else []) in
      r <- _run_terraform_command command full_directory_path env_vars 600 ;;
      let '(success, stdout, stderr) := r in
      (if success then
         log INFO ("Terraform init successful for "
                   +:+ Challenge.name challenge)
       else
         log ERROR ("Terraform init failed for "
                    +:+ Challenge.name challenge) ;;
         log ERROR ("Error: " +:+ stderr)) ;;
      ret success
  | _, _ =>
      log ERROR ("Invalid paths for challenge " +:+ Challenge.name challenge) ;;
      ret false
  end.

(** [[line.strip() for line in stdout.split('\n') if line.strip()]] *)
Definition resource_lines (stdout : string) : list string :=
  omap (fun line => let l := PyStr.strip line in
                    if PyStr.truthy l then Some l else None)
       (PyText.lines stdout).

Definition py_strings (l : list string) : PyVal := PList (map PStr l).

(** [TerraformManager.get_state_info] *)
Definition get_state_info (challenge : Challenge.t) : M Py.dict :=
  match Challenge.full_directory_path challenge with
  | None => ret [("error", PStr "Invalid directory path")]
  | Some full_directory_path =>
      let terraform_dir := joinpath full_directory_path ".terraform" in
      ex <- path_exists terraform_dir ;;
      if negb ex then
        ret [("state_exists", PBool false);
             ("terraform_initialized", PBool false);
             ("resources", PList []);
             ("resource_count", PInt 0)]
      else
        try_except
          (result <- run (terraform_state_list full_directory_path) ;;
           if (returncode result =? 0)%Z then
             let lines := resource_lines (stdout result) in
             ret [("state_exists", PBool true);
                  ("terraform_initialized", PBool true);
                  ("resources",
                   PList (map (fun r => PDict [("name", PStr r)]) lines));
                  ("resource_count", PInt (Z.of_nat (length lines)));
                  ("resource_list", py_strings lines)]
           else
             ret [("state_exists", PBool false);
                  ("terraform_initialized", PBool true);
                  ("resources", PList []);
                  ("resource_count", PInt 0);
                  ("error",
                   PStr (if PyStr.truthy (stderr result)
                         then PyStr.strip (stderr result)
                         else "No resources found"))])
          (fun e =>
             log ERROR ("Error getting state info: " +:+ exn_str e) ;;
             ret [("state_exists", PBool false);
                  ("terraform_initialized", PBool true);
                  ("error", PStr (exn_str e))])
  end.

(** [d.get(k, 0) > 0]: numbers are compared (a float by the sign that
    its [repr] shows), anything else is a [TypeError]. *)
Definition positive_count (d : Py.dict) (k : string) : Res bool :=
  match default (PInt 0) (Py.dict_lookup k d) with
  | PInt n => Ok (0 <? n)%Z
  | PBool b => Ok b
  | PFloat r => Ok (negb (PyStr.startswith "-" r || String.eqb r "0.0"
                          || String.eqb r "nan"))
  | v => Raise {| exn_class := TypeError;
                  exn_str := "'>' not supported between instances of '"
                             +:+ Py.type_name v +:+ "' and 'int'" |}
  end.

(** [TerraformManager.validate_challenge_deployment] *)
Definition validate_challenge_deployment (self : CredentialManager.t)
                                         (challenge : Challenge.t)
  : M Py.dict :=
  terraform_initialized <-
    (match Challenge.full_directory_path challenge with
     | Some full_directory_path =>
         path_exists (joinpath full_directory_path ".terraform")
     | None => ret false
     end) ;;
  state_info <- get_state_info challenge ;;
  let state_exists :=
    default (PBool false) (Py.dict_lookup "state_exists" state_info) in
  resources_deployed <- lift (positive_count state_info "resource_count") ;;
  r <- get_outputs self challenge "json" ;;
  let '(outputs_success, outputs) := r in
  let outputs_available :=
    outputs_success && match outputs with [] => false | _ => true end in
  let validation_errors :=
    (if negb terraform_initialized then ["Terraform not initialized"] else [])
    ++ (if negb (Py.truthy state_exists) then ["No Terraform state found"]
        else [])
    ++ (if negb resources_deployed then ["No resources deployed"] else []) in
  ret [("challenge", PStr (Challenge.name challenge));
       ("provider", Challenge.provider challenge);
       ("terraform_initialized", PBool terraform_initialized);
       ("state_exists", state_exists);
       ("resources_deployed", PBool resources_deployed);
       ("outputs_available", PBool outputs_available);
       ("validation_errors", py_strings validation_errors)].

End TerraformManager.
End TerraformManager.

(** ** The rest of [ctf-manager.py]: deployment

    What [print] shows is not recorded, but an expression that a banner
    evaluates and that can raise is: [challenge.provider.upper()]. *)

Module CTFDeploy.
Section CTFDeploy.
Context `{Platform}.

(** [v.upper()]: only strings have the method *)
Definition upper_of (v : PyVal) : Res string :=
  match v with
  | PStr s => Ok (PyText.upper s)
  | _ => Raise (Py.attribute_error v "upper")
  end.

(** [CTFManager.get_challenges_by_provider]; the comprehension of
    [ConfigLoader.get_challenges_by_provider] is [keep]. *)
Fixpoint of_provider (provider : string) (items : Py.dict) : Res Py.dict :=
  match items with
  | [] => Ok []
  | (name, config) :: rest =>
      res_bind (Py.get config "provider" PNone) (fun p =>
      res_bind (of_provider provider rest) (fun kept =>
      Ok (if Py.eq_str p provider then (name, config) :: kept else kept)))
  end.

Definition get_challenges_by_provider (self : CTFManager.t) (provider : string)
  : M (CTFManager.t * list Challenge.t) :=
  r <- ConfigLoader.get_all_challenges (CTFManager.config_loader self) ;;
  let self := CTFManager.with_loader self (fst r) in
  items <- lift (Py.items (snd r)) ;;
  provider_configs <- lift (of_provider provider items) ;;
  cs <- lift (res_mapM (fun kv => Challenge.init (fst kv) (snd kv)
                                    (CTFManager.base_path self))
                       provider_configs) ;;
  ret (self, cs).

Definition common_prep_scripts : list string :=
  ["install_dependencies.sh"; "setup.sh"; "prepare.sh"; "build.sh"].

(** [script_path.exists() and script_path.is_file()] *)
Definition is_script (files : gmap string Node) (p : string) : bool :=
  bool_decide (is_Some (files !! p))
  && match files !! p with Some (File _) => true | _ => false end.

(** [CTFManager._detect_preparation_scripts] *)
Definition _detect_preparation_scripts (challenge : Challenge.t)
  : M (list string) :=
  match Challenge.full_directory_path challenge with
  | None => ret []
  | Some full_directory_path =>
      reads (fun s =>
               filter (fun script =>
                         is_script (fs s) (joinpath full_directory_path script)
                         = true)
                      common_prep_scripts)
  end.

(** [os.chmod(p, 0o755)]: the file system of the model has no mode bits,
    so only the failure on a missing path shows. *)
Definition chmod (p : string) : M unit :=
  fun s =>
    match fs s !! p with
    | Some _ => (Ok tt, s)
    | None => (Raise {| exn_class := FileNotFoundError;
                        exn_str := "No such file or directory: '" +:+ p
                                   +:+ "'" |}, s)
    end.

Definition bash_script (dir script_path : string) : Invocation :=
  {| argv := ["bash"; script_path]; cwd := Some dir; env := None;
     capture_output := true; timeout := 300 |}.

(** [CTFManager._execute_preparation_script] *)
Definition _execute_preparation_script (challenge : Challenge.t)
                                       (script_name : string) : M bool :=
  try_except
    (match Challenge.full_directory_path challenge with
     | None =>
         raise {| exn_class := TypeError;
                  exn_str := "unsupported operand type(s) for /: 'NoneType' and 'str'" |}
     | Some full_directory_path =>
         let script_path := joinpath full_directory_path script_name in
         chmod script_path ;;
         log INFO ("Executing preparation script: " +:+ script_name) ;;
         result <- run (bash_script full_directory_path script_path) ;;
         if (returncode result =? 0)%Z then
           log INFO ("Preparation script " +:+ script_name
                     +:+ " executed successfully") ;;
           ret true
         else
           log ERROR ("Preparation script " +:+ script_name
                      +:+ " failed with return code "
                      +:+ pretty (returncode result)) ;;
           (if PyStr.truthy (stderr result)
            then log ERROR ("Error output: " +:+ stderr result)
            else ret tt) ;;
           ret false
     end)
    (fun e =>
       match exn_class e with
       | TimeoutExpired =>
           log ERROR ("Preparation script " +:+ script_name
                      +:+ " timed out after 5 minutes") ;;
           ret false
       | _ =>
           log ERROR ("Error executing preparation script " +:+ script_name
                      +:+ ": " +:+ exn_str e) ;;
           ret false
       end).

Definition confirm_prompt : string :=
  "❓ Execute preparation script before deployment? [Y/n]: ".

(** [CTFManager._confirm_preparation_script] *)
Definition _confirm_preparation_script (script_name : string) : M bool :=
  answer <- input confirm_prompt ;;
  let response := PyStr.lower (PyStr.strip answer) in
  ret (PyText.among response [EmptyString; "y"; "yes"]).

(** The loop of [_handle_preparation_scripts], which returns at the first
    script that fails. *)
Fixpoint run_preparation_scripts (challenge : Challenge.t)
                                 (scripts : list string) : M bool :=
  match scripts with
  | [] => ret true
  | script :: rest =>
      go <- _confirm_preparation_script script ;;
      if go then
        ok <- _execute_preparation_script challenge script ;;
        if negb ok then
          log ERROR ("Preparation script " +:+ script +:+ " failed") ;;
          ret false
        else run_preparation_scripts challenge rest
      else run_preparation_scripts challenge rest
  end.

(** [CTFManager._handle_preparation_scripts] *)
Definition _handle_preparation_scripts (challenge : Challenge.t) : M bool :=
  detected_scripts <- _detect_preparation_scripts challenge ;;
  match detected_scripts with
  | [] => ret true
  | _ => run_preparation_scripts challenge detected_scripts
  end.

(** [', '.join(l)] *)
Definition comma_join (l : list string) : string := String.concat ", " l.

(** [CTFManager.deploy_challenge] *)
Definition deploy_challenge (self : CTFManager.t) (challenge_name : string)
                            (auto_approve : bool) : M (CTFManager.t * bool) :=
  r <- CTFManager.get_challenge self challenge_name ;;
  let self := fst r in
  match snd r with
  | None =>
      log ERROR ("Challenge not found: " +:+ challenge_name) ;;
      ret (self, false)
  | Some challenge =>
      v <- validate challenge ;;
      let '(is_valid, errors) := v in
      if negb is_valid then
        log ERROR ("Challenge validation failed: " +:+ comma_join errors) ;;
        ret (self, false)
      else
        env_validation <-
          CredentialChecks.validate_environment
            (CTFManager.terraform_manager self)
            (Challenge.provider challenge) ;;
        if negb (CredentialChecks.environment_ready env_validation) then
          log ERROR ("Environment not ready for "
                     +:+ py_str (Challenge.provider challenge)) ;;
          (if negb (CredentialChecks.terraform_installed env_validation)
           then log ERROR "Terraform is not installed" else ret tt) ;;
          (match CredentialChecks.missing_credentials env_validation with
           | [] => ret tt
           | missing => log ERROR ("Missing credentials: "
                                   +:+ comma_join missing)
           end) ;;
          ret (self, false)
        else
          lift (upper_of (Challenge.provider challenge)) ;;
          ok <- TerraformManager.init (CTFManager.terraform_manager self)
                  challenge false ;;
          if negb ok then
            log ERROR "Terraform initialization failed" ;;
            ret (self, false)
          else
            ok <- _handle_preparation_scripts challenge ;;
            if negb ok then
              log ERROR "Preparation script execution failed" ;;
              ret (self, false)
            else
              ok <- apply (CTFManager.terraform_manager self) challenge
                      auto_approve true ;;
              if negb ok then
                log ERROR "Terraform apply failed" ;;
                ret (self, false)
              else
                get_outputs (CTFManager.terraform_manager self) challenge
                            "json" ;;
                ret (self, true)
  end.

(** One round of the loop of [deploy_provider_challenges] *)
Definition deploy_next (auto_approve : bool) (acc : CTFManager.t * nat)
                       (challenge : Challenge.t) : M (CTFManager.t * nat) :=
  r <- deploy_challenge (fst acc) (Challenge.name challenge) auto_approve ;;
  if snd r then ret (fst r, S (snd acc))
  else
    log ERROR ("Failed to deploy " +:+ Challenge.name challenge) ;;
    ret (fst r, snd acc).

(** [CTFManager.deploy_provider_challenges] *)
Definition deploy_provider_challenges (self : CTFManager.t) (provider : string)
                                      (auto_approve : bool)
  : M (CTFManager.t * bool) :=
  r <- get_challenges_by_provider self provider ;;
  let self := fst r in
  let challenges := snd r in
  match challenges with
  | [] =>
      log ERROR ("No challenges found for provider: " +:+ provider) ;;
      ret (self, false)
  | _ =>
      r <- foldM (deploy_next auto_approve) challenges (self, 0) ;;
      ret (fst r, Nat.eqb (snd r) (length challenges))
  end.

(** [CTFManager.destroy_challenge] with the banner it prints before the
    destroy: [challenge.provider.upper()] raises when the provider is not
    a string. [CTFManager.destroy_challenge] above leaves the banner out. *)
Definition destroy_challenge (self : CTFManager.t) (challenge_name : string)
                             (auto_approve : bool) : M (CTFManager.t * bool) :=
  r <- CTFManager.get_challenge self challenge_name ;;
  let self := fst r in
  match snd r with
  | None =>
      log ERROR ("Challenge not found: " +:+ challenge_name) ;;
      ret (self, false)
  | Some challenge =>
      status <- get_status_from_terraform_state challenge ;;
      if ChallengeStatus_eqb status NOT_DEPLOYED then ret (self, true)
      else
        lift (upper_of (Challenge.provider challenge)) ;;
        ok <- destroy (CTFManager.terraform_manager self) challenge
                auto_approve true ;;
        if negb ok then
          log ERROR "Terraform destroy failed" ;;
          ret (self, false)
        else ret (self, true)
  end.

Definition destroy_next (acc : CTFManager.t * nat) (challenge : Challenge.t)
  : M (CTFManager.t * nat) :=
  r <- destroy_challenge (fst acc) (Challenge.name challenge) true ;;
  if snd r then ret (fst r, S (snd acc))
  else
    log ERROR ("Failed to destroy " +:+ Challenge.name challenge) ;;
    ret (fst r, snd acc).

(** [CTFManager.destroy_all_challenges] over that [destroy_challenge] *)
Definition destroy_all_challenges (self : CTFManager.t) (auto_approve : bool)
  : M (CTFManager.t * bool) :=
  r <- CTFManager.get_all_challenges self ;;
  let self := fst r in
  deployed_challenges <- filterM CTFManager.is_deployed (snd r) ;;
  match deployed_challenges with
  | [] => ret (self, true)
  | _ =>
      go <- (if negb auto_approve then
               response <- input CTFManager.destroy_all_prompt ;;
               ret (String.eqb (PyStr.lower response) "yes")
             else ret true) ;;
      if negb go then ret (self, false)
      else
        r <- foldM destroy_next deployed_challenges (self, 0) ;;
        ret (fst r, Nat.eqb (snd r) (length deployed_challenges))
  end.

End CTFDeploy.
End CTFDeploy.

(** ** The rest of [lib/config_loader.py]: substitution *)

Module Substitution.

(** [substitute_value] of [ConfigLoader.substitute_variables], over the
    environment it reads with [os.getenv(env_var, value)] *)
Fixpoint substitute_value (environ : gmap string string) (value : PyVal)
  : PyVal :=
  match value with
  | PStr v =>
      if PyStr.startswith "${" v && PyStr.endswith "}" v then
        let env_var := PyStr.slice_2_m1 v in
        match environ !! env_var with
        | Some x => PStr x
        | None => value
        end
      else value
  | PDict d =>
      PDict (map (fun kv => match kv with
                            | (k, v) => (k, substitute_value environ v)
                            end) d)
  | PList l => PList (map (substitute_value environ) l)
  | _ => value
  end.

(** [ConfigLoader.substitute_variables] *)
Definition substitute_variables (config : PyVal) : M PyVal :=
  reads (fun s => substitute_value (environ s) config).

End Substitution.

(** ** [lib/logger.py]: the levels of Terraform's output *)

Module TerraformLogFilter.




End TerraformLogFilter.

(** ** A second small deployment, for concrete runs *)

Module Site.

(** [ready] is complete on disk and deployed; [anonymous] shares its
    directory but names no provider; [elsewhere] points at a directory
    that is not there. *)
Definition registry : PyVal :=
  PDict [("challenges", PDict [
    ("ready", PDict [("provider", PStr "aws");
                     ("directory", PStr "ready");
                     ("backend_config", PStr "ready/backend.hcl");
                     ("variables", PDict [("region", PStr "${REGION}");
                                          ("replicas", PInt 2)])]);
    ("anonymous", PDict [("directory", PStr "ready");
                         ("backend_config", PStr "ready/backend.hcl")]);
    ("elsewhere", PDict [("provider", PStr "azure");
                         ("directory", PStr "gone");
                         ("backend_config", PStr "gone/backend.hcl")])])].

Definition yaml (text : string) : Res PyVal :=
  if String.eqb text "site" then Ok registry
  else Raise {| exn_class := YAMLError; exn_str := "could not parse" |}.

(** [setup.sh] is a script; [build.sh] is a directory. *)
Definition files : gmap string Node :=
  <["/ctf/config/challenges.yaml" := File "site"]>
  (<["/ctf/config/credentials.yaml" := File "not yaml"]>
  (<["/ctf/ready" := Dir]>
  (<["/ctf/ready/backend.hcl" := File "bucket"]>
  (<["/ctf/ready/main.tf" := File "resource"]>
  (<["/ctf/ready/.terraform" := Dir]>
  (<["/ctf/ready/setup.sh" := File "make"]>
  (<["/ctf/ready/build.sh" := Dir]> ∅))))))).

Definition machine (answers : list string) : Sys :=
  {| fs := files; environ := ∅; stdin := answers; events := [] |}.

(** Every tool is installed and succeeds. *)
Definition script (inv : Invocation) : Outcome :=
  if Fixture.argv_is inv ["terraform"; "version"] then
    Fixture.completed 0 ("Terraform v1.9.0" +:+ newline +:+ "on linux_amd64")
                      ""
  else if Fixture.argv_is inv ["terraform"; "state"; "list"] then
    Fixture.completed 0 ("aws_s3_bucket.site" +:+ newline) ""
  else Fixture.completed 0 "" "".

Definition tools : Platform := Fixture.fake script yaml Fixture.json.

Definition manager : CTFManager.t :=
  {| CTFManager.base_path := "/ctf";
     CTFManager.config_loader := ConfigLoader.init "/ctf/config";
     CTFManager.terraform_manager := Fixture.no_credentials |}.

Definition challenge (name : string) : Challenge.t :=
  match registry with
  | PDict [(_, PDict cs)] =>
      match Py.dict_lookup name cs with
      | Some cfg =>
          match @Challenge.init tools name cfg "/ctf" with
          | Ok c => c
          | Raise _ => Fixture.nobody
          end
      | None => Fixture.nobody
      end
  | _ => Fixture.nobody
  end.

Definition ready : Challenge.t := challenge "ready".
Definition anonymous : Challenge.t := challenge "anonymous".
Definition elsewhere : Challenge.t := challenge "elsewhere".

(** Credentials with an Azure section that names both identifiers. *)
Definition azure_configured : CredentialManager.t :=
  {| CredentialManager.credentials :=
       PDict [("azure", PDict [("subscription_id", PStr "sub-1");
                               ("tenant_id", PStr "tenant-1")])] |}.

End Site.

(** ** Vocabulary of the further properties *)

(** A subprocess, if the event is one, runs with its output captured: it
    is not attached to the operator's terminal. *)
Definition captured (e : Event) : Prop :=
  match e with ESpawn inv => capture_output inv = true | _ => True end.

(** A log record, or a querying subprocess with its output captured. *)
Definition calm (e : Event) : Prop := benign e /\ captured e.

(** The operator is not asked. *)
Definition no_prompt (e : Event) : Prop :=
  match e with EInput _ => False | _ => True end.

(** The one subprocess of [TerraformManager.init] for [challenge]. *)
Definition init_spawn `{Platform} (challenge : Challenge.t) (e : Event)
  : Prop :=
  match e with
  | ESpawn inv =>
      is_terraform "init" inv = true /\
      cwd inv = Challenge.full_directory_path challenge /\
      timeout inv = 600%Z /\
      capture_output inv = true /\
      (forall p, Challenge.full_backend_config_path challenge = Some p ->
                 In ("-backend-config=" +:+ p) (argv inv))
  | _ => False
  end.

(** The one subprocess of [TerraformManager.plan] for [challenge]. *)
Definition plan_spawn `{Platform} (challenge : Challenge.t) (e : Event)
  : Prop :=
  match e with
  | ESpawn inv =>
      is_terraform "plan" inv = true /\
      cwd inv = Challenge.full_directory_path challenge /\
      timeout inv = 600%Z /\
      capture_output inv = true
  | _ => False
  end.

(** The run of the preparation script [script] of [challenge]. *)
Definition script_spawn `{Platform} (challenge : Challenge.t)
                        (script : string) (e : Event) : Prop :=
  match e with
  | ESpawn inv =>
      exists d, Challenge.full_directory_path challenge = Some d /\
                inv = CTFDeploy.bash_script d (joinpath d script)
  | _ => False
  end.

(** What a deployment may add to the trace: log records and captured
    queries, the version check, the variables file, the question about a
    preparation script, and for one challenge its [terraform init], its
    preparation scripts and its [terraform apply], which is captured
    when the deployment is auto-approved. *)
Definition deploy_event `{Platform} (auto_approve : bool) (e : Event)
  : Prop :=
  calm e \/ e = ESpawn CredentialChecks.terraform_version \/
  is_write e \/ e = EInput CTFDeploy.confirm_prompt \/
  exists challenge,
    init_spawn challenge e \/
    (exists script, script_spawn challenge script e) \/
    (lifecycle_spawn "apply" challenge e /\
     (auto_approve = true -> captured e)).

(** What destroying everything may add to the trace: log records and
    captured queries, the one confirmation question unless the call is
    auto-approved, and captured [terraform destroy] runs. *)
Definition destroy_all_event `{Platform} (auto_approve : bool) (e : Event)
  : Prop :=
  calm e \/
  (auto_approve = false /\ e = EInput CTFManager.destroy_all_prompt) \/
  exists challenge, lifecycle_spawn "destroy" challenge e /\ captured e.

(** [config.get('provider') == provider] for a configuration that is a
    mapping *)
Definition provider_is (provider : string) (config : PyVal) : bool :=
  match Py.get config "provider" PNone with
  | Ok p => Py.eq_str p provider
  | Raise _ => false
  end.

Definition is_dict (v : PyVal) : Prop :=
  match v with PDict _ => True | _ => False end.


(** The credentials document is a mapping, and so is each of its
    sections. *)
Definition sections_are_mappings (self : CredentialManager.t) : Prop :=
  exists sections,
    CredentialManager.credentials self = PDict sections /\
    forall k section, Py.dict_lookup k sections = Some section ->
                      is_dict section.

(** [m] hands back a value from every state: it does not raise. *)
Definition never_raises {A} (m : M A) : Prop :=
  forall s, exists a s', m s = (Ok a, s').


(** Whenever [m] returns a value, the value satisfies [Q]. *)
Definition returns {A} (Q : A -> Prop) (m : M A) : Prop :=
  forall s a s', m s = (Ok a, s') -> Q a.

(** The command is one that [_run_terraform_command] runs on the
    operator's terminal: an apply or destroy without [-auto-approve]. *)
Definition interactive (command : list string) : bool :=
  (list_in "apply" command || list_in "destroy" command)
  && negb (list_in "-auto-approve" command).

(** What [v.get('value', v)] gives for an entry of the outputs. *)
Definition value_field (v : PyVal) : PyVal :=
  match v with
  | PDict e => default v (Py.dict_lookup "value" e)
  | _ => v
  end.
(** * Properties *)

(** ** Strings *)

Section StringFacts.

Lemma length_append (t u : string) :
  String.length (t +:+ u) = String.length t + String.length u.
Proof. induction t as [|c t IH]; simpl; [reflexivity | now rewrite IH]. Qed.

Lemma substring_0_S c x n :
  String.substring 0 (S n) (String c x) = String c (String.substring 0 n x).
Proof. reflexivity. Qed.

Lemma substring_S c x n m :
  String.substring (S n) m (String c x) = String.substring n m x.
Proof. reflexivity. Qed.

Lemma append_cons c a b : String c a +:+ b = String c (a +:+ b).
Proof. reflexivity. Qed.

Lemma substring_whole_prefix (t u : string) :
  String.substring 0 (String.length t) (t +:+ u) = t.
Proof.
  induction t as [|c t IH]; simpl.
  - destruct u; reflexivity.
  - now rewrite IH.
Qed.

Lemma substring_skip_prefix (t u : string) (n : nat) :
  String.substring (String.length t) n (t +:+ u) = String.substring 0 n u.
Proof. induction t as [|c t IH]; simpl; [reflexivity | exact IH]. Qed.

(** A non-empty string is its front followed by its last character. *)
Lemma split_last (r : string) :
  r <> EmptyString ->
  r = String.substring 0 (String.length r - 1) r
      +:+ String.substring (String.length r - 1) 1 r.
Proof.
  induction r as [|c r IH]; intros Hne; [congruence|].
  destruct r as [|c' r'].
  - reflexivity.
  - assert (Hr : String c' r' <> EmptyString) by discriminate.
    specialize (IH Hr).
    replace (String.length (String c (String c' r')) - 1)
      with (S (String.length (String c' r') - 1)) by (simpl; lia).
    rewrite substring_0_S, substring_S.
    rewrite append_cons. f_equal. exact IH.
Qed.

Lemma startswith_wrap (t : string) :
  PyStr.startswith "${" (unresolved t) = true.
Proof.
  unfold unresolved, PyStr.startswith. simpl.
  destruct (t +:+ "}"); reflexivity.
Qed.

Lemma endswith_wrap (t : string) :
  PyStr.endswith "}" (unresolved t) = true.
Proof.
  unfold unresolved, PyStr.endswith.
  change ("${" +:+ t +:+ "}") with (String "$" (String "{" (t +:+ "}"))).
  simpl String.length. rewrite length_append. simpl String.length.
  replace (S (S (String.length t + 1)) - 1)
    with (S (S (String.length t))) by lia.
  rewrite !substring_S, substring_skip_prefix. reflexivity.
Qed.

Lemma slice_wrap (t : string) :
  PyStr.slice_2_m1 (unresolved t) = t.
Proof.
  unfold unresolved, PyStr.slice_2_m1.
  change ("${" +:+ t +:+ "}") with (String "$" (String "{" (t +:+ "}"))).
  simpl String.length. rewrite length_append. simpl String.length.
  replace (S (S (String.length t + 1)) - 1 - 2)
    with (String.length t) by lia.
  rewrite !substring_S. apply substring_whole_prefix.
Qed.

(** A string that starts with [${] and ends with [}] is rebuilt from its
    inside by the f-string of the resolver. *)
Lemma wrapped_rebuild (v : string) :
  PyStr.startswith "${" v = true ->
  PyStr.endswith "}" v = true ->
  unresolved (PyStr.slice_2_m1 v) = v.
Proof.
  intros Hs He.
  apply String.prefix_correct in Hs. simpl String.length in Hs.
  destruct v as [|a [|b r]]; try discriminate.
  simpl in Hs.
  assert (a = "$"%char /\ b = "{"%char) as [-> ->].
  { destruct r; injection Hs; auto. }
  clear Hs.
  unfold PyStr.endswith in He. apply andb_prop in He as [_ He].
  apply String.eqb_eq in He. simpl String.length in He.
  destruct r as [|c r'].
  - discriminate.
  - assert (Hne : String c r' <> EmptyString) by discriminate.
    pose proof (split_last _ Hne) as Hsplit.
    replace (S (S (String.length (String c r'))) - 1)
      with (S (S (String.length (String c r') - 1))) in He by (simpl; lia).
    rewrite !substring_S in He.
    rewrite He in Hsplit.
    unfold PyStr.slice_2_m1.
    replace (String.length (String "$" (String "{" (String c r'))) - 1 - 2)
      with (String.length (String c r') - 1) by (simpl; lia).
    rewrite !substring_S.
    unfold unresolved.
    change ("${" +:+ ?x) with (String "$" (String "{" x)).
    rewrite <- Hsplit. reflexivity.
Qed.




End StringFacts.

(** ** Whitespace stripping *)

Section StripFacts.







End StripFacts.

(** ** The resolver on literals and on bare references *)

Section Resolver.
Context `{Platform}.

(** C4. A declared value that is not a string, or is a string that does
    not both start with [${] and end with [}], is returned unchanged,
    whatever the credentials; nothing is logged, read or run. *)
Theorem resolve_literal_identity (self : Challenge.t) (value : PyVal)
                                 (provider_creds : Py.dict) (s : Sys) :
  is_reference value = false ->
  _resolve_variable_value self value provider_creds s = (Ok value, s).
Proof.
  intros Hlit. unfold _resolve_variable_value.
  destruct value; try reflexivity.
  simpl in Hlit. rewrite Hlit. reflexivity.
Qed.

Lemma assoc_In (k v : string) (l : list (string * string)) :
  assoc k l = Some v -> In (k, v) l.
Proof.
  induction l as [|[k' v'] l IH]; simpl; [discriminate|].
  destruct (String.eqb_spec k k').
  - intros [= ->]. subst. now left.
  - intros Hl. right. auto.
Qed.

Lemma In_assoc (k v : string) (l : list (string * string)) :
  NoDup (map fst l) -> In (k, v) l -> assoc k l = Some v.
Proof.
  induction l as [|[k' v'] l IH]; simpl; [tauto|].
  intros Hnd Hin. apply NoDup_cons in Hnd as [Hk Hnd].
  destruct Hin as [[= -> ->]|Hin].
  - now rewrite String.eqb_refl.
  - destruct (String.eqb_spec k k'); [|auto].
    subst k'. exfalso. apply Hk.
    apply list_elem_of_In. apply (in_map fst) in Hin. exact Hin.
Qed.

Lemma var_mapping_keys_distinct : NoDup (map fst var_mapping).
Proof. apply (bool_decide_unpack (NoDup (map fst var_mapping))). vm_compute. exact I. Qed.

(** The credential lookup of the resolver, in words: the token is a key
    of the table and the field it names is in the credentials. *)
Lemma credential_for_Some (tok : string) (creds : Py.dict) (v : PyVal) :
  credential_for tok creds = Some v <->
  exists key, In (tok, key) var_mapping /\ Py.dict_lookup key creds = Some v.
Proof.
  unfold credential_for. split.
  - destruct (assoc tok var_mapping) as [key|] eqn:Ha; [|discriminate].
    intros Hl. exists key. split; [now apply assoc_In | exact Hl].
  - intros (key & Hin & Hl).
    rewrite (In_assoc _ _ _ var_mapping_keys_distinct Hin). exact Hl.
Qed.

Lemma credential_for_None (tok : string) (creds : Py.dict) :
  credential_for tok creds = None <->
  forall key, In (tok, key) var_mapping -> Py.dict_lookup key creds = None.
Proof.
  split.
  - intros Hn key Hin.
    destruct (Py.dict_lookup key creds) as [v|] eqn:Hl; [|reflexivity].
    assert (credential_for tok creds = Some v) as Hs
      by (apply credential_for_Some; eauto).
    congruence.
  - intros Hall.
    destruct (credential_for tok creds) as [v|] eqn:Hc; [|reflexivity].
    apply credential_for_Some in Hc as (key & Hin & Hl).
    rewrite (Hall key Hin) in Hl. discriminate.
Qed.

(** C3. A bare reference [${TOKEN}] (no dot in TOKEN) resolves to the
    credential named by the mapping table when that field is present,
    whatever the process environment holds; otherwise to a non-empty
    environment variable TOKEN; otherwise it is returned as it was and a
    warning is logged. *)
Theorem resolve_simple_reference (self : Challenge.t) (tok : string)
                                 (provider_creds : Py.dict) (s : Sys) :
  PyStr.contains "." tok = false ->
  let value := PStr (unresolved tok) in
  let r := _resolve_variable_value self value provider_creds s in
  (forall key v,
      In (tok, key) var_mapping ->
      Py.dict_lookup key provider_creds = Some v ->
      fst r = Ok v) /\
  ((forall key, In (tok, key) var_mapping ->
                Py.dict_lookup key provider_creds = None) ->
   (forall x, environ s !! tok = Some x -> x <> EmptyString ->
              fst r = Ok (PStr x)) /\
   (environ s !! tok = None \/ environ s !! tok = Some EmptyString ->
    fst r = Ok value /\
    events (snd r) = unresolved_warning tok :: events s)).
Proof.
  intros Hdot value r. subst r value.
  unfold _resolve_variable_value.
  rewrite startswith_wrap, endswith_wrap, slice_wrap, Hdot. cbn [andb].
  split.
  - intros key v Hin Hl.
    assert (credential_for tok provider_creds = Some v) as ->
      by (apply credential_for_Some; eauto).
    reflexivity.
  - intros Hnone. apply credential_for_None in Hnone. rewrite Hnone.
    unfold bind, getenv. cbv beta. split.
    + intros x Hx Hne. rewrite Hx. destruct x; [congruence|]. reflexivity.
    + intros [Hx|Hx]; rewrite Hx; split; reflexivity.
Qed.

End Resolver.

(** ** The state prober *)

Section Prober.
Context `{Platform}.

Lemma probe_no_directory (c : Challenge.t) (s : Sys) :
  Challenge.full_directory_path c = None ->
  get_status_from_terraform_state c s = (Ok UNKNOWN, s).
Proof.
  intros Hd. unfold get_status_from_terraform_state. now rewrite Hd.
Qed.

(** What the constructor computes for the working directory. *)
Lemma init_directory (name : string) (config : PyVal) (base : string)
                     (c : Challenge.t) :
  Challenge.init name config base = Ok c ->
  Challenge.name c = name /\ Challenge.base_path c = base /\
  Py.get config "directory" PNone = Ok (Challenge.directory c) /\
  Challenge.path_under base (Challenge.directory c)
  = Ok (Challenge.full_directory_path c).
Proof.
  unfold Challenge.init. destruct config; simpl; try discriminate.
  destruct (Challenge.path_under base _) eqn:H1; simpl; [|discriminate].
  destruct (Challenge.path_under base (default PNone (Py.dict_lookup "backend_config" d)));
    simpl; [|discriminate].
  destruct (Challenge.path_under base (default PNone (Py.dict_lookup "web_content" d)));
    simpl; [|discriminate].
  intros [= <-]. simpl. auto.
Qed.

(** C10. A descriptor whose working-directory field is unset has no
    directory path, and the prober answers [unknown] for it at once:
    the state is returned as it was, so nothing was looked up on disk
    and no subprocess was started. *)
Theorem probe_unset_directory_unknown (name : string) (config : PyVal)
                                      (base : string) (c : Challenge.t)
                                      (s : Sys) :
  Challenge.init name config base = Ok c ->
  Py.truthy (Challenge.directory c) = false ->
  Challenge.full_directory_path c = None /\
  get_status_from_terraform_state c s = (Ok UNKNOWN, s).
Proof.
  intros Hi Hunset.
  apply init_directory in Hi as (_ & _ & _ & Hp).
  unfold Challenge.path_under in Hp. rewrite Hunset in Hp.
  injection Hp as Hp. split; [now symmetry|].
  apply probe_no_directory. now symmetry.
Qed.




End Prober.

(** ** Cross-challenge references *)

Section Dependencies.
Context `{Platform}.





End Dependencies.

(** ** What a computation adds to the trace *)

Section Emits.
Context `{Platform}.
Context (P : Event -> Prop).

Lemma emits_ret {A} (a : A) : emits P (ret a).
Proof. intros s. exists []. split; [reflexivity | constructor]. Qed.

Lemma emits_raise {A} (e : Exn) : emits P (@raise A e).
Proof. intros s. exists []. split; [reflexivity | constructor]. Qed.

Lemma emits_lift {A} (r : Res A) : emits P (lift r).
Proof. intros s. exists []. split; [reflexivity | constructor]. Qed.

Lemma emits_reads {A} (f : Sys -> A) : emits P (reads f).
Proof. intros s. exists []. split; [reflexivity | constructor]. Qed.

Lemma emits_path_exists (p : string) : emits P (path_exists p).
Proof. intros s. exists []. split; [reflexivity | constructor]. Qed.

Lemma emits_getenv (k : string) : emits P (getenv k).
Proof. intros s. exists []. split; [reflexivity | constructor]. Qed.

Lemma emits_read_text (p : string) : emits P (read_text p).
Proof.
  intros s. exists []. split; [|constructor].
  unfold read_text. destruct (fs s !! p) as [[|c]|]; reflexivity.
Qed.

Lemma emits_emit (e : Event) : P e -> emits P (emit e).
Proof. intros He s. exists [e]. split; [reflexivity | repeat constructor; exact He]. Qed.

Lemma emits_run (inv : Invocation) : P (ESpawn inv) -> emits P (run inv).
Proof.
  intros He s. exists [ESpawn inv]. split; [|repeat constructor; exact He].
  unfold run. destruct (subprocess_run inv s) as [[r|e] fs']; reflexivity.
Qed.

Lemma emits_write_text (p content : string) :
  P (EWrite p content) -> emits P (write_text p content).
Proof.
  intros He s. unfold write_text. destruct (open_w_error (fs s) p).
  - exists []. split; [reflexivity | constructor].
  - exists [EWrite p content]. split; [reflexivity | repeat constructor; exact He].
Qed.

Lemma emits_input (prompt : string) :
  P (EInput prompt) -> emits P (input prompt).
Proof.
  intros He s. exists [EInput prompt]. split; [|repeat constructor; exact He].
  unfold input. destruct (stdin s); reflexivity.
Qed.

Lemma emits_bind {A B} (m : M A) (k : A -> M B) :
  emits P m -> (forall a, emits P (k a)) -> emits P (bind m k).
Proof.
  intros Hm Hk s. unfold bind.
  destruct (Hm s) as (new1 & E1 & F1).
  destruct (m s) as [[a|e] s1]; cbn [snd] in *.
  - destruct (Hk a s1) as (new2 & E2 & F2).
    exists (new2 ++ new1). split.
    + rewrite E2, E1. apply app_assoc.
    + apply Forall_app. split; assumption.
  - exists new1. split; assumption.
Qed.

Lemma emits_try_except {A} (m : M A) (h : Exn -> M A) :
  emits P m -> (forall e, emits P (h e)) -> emits P (try_except m h).
Proof.
  intros Hm Hh s. unfold try_except.
  destruct (Hm s) as (new1 & E1 & F1).
  destruct (m s) as [[a|e] s1]; cbn [snd] in *.
  - exists new1. split; assumption.
  - destruct (Hh e s1) as (new2 & E2 & F2).
    exists (new2 ++ new1). split.
    + rewrite E2, E1. apply app_assoc.
    + apply Forall_app. split; assumption.
Qed.

Lemma emits_try_except_on {A} (sel : ExnClass -> bool) (m : M A)
                          (h : Exn -> M A) :
  emits P m -> (forall e, emits P (h e)) -> emits P (try_except_on sel m h).
Proof.
  intros Hm Hh s. unfold try_except_on.
  destruct (Hm s) as (new1 & E1 & F1).
  destruct (m s) as [[a|e] s1]; cbn [snd] in *.
  - exists new1. split; assumption.
  - destruct (sel (exn_class e)).
    + destruct (Hh e s1) as (new2 & E2 & F2).
      exists (new2 ++ new1). split.
      * rewrite E2, E1. apply app_assoc.
      * apply Forall_app. split; assumption.
    + exists new1. split; assumption.
Qed.

Lemma emits_mapM {A B} (f : A -> M B) (l : list A) :
  (forall a, emits P (f a)) -> emits P (mapM f l).
Proof.
  intros Hf. induction l as [|a l IH]; simpl.
  - apply emits_ret.
  - apply emits_bind; [apply Hf|]. intros b.
    apply emits_bind; [exact IH|]. intros bs. apply emits_ret.
Qed.

Lemma emits_filterM {A} (p : A -> M bool) (l : list A) :
  (forall a, emits P (p a)) -> emits P (filterM p l).
Proof.
  intros Hp. induction l as [|a l IH]; simpl.
  - apply emits_ret.
  - apply emits_bind; [apply Hp|]. intros b.
    apply emits_bind; [exact IH|]. intros bs. apply emits_ret.
Qed.

Lemma emits_foldM {A B} (f : B -> A -> M B) (l : list A) (acc : B) :
  (forall b a, emits P (f b a)) -> emits P (foldM f l acc).
Proof.
  intros Hf. revert acc. induction l as [|a l IH]; intros acc; simpl.
  - apply emits_ret.
  - apply emits_bind; [apply Hf|]. intros b. apply IH.
Qed.

End Emits.

Lemma emits_weaken `{Platform} {A} (P Q : Event -> Prop) (m : M A) :
  (forall e, P e -> Q e) -> emits P m -> emits Q m.
Proof.
  intros HPQ Hm s. destruct (Hm s) as (new & E & F).
  exists new. split; [exact E|]. eapply Forall_impl; eauto.
Qed.

(** One step of a trace argument: peel the outermost construct. *)
Ltac emits_step :=
  first
    [ apply emits_ret | apply emits_raise | apply emits_lift
    | apply emits_reads | apply emits_path_exists | apply emits_getenv
    | apply emits_read_text
    | apply emits_bind; [|intros ?]
    | apply emits_try_except_on; [|intros ?]
    | apply emits_try_except; [|intros ?]
    | apply emits_mapM; intros ?
    | apply emits_filterM; intros ?
    | match goal with
      | |- emits _ (if ?b then _ else _) => destruct b
      | |- emits _ (match ?x with _ => _ end) => destruct x
      | |- emits _ (let '(_, _) := ?x in _) => destruct x
      end ].

Section EmitsMethods.
Context `{Platform}.
Context (P : Event -> Prop).
Hypothesis P_benign : forall e, benign e -> P e.

Lemma emits_log (lvl : Level) (msg : string) : emits P (log lvl msg).
Proof. apply emits_emit, P_benign. exact I. Qed.

Lemma emits_tf_log (r : TfLogRecord) : emits P (tf_log r).
Proof. apply emits_emit, P_benign. exact I. Qed.

Lemma emits_query (inv : Invocation) :
  is_query inv = true -> emits P (run inv).
Proof. intros Hq. apply emits_run, P_benign. exact Hq. Qed.

Ltac go := repeat first [emits_step | apply emits_log | apply emits_tf_log].

Lemma emits_load_challenges_config (cl : ConfigLoader.t) :
  emits P (ConfigLoader.load_challenges_config cl).
Proof. unfold ConfigLoader.load_challenges_config. go. Qed.

Lemma emits_load_credentials_config (cl : ConfigLoader.t) :
  emits P (ConfigLoader.load_credentials_config cl).
Proof. unfold ConfigLoader.load_credentials_config. go. Qed.

Lemma emits_get_challenge_config (cl : ConfigLoader.t) (n : string) :
  emits P (ConfigLoader.get_challenge_config cl n).
Proof.
  unfold ConfigLoader.get_challenge_config, ConfigLoader.ensure_loaded.
  go.
Qed.

Lemma emits_loader_get_all_challenges (cl : ConfigLoader.t) :
  emits P (ConfigLoader.get_all_challenges cl).
Proof.
  unfold ConfigLoader.get_all_challenges, ConfigLoader.ensure_loaded.
  go.
Qed.

Lemma emits_credential_init (cl : ConfigLoader.t) :
  emits P (CredentialManager.init cl).
Proof.
  unfold CredentialManager.init. go.
Qed.

Lemma emits_getenv_or (k : string) (d : PyVal) :
  emits P (CredentialManager.getenv_or k d).
Proof. unfold CredentialManager.getenv_or. go. Qed.

Lemma emits_get_aws_credentials (cm : CredentialManager.t) :
  emits P (CredentialManager.get_aws_credentials cm).
Proof.
  unfold CredentialManager.get_aws_credentials.
  repeat first [apply emits_getenv_or | emits_step].
Qed.

Lemma emits_get_azure_credentials (cm : CredentialManager.t) :
  emits P (CredentialManager.get_azure_credentials cm).
Proof.
  unfold CredentialManager.get_azure_credentials,
    CredentialManager.azure_cli_handler.
  repeat first [apply emits_getenv_or | apply emits_log
               | apply emits_query; reflexivity | emits_step].
Qed.

Lemma emits_gcloud_detect (what msg : string) (current : PyVal) :
  emits P (CredentialManager.gcloud_detect what msg current).
Proof.
  unfold CredentialManager.gcloud_detect.
  repeat first [apply emits_log | apply emits_query; reflexivity | emits_step].
Qed.

Lemma emits_get_gcp_credentials (cm : CredentialManager.t) :
  emits P (CredentialManager.get_gcp_credentials cm).
Proof.
  unfold CredentialManager.get_gcp_credentials,
    CredentialManager.gcp_cli_handler.
  repeat first [apply emits_getenv_or | apply emits_log
               | apply emits_gcloud_detect | emits_step].
Qed.

Lemma emits_get_provider_credentials (cm : CredentialManager.t)
                                     (provider : PyVal) :
  emits P (CredentialManager.get_provider_credentials cm provider).
Proof.
  unfold CredentialManager.get_provider_credentials.
  repeat first [apply emits_get_aws_credentials
               | apply emits_get_azure_credentials
               | apply emits_get_gcp_credentials | emits_step].
Qed.

Lemma emits_setup_environment_variables (cm : CredentialManager.t)
                                        (provider variables : PyVal) :
  emits P (CredentialManager.setup_environment_variables cm provider variables).
Proof.
  unfold CredentialManager.setup_environment_variables.
  repeat first [apply emits_get_aws_credentials
               | apply emits_get_azure_credentials
               | apply emits_get_gcp_credentials | emits_step].
Qed.

Lemma emits_get_status (c : Challenge.t) :
  emits P (get_status_from_terraform_state c).
Proof.
  unfold get_status_from_terraform_state.
  repeat first [apply emits_log | apply emits_query; reflexivity | emits_step].
Qed.

(** The command runner adds log records and the spawn of its command. *)
Lemma emits_run_terraform_command (command : list string) (dir : string)
                                  (env_vars : Py.dict) (t : Z) :
  (forall inv, argv inv = command -> cwd inv = Some dir -> timeout inv = t ->
               P (ESpawn inv)) ->
  emits P (_run_terraform_command command dir env_vars t).
Proof.
  intros Hspawn. unfold _run_terraform_command.
  repeat first [apply emits_log | apply emits_tf_log
               | apply emits_run, Hspawn; reflexivity | emits_step].
Qed.

Lemma is_query_output (inv : Invocation) (rest : list string) :
  argv inv = "terraform" :: "output" :: rest -> is_query inv = true.
Proof. intros Ha. unfold is_query, is_terraform. rewrite Ha. reflexivity. Qed.

Lemma emits_get_outputs (cm : CredentialManager.t) (c : Challenge.t)
                        (fmt : string) :
  emits P (get_outputs cm c fmt).
Proof.
  unfold get_outputs.
  repeat first [apply emits_log | apply emits_setup_environment_variables
               | apply emits_run_terraform_command; intros inv Ha _ _;
                 apply P_benign; exact (is_query_output _ _ Ha)
               | emits_step].
Qed.

Lemma emits_resolve_challenge_dependency (self : Challenge.t)
                                         (dependency : string) :
  emits P (_resolve_challenge_dependency self dependency).
Proof.
  unfold _resolve_challenge_dependency, dependency_lookup, dependency_context.
  repeat first [apply emits_log | apply emits_credential_init
               | apply emits_get_challenge_config | apply emits_get_status
               | apply emits_get_outputs
               | apply emits_emit, P_benign; exact I | emits_step].
Qed.

Lemma emits_resolve_variable_value (self : Challenge.t) (value : PyVal)
                                   (creds : Py.dict) :
  emits P (_resolve_variable_value self value creds).
Proof.
  unfold _resolve_variable_value.
  repeat first [apply emits_log | apply emits_resolve_challenge_dependency
               | emits_step].
Qed.

Lemma emits_variables_file_content (self : Challenge.t) :
  emits P (get_terraform_variables_file_content self).
Proof.
  unfold get_terraform_variables_file_content.
  repeat first [apply emits_log | apply emits_credential_init
               | apply emits_get_provider_credentials
               | apply emits_resolve_variable_value | emits_step].
Qed.

End EmitsMethods.

(** ** The lifecycle commands *)

Section Lifecycle.
Context `{Platform}.

Local Ltac go_logs :=
  repeat first [ apply emits_log; auto | apply emits_tf_log; auto
               | emits_step ].

(** The command runner always returns; it logs the command, starts it
    once with the given directory and timeout, and logs the rest. *)
Lemma run_terraform_command_trace (command : list string) (dir : string)
                                  (env_vars : Py.dict) (t : Z) (s : Sys) :
  exists r s' post inv,
    _run_terraform_command command dir env_vars t s = (Ok r, s') /\
    events s' = post ++ ESpawn inv
                     :: ETfLog (LogCommand (String.concat " " command) dir)
                     :: events s /\
    Forall is_log post /\
    argv inv = command /\ cwd inv = Some dir /\ timeout inv = t.
Proof.
  unfold _run_terraform_command, bind at 1, reads.
  unfold bind at 1, tf_log, emit. cbv beta iota.
  unfold try_except.
  destruct ((list_in "apply" command || list_in "destroy" command)
            && negb (list_in "-auto-approve" command)).
  - unfold bind, run. cbn [fs environ stdin events].
    destruct (subprocess_run _ _) as [[r|e] fs'].
    + eexists _, _, [], _. repeat split; constructor.
    + destruct (exn_class e); unfold log, tf_log, emit, ret;
        eexists _, _, [_; _], _; repeat split; repeat constructor.
  - unfold bind at 1, run. cbn [fs environ stdin events].
    destruct (subprocess_run _ _) as [[r|e] fs'].
    + unfold bind, tf_log, emit, ret.
      destruct (PyStr.truthy (stdout r)), (PyStr.truthy (stderr r));
        cbv beta iota;
        [eexists _, _, [_; _; _], _ | eexists _, _, [_; _], _
        | eexists _, _, [_; _], _ | eexists _, _, [_], _];
        repeat split; repeat constructor.
    + destruct (exn_class e); unfold bind, log, tf_log, emit, ret;
        eexists _, _, [_; _], _; repeat split; repeat constructor.
Qed.

Lemma emits_regenerate (P : Event -> Prop) (c : Challenge.t) :
  (forall e, benign e \/ is_write e -> P e) ->
  emits P (regenerate_variables_file c).
Proof.
  intros HP.
  assert (Hb : forall e, benign e -> P e) by auto.
  unfold regenerate_variables_file, create_terraform_variables_file.
  repeat first [ apply emits_log; exact Hb
               | apply emits_variables_file_content; exact Hb
               | apply emits_write_text, HP; right; exact I
               | emits_step ].
Qed.

Lemma emits_var_file_args (P : Event -> Prop) (d : string) (vf : bool) :
  emits P (var_file_args d vf).
Proof. unfold var_file_args. repeat emits_step. Qed.

Lemma is_terraform_head (sub : string) (inv : Invocation)
                        (rest : list string) :
  argv inv = "terraform" :: sub :: rest -> is_terraform sub inv = true.
Proof.
  intros Ha. unfold is_terraform. rewrite Ha. simpl.
  apply String.eqb_refl.
Qed.

Lemma emits_destroy (tm : CredentialManager.t) (c : Challenge.t)
                    (auto_approve var_file : bool) :
  emits (fun e => benign e \/ lifecycle_spawn "destroy" c e)
        (destroy tm c auto_approve var_file).
Proof.
  unfold destroy.
  destruct (Challenge.full_directory_path c) as [d|] eqn:Hd.
  - repeat first
      [ apply emits_log; auto
      | apply emits_setup_environment_variables; auto
      | apply emits_var_file_args
      | apply emits_run_terraform_command; [auto|];
        intros inv Ha Hc Ht; right; simpl; rewrite Hc, Hd;
        split; [exact (is_terraform_head _ _ _ Ha)|split; [reflexivity|exact Ht]]
      | emits_step ].
  - go_logs.
Qed.

Lemma emits_apply (tm : CredentialManager.t) (c : Challenge.t)
                  (auto_approve var_file : bool) :
  emits (fun e => (benign e \/ (var_file = true /\ is_write e))
                  \/ lifecycle_spawn "apply" c e)
        (apply tm c auto_approve var_file).
Proof.
  unfold apply.
  destruct (Challenge.full_directory_path c) as [d|] eqn:Hd.
  - apply emits_bind.
    { destruct var_file; [|apply emits_ret].
      apply emits_regenerate. intros e [?|?]; auto. }
    intros _.
    repeat first
      [ apply emits_log; auto
      | apply emits_setup_environment_variables; auto
      | apply emits_var_file_args
      | apply emits_run_terraform_command; [auto|];
        intros inv Ha Hc Ht; right; simpl; rewrite Hc, Hd;
        split; [exact (is_terraform_head _ _ _ Ha)|split; [reflexivity|exact Ht]]
      | emits_step ].
  - go_logs.
Qed.


End Lifecycle.

Section LifecycleTraces.
Context `{Platform}.

Lemma var_file_args_spec (d : string) (vf : bool) (s : Sys) :
  var_file_args d vf s
  = (Ok (if vf && bool_decide (is_Some (fs s !! joinpath d "terraform.tfvars"))
         then ["-var-file"; joinpath d "terraform.tfvars"] else []), s).
Proof. destruct vf; reflexivity. Qed.

Lemma is_log_benign (e : Event) : is_log e -> benign e.
Proof. destruct e; simpl; tauto. Qed.

(** The common end of [plan], [apply] and [destroy]: set up the
    environment, add the variables file if it is there, run the command
    and log the result. When it returns, the command has been started
    exactly as built, after the queries of the credential set-up. *)
Lemma lifecycle_tail_trace {A} (tm : CredentialManager.t) (c : Challenge.t)
    (d : string) (vf : bool) (mk : list string -> list string) (t : Z)
    (fin : bool * string * string -> M A) (s0 s' : Sys) (a : A) :
  (forall x, emits is_log (fin x)) ->
  (env_vars <- CredentialManager.setup_environment_variables tm
                 (Challenge.provider c) (Challenge.variables c) ;;
   extra <- var_file_args d vf ;;
   r <- _run_terraform_command (mk extra) d env_vars t ;;
   fin r) s0 = (Ok a, s') ->
  let s1 := snd (CredentialManager.setup_environment_variables tm
                   (Challenge.provider c) (Challenge.variables c) s0) in
  exists post inv pre,
    events s' = post ++ ESpawn inv :: pre ++ events s0 /\
    Forall is_log post /\ Forall benign pre /\
    argv inv = mk (if vf && bool_decide
                           (is_Some (fs s1 !! joinpath d "terraform.tfvars"))
                   then ["-var-file"; joinpath d "terraform.tfvars"]
                   else []) /\
    cwd inv = Some d /\ timeout inv = t.
Proof.
  intros Hfin Hrun s1. subst s1.
  unfold bind at 1 in Hrun.
  destruct (emits_setup_environment_variables benign (fun e He => He) tm
              (Challenge.provider c) (Challenge.variables c) s0)
    as (pre0 & Epre & Fpre).
  destruct (CredentialManager.setup_environment_variables tm _ _ s0)
    as [[env_vars|e] s1]; [|discriminate].
  cbn [snd] in *.
  unfold bind at 1 in Hrun. rewrite var_file_args_spec in Hrun.
  unfold bind at 1 in Hrun.
  destruct (run_terraform_command_trace
              (mk (if vf && bool_decide
                             (is_Some (fs s1 !! joinpath d "terraform.tfvars"))
                   then ["-var-file"; joinpath d "terraform.tfvars"] else []))
              d env_vars t s1)
    as (r & s2 & post & inv & Hcmd & Epost & Fpost & Ha & Hc & Ht).
  rewrite Hcmd in Hrun.
  destruct (Hfin r s2) as (post' & Efin & Ffin).
  rewrite Hrun in Efin. cbn [snd] in Efin.
  eexists (post' ++ post), inv, (ETfLog _ :: pre0).
  repeat split; try eassumption.
  - rewrite Efin, Epost, Epre. rewrite <- app_assoc. reflexivity.
  - apply Forall_app; split; assumption.
  - constructor; [exact I | exact Fpre].
Qed.

(** [destroy] on a challenge with a directory, when it returns. *)
Lemma destroy_trace (tm : CredentialManager.t) (c : Challenge.t)
                    (auto_approve var_file : bool) (d : string)
                    (s s' : Sys) (ok : bool) :
  Challenge.full_directory_path c = Some d ->
  destroy tm c auto_approve var_file s = (Ok ok, s') ->
  let s1 := snd (CredentialManager.setup_environment_variables tm
                   (Challenge.provider c) (Challenge.variables c) s) in
  exists post inv pre,
    events s' = post ++ ESpawn inv :: pre ++ events s /\
    Forall is_log post /\ Forall benign pre /\
    argv inv = ["terraform"; "destroy"]
               ++ (if auto_approve then ["-auto-approve"] else [])
               ++ (if var_file && bool_decide
                        (is_Some (fs s1 !! joinpath d "terraform.tfvars"))
                   then ["-var-file"; joinpath d "terraform.tfvars"]
                   else []) /\
    cwd inv = Some d /\ timeout inv = lifecycle_timeout c.
Proof.
  intros Hd Hrun. unfold destroy in Hrun. rewrite Hd in Hrun.
  eapply (lifecycle_tail_trace tm c d var_file
            (fun extra => ["terraform"; "destroy"]
                          ++ (if auto_approve then ["-auto-approve"] else [])
                          ++ extra)
            (lifecycle_timeout c)); [|exact Hrun].
  intros x. destruct x as [[success out] err].
  repeat first [apply emits_emit; exact I | emits_step].
Qed.

(** [apply] on a challenge with a directory, when it returns: the
    command is started after the variables file was dealt with. *)
Lemma apply_trace (tm : CredentialManager.t) (c : Challenge.t)
                  (auto_approve var_file : bool) (d : string)
                  (s s' : Sys) (ok : bool) :
  Challenge.full_directory_path c = Some d ->
  apply tm c auto_approve var_file s = (Ok ok, s') ->
  let s0 := if var_file then snd (regenerate_variables_file c s) else s in
  let s1 := snd (CredentialManager.setup_environment_variables tm
                   (Challenge.provider c) (Challenge.variables c) s0) in
  exists post inv pre,
    events s' = post ++ ESpawn inv :: pre ++ events s0 /\
    Forall is_log post /\ Forall benign pre /\
    argv inv = ["terraform"; "apply"]
               ++ (if auto_approve then ["-auto-approve"] else [])
               ++ (if var_file && bool_decide
                        (is_Some (fs s1 !! joinpath d "terraform.tfvars"))
                   then ["-var-file"; joinpath d "terraform.tfvars"]
                   else []) /\
    cwd inv = Some d /\ timeout inv = lifecycle_timeout c.
Proof.
  intros Hd Hrun. unfold apply in Hrun. rewrite Hd in Hrun.
  unfold bind at 1 in Hrun.
  destruct ((if var_file then regenerate_variables_file c else ret tt) s)
    as [[u|e] s0'] eqn:Hpre; [|discriminate].
  assert (s0' = if var_file then snd (regenerate_variables_file c s) else s)
    as -> by (destruct var_file; [now rewrite Hpre | now injection Hpre]).
  eapply (lifecycle_tail_trace tm c d var_file
            (fun extra => ["terraform"; "apply"]
                          ++ (if auto_approve then ["-auto-approve"] else [])
                          ++ extra)
            (lifecycle_timeout c)); [|exact Hrun].
  intros x. destruct x as [[success out] err].
  repeat first [apply emits_emit; exact I | emits_step].
Qed.


End LifecycleTraces.

(** ** Destroying *)

Section Destroying.
Context `{Platform}.

Lemma query_not_lifecycle (inv : Invocation) :
  is_query inv = true ->
  is_terraform "apply" inv = false /\ is_terraform "destroy" inv = false.
Proof.
  unfold is_query, is_terraform.
  destruct (argv inv) as [|prog [|arg rest]]; [discriminate| |].
  - auto.
  - destruct (String.eqb_spec prog "terraform") as [->|]; [|auto].
    cbn [andb orb String.eqb Ascii.eqb Bool.eqb].
    destruct (String.eqb_spec arg "state") as [->|];
      [split; reflexivity|].
    destruct (String.eqb_spec arg "output") as [->|];
      [split; reflexivity|].
    discriminate.
Qed.

Lemma benign_not_destroy (e : Event) : benign e -> ~ is_destroy_spawn e.
Proof.
  destruct e; simpl; try tauto.
  intros Hq Hd. apply query_not_lifecycle in Hq as [_ Hq]. congruence.
Qed.

Lemma benign_not_write (e : Event) : benign e -> ~ is_write e.
Proof. destruct e; simpl; tauto. Qed.

Lemma emits_get_challenge (self : CTFManager.t) (n : string) :
  emits benign (CTFManager.get_challenge self n).
Proof.
  unfold CTFManager.get_challenge.
  repeat first [ apply emits_get_challenge_config; auto | emits_step ].
Qed.

Lemma emits_get_all_challenges (self : CTFManager.t) :
  emits benign (CTFManager.get_all_challenges self).
Proof.
  unfold CTFManager.get_all_challenges.
  repeat first [ apply emits_loader_get_all_challenges; auto | emits_step ].
Qed.

Lemma emits_is_deployed (c : Challenge.t) :
  emits benign (CTFManager.is_deployed c).
Proof.
  unfold CTFManager.is_deployed.
  repeat first [ apply emits_get_status; auto | emits_step ].
Qed.

(** C5. When the probed status of the challenge is [not_deployed], the
    destroy operation reports success straight after the probe: the
    final state is the state the probe left, and everything added to
    the trace since the call is a log record or a querying subprocess;
    no [terraform destroy] was started and no file was written. *)
Theorem destroy_not_deployed_noop
    (self self1 : CTFManager.t) (challenge_name : string)
    (auto_approve : bool) (c : Challenge.t) (s s1 s2 : Sys) :
  CTFManager.get_challenge self challenge_name s = (Ok (self1, Some c), s1) ->
  get_status_from_terraform_state c s1 = (Ok NOT_DEPLOYED, s2) ->
  CTFManager.destroy_challenge self challenge_name auto_approve s
  = (Ok (self1, true), s2) /\
  exists new,
    events s2 = new ++ events s /\
    Forall (fun e => benign e /\ ~ is_destroy_spawn e /\ ~ is_write e) new.
Proof.
  intros Hget Hst. split.
  - unfold CTFManager.destroy_challenge.
    unfold bind at 1. rewrite Hget. cbn [fst snd].
    unfold bind at 1. rewrite Hst. reflexivity.
  - destruct (emits_get_challenge self challenge_name s) as (n1 & E1 & F1).
    destruct (emits_get_status benign (fun e He => He) c s1) as (n2 & E2 & F2).
    rewrite Hget in E1. rewrite Hst in E2. cbn [snd] in *.
    exists (n2 ++ n1). split.
    + rewrite E2, E1. apply app_assoc.
    + apply Forall_app. split; eapply Forall_impl; eauto;
        intros e He; auto using benign_not_destroy, benign_not_write.
Qed.

(** C7. Destroy-all without auto-approve, with at least one deployed
    challenge (so that the operator is asked): when the answer,
    lower-cased, is not [yes], the operation returns failure right
    after the prompt, and nothing it added to the trace since the call
    is a [terraform destroy]; the number of deployed challenges plays
    no part. *)
Theorem destroy_all_declined
    (self self1 : CTFManager.t) (cs deployed : list Challenge.t)
    (response : string) (rest : list string) (s s1 s2 : Sys) :
  CTFManager.get_all_challenges self s = (Ok (self1, cs), s1) ->
  filterM CTFManager.is_deployed cs s1 = (Ok deployed, s2) ->
  deployed <> [] ->
  stdin s2 = response :: rest ->
  PyStr.lower response <> "yes" ->
  CTFManager.destroy_all_challenges self false s
  = (Ok (self1, false),
     {| fs := fs s2; environ := environ s2; stdin := rest;
        events := EInput CTFManager.destroy_all_prompt :: events s2 |}) /\
  exists new,
    EInput CTFManager.destroy_all_prompt :: events s2 = new ++ events s /\
    Forall (fun e => ~ is_destroy_spawn e) new.
Proof.
  intros Hall Hdep Hne Hin Hno. split.
  - unfold CTFManager.destroy_all_challenges.
    unfold bind at 1. rewrite Hall. cbn [fst snd].
    unfold bind at 1. rewrite Hdep.
    destruct deployed as [|c0 more]; [congruence|].
    cbn [negb]. unfold bind at 1. unfold bind at 1. unfold input.
    rewrite Hin.
    assert (String.eqb (PyStr.lower response) "yes" = false) as Hneq
      by (now apply String.eqb_neq).
    unfold ret at 1. cbv beta iota. rewrite Hneq. reflexivity.
  - destruct (emits_get_all_challenges self s) as (n1 & E1 & F1).
    destruct (emits_filterM benign CTFManager.is_deployed cs
                emits_is_deployed s1) as (n2 & E2 & F2).
    rewrite Hall in E1. rewrite Hdep in E2. cbn [snd] in *.
    exists (EInput CTFManager.destroy_all_prompt :: n2 ++ n1). split.
    + rewrite E2, E1. simpl. now rewrite app_assoc.
    + constructor; [simpl; tauto|].
      apply Forall_app. split; eapply Forall_impl; eauto;
        intros e He; auto using benign_not_destroy.
Qed.

Lemma timeout_of_name (c : Challenge.t) :
  lifecycle_timeout c
  = (if String.eqb (Challenge.name c) "challenge-04-aws-only"
     then 2400 else 1200)%Z.
Proof. reflexivity. Qed.

Lemma benign_timeout (c : Challenge.t) (e : Event) :
  benign e -> timeout_respected c e.
Proof.
  destruct e; simpl; try tauto.
  intros Hq [Ha|Hd]; apply query_not_lifecycle in Hq as [? ?]; congruence.
Qed.

Lemma lifecycle_spawn_timeout (sub : string) (c : Challenge.t) (e : Event) :
  lifecycle_spawn sub c e -> timeout_respected c e.
Proof. destruct e; simpl; tauto. Qed.

(** C6. Every apply and every destroy that the manager starts for a
    challenge runs with a timeout of 2400 seconds when the challenge is
    named [challenge-04-aws-only] and of 1200 seconds otherwise; and on
    a challenge with a directory, an apply or destroy that returns has
    started that command once, in that directory, with that timeout. *)
Theorem lifecycle_timeout_by_name
    (tm : CredentialManager.t) (c : Challenge.t)
    (auto_approve var_file : bool) :
  let limit := (if String.eqb (Challenge.name c) "challenge-04-aws-only"
                then 2400 else 1200)%Z in
  emits (timeout_respected c) (apply tm c auto_approve var_file) /\
  emits (timeout_respected c) (destroy tm c auto_approve var_file) /\
  (forall d s s' ok,
      Challenge.full_directory_path c = Some d ->
      apply tm c auto_approve var_file s = (Ok ok, s') ->
      exists post inv pre,
        events s' = post ++ ESpawn inv :: pre ++ events s /\
        Forall is_log post /\
        is_terraform "apply" inv = true /\ cwd inv = Some d /\
        timeout inv = limit) /\
  (forall d s s' ok,
      Challenge.full_directory_path c = Some d ->
      destroy tm c auto_approve var_file s = (Ok ok, s') ->
      exists post inv pre,
        events s' = post ++ ESpawn inv :: pre ++ events s /\
        Forall is_log post /\
        is_terraform "destroy" inv = true /\ cwd inv = Some d /\
        timeout inv = limit).
Proof.
  intros limit. subst limit. repeat split.
  - eapply emits_weaken; [|apply emits_apply].
    intros e [[Hb|[_ Hw]]|Hl].
    + now apply benign_timeout.
    + destruct e; simpl in *; tauto.
    + eapply lifecycle_spawn_timeout; eauto.
  - eapply emits_weaken; [|apply emits_destroy].
    intros e [Hb|Hl].
    + now apply benign_timeout.
    + eapply lifecycle_spawn_timeout; eauto.
  - intros d s s' ok Hd Hrun.
    destruct (apply_trace tm c auto_approve var_file d s s' ok Hd Hrun)
      as (post & inv & pre & E & Fp & _ & Ha & Hc & Ht).
    assert (exists pre0,
               events (if var_file then snd (regenerate_variables_file c s)
                       else s) = pre0 ++ events s) as [pre0 E0].
    { destruct var_file; [|exists []; reflexivity].
      destruct (emits_regenerate (fun _ => True) c (fun _ _ => I) s)
        as (pre0 & E0 & _). eauto. }
    exists post, inv, (pre ++ pre0). repeat split; try assumption.
    + rewrite E, E0. now rewrite <- app_assoc.
    + eapply is_terraform_head. exact Ha.
  - intros d s s' ok Hd Hrun.
    destruct (destroy_trace tm c auto_approve var_file d s s' ok Hd Hrun)
      as (post & inv & pre & E & Fp & _ & Ha & Hc & Ht).
    exists post, inv, pre. repeat split; try assumption.
    eapply is_terraform_head. exact Ha.
Qed.

End Destroying.

(** ** The variables file *)

Section VariablesFile.
Context `{Platform}.





End VariablesFile.

(** ** Concrete runs *)

Import Fixture.

Lemma resolve_literal_identity_run :
  is_reference (PStr "us-east-1") = false /\
  @_resolve_variable_value deployed y (PStr "us-east-1") [] (world [])
  = (Ok (PStr "us-east-1"), world []) /\
  @_resolve_variable_value deployed y (PInt 2) [] (world [])
  = (Ok (PInt 2), world []).
Proof.
  split; [reflexivity|]. split.
  - apply (@resolve_literal_identity deployed). reflexivity.
  - apply (@resolve_literal_identity deployed). reflexivity.
Defined.

(** The credential wins over the environment variable of the same name;
    [REGION] is only in the environment; [MISSING] is nowhere. *)
Lemma resolve_simple_reference_run :
  environ (world []) !! "AWS_ACCESS_KEY_ID" = Some "from-environment" /\
  fst (@_resolve_variable_value deployed y (PStr "${AWS_ACCESS_KEY_ID}")
         [("access_key_id", PStr "from-credentials")] (world []))
  = Ok (PStr "from-credentials") /\
  fst (@_resolve_variable_value deployed y (PStr "${REGION}")
         [("access_key_id", PStr "from-credentials")] (world []))
  = Ok (PStr "eu-west-1") /\
  fst (@_resolve_variable_value deployed y (PStr "${MISSING}")
         [("access_key_id", PStr "from-credentials")] (world []))
  = Ok (PStr "${MISSING}").
Proof.
  split; [reflexivity|]. split; [|split].
  - apply (proj1 (@resolve_simple_reference deployed y "AWS_ACCESS_KEY_ID"
                    [("access_key_id", PStr "from-credentials")] (world [])
                    eq_refl) "access_key_id").
    + vm_compute. tauto.
    + reflexivity.
  - apply (proj2 (@resolve_simple_reference deployed y "REGION"
                    [("access_key_id", PStr "from-credentials")] (world [])
                    eq_refl)).
    + intros key Hin. vm_compute in Hin.
      repeat (destruct Hin as [Hin|Hin]; [discriminate|]). destruct Hin.
    + reflexivity.
    + discriminate.
  - apply (proj2 (@resolve_simple_reference deployed y "MISSING"
                    [("access_key_id", PStr "from-credentials")] (world [])
                    eq_refl)).
    + intros key Hin. vm_compute in Hin.
      repeat (destruct Hin as [Hin|Hin]; [discriminate|]). destruct Hin.
    + left. reflexivity.
Defined.

Lemma probe_unset_directory_unknown_run :
  Challenge.directory z = PNone /\
  Challenge.full_directory_path z = None /\
  @get_status_from_terraform_state deployed z (world [])
  = (Ok UNKNOWN, world []).
Proof.
  split; [reflexivity|].
  apply (@probe_unset_directory_unknown deployed "challenge-z"
           (PDict [("provider", PStr "aws")]) "/ctf").
  - reflexivity.
  - reflexivity.
Defined.





(** [challenge-x] is initialised but holds no resources: the destroy
    operation succeeds without starting a destroy. *)
Lemma destroy_not_deployed_noop_run :
  (exists self1 s2,
      @CTFManager.destroy_challenge empty manager "challenge-x" false
        (world [])
      = (Ok (self1, true), s2) /\
      existsb (started "destroy") (events s2) = false /\
      existsb wrote (events s2) = false).
Proof.
  edestruct (@destroy_not_deployed_noop empty manager)
    with (challenge_name := "challenge-x") (auto_approve := false)
         (s := world []) as [Hrun _];
    [vm_compute; reflexivity | vm_compute; reflexivity |].
  eexists _, _. split; [exact Hrun|]. split; vm_compute; reflexivity.
Defined.

(** Scenario D: the heavyweight challenge is applied with 2400 seconds,
    any other one with 1200. *)
Lemma lifecycle_timeout_by_name_run :
  (exists post inv pre,
      events (snd (@apply deployed no_credentials dc true true (world [])))
      = post ++ ESpawn inv :: pre ++ [] /\
      is_terraform "apply" inv = true /\ timeout inv = 2400%Z) /\
  (exists post inv pre,
      events (snd (@destroy deployed no_credentials x true true (world [])))
      = post ++ ESpawn inv :: pre ++ [] /\
      is_terraform "destroy" inv = true /\ timeout inv = 1200%Z).
Proof.
  split.
  - destruct (@lifecycle_timeout_by_name deployed no_credentials dc true true)
      as (_ & _ & Happly & _).
    edestruct (Happly "/ctf/dc" (world []))
      as (post & inv & pre & E & _ & Ha & _ & Ht);
      [reflexivity | vm_compute; reflexivity |].
    exists post, inv, pre. repeat split; assumption.
  - destruct (@lifecycle_timeout_by_name deployed no_credentials x true true)
      as (_ & _ & _ & Hdestroy).
    edestruct (Hdestroy "/ctf/x" (world []))
      as (post & inv & pre & E & _ & Ha & _ & Ht);
      [reflexivity | vm_compute; reflexivity |].
    exists post, inv, pre. repeat split; assumption.
Defined.

(** Scenario E: two deployed challenges, the operator answers [no]. *)
Lemma destroy_all_declined_run :
  (exists self1 s3,
      @CTFManager.destroy_all_challenges deployed manager false
        (world ["no"])
      = (Ok (self1, false), s3) /\
      existsb (started "destroy") (events s3) = false).
Proof.
  edestruct (@destroy_all_declined deployed manager)
    with (deployed := [x; y]) (response := "no") (rest := @nil string)
         (s := world ["no"]) as [Hrun _];
    [vm_compute; reflexivity | vm_compute; reflexivity | discriminate
    | reflexivity | discriminate |].
  eexists _, _. split; [exact Hrun|]. vm_compute. reflexivity.
Defined.




(** * Properties of the rest of the code *)

(** ** Validation of a descriptor *)

Section ValidateFacts.
Context `{Platform}.

Lemma supported_provider_truthy (v : PyVal) :
  supported_provider v = true -> Py.truthy v = true.
Proof.
  destruct v; try discriminate. destruct s; [discriminate | reflexivity].
Qed.

Lemma is_Some_dec_eq {A} (o : option A) :
  bool_decide (is_Some o) = match o with Some _ => true | None => false end.
Proof.
  destruct o.
  - apply bool_decide_eq_true_2. eauto.
  - apply bool_decide_eq_false_2. intros [? ?]. discriminate.
Qed.

(** The error, if any, that a path check adds. *)
Lemma path_check_step (acc : list string) (skip : bool) (otherwise : string)
                      (p : option string) (label : string) (s : Sys) :
  (if skip then ret (acc ++ [otherwise])
   else gone <- missing_on_disk p ;;
        ret (match gone with
             | Some path => acc ++ [label +:+ path]
             | None => acc
             end)) s
  = (Ok (acc ++ (if skip then [otherwise]
                 else match p with
                      | Some path =>
                          match fs s !! path with
                          | Some _ => []
                          | None => [label +:+ path]
                          end
                      | None => []
                      end)), s).
Proof.
  destruct skip; [reflexivity|].
  destruct p as [path|]; unfold missing_on_disk, path_exists, bind, ret;
    cbv beta iota; [|now rewrite app_nil_r].
  rewrite is_Some_dec_eq. destruct (fs s !! path); [|reflexivity].
  now rewrite app_nil_r.
Qed.

Lemma length_zero_iff {A} (l : list A) :
  Nat.eqb (length l) 0 = true <-> l = [].
Proof. destruct l; simpl; split; congruence. Qed.

Lemma path_piece_nil (files : gmap string Node) (skip : bool)
                     (otherwise label : string) (p : option string) :
  (if skip then [otherwise]
   else match p with
        | Some path =>
            match files !! path with
            | Some _ => []
            | None => [label +:+ path]
            end
        | None => []
        end) = [] <->
  skip = false /\ forall path, p = Some path -> is_Some (files !! path).
Proof.
  destruct skip; [split; [discriminate | intros [? _]; discriminate]|].
  destruct p as [path|].
  - destruct (files !! path) eqn:E.
    + split; [intros _|reflexivity]. split; [reflexivity|].
      intros ? [= <-]. rewrite E. eauto.
    + split; [discriminate|]. intros [_ Hx].
      destruct (Hx path eq_refl) as [? ?]. congruence.
  - split; [intros _|reflexivity]. split; [reflexivity | discriminate].
Qed.

Lemma name_provider_nil (name : string) (provider : PyVal) (m1 m2 m3 : string) :
  (let errors := if negb (PyStr.truthy name) then [] ++ [m1] else [] in
   if negb (Py.truthy provider) then errors ++ [m2]
   else if negb (supported_provider provider) then errors ++ [m3]
   else errors) = [] <->
  name <> EmptyString /\ supported_provider provider = true.
Proof.
  destruct name as [|c0 n0]; cbn [PyStr.truthy negb app];
    destruct (Py.truthy provider) eqn:Hp;
    destruct (supported_provider provider) eqn:Hs; cbn [negb app];
    split; try discriminate; try tauto; try (intros [? ?]; congruence).
  - intros _. split; [discriminate | reflexivity].
  - apply supported_provider_truthy in Hs. congruence.
Qed.

Lemma validate_verdict (c : Challenge.t) (s : Sys) :
  exists ok errors,
    validate c s = (Ok (ok, errors), s) /\
    (ok = true <-> errors = []) /\
    (ok = true <-> well_formed (fs s) c).
Proof.
  unfold validate.
  set (e12 := if negb (Py.truthy (Challenge.provider c)) then _
              else if negb (supported_provider (Challenge.provider c)) then _
              else _).
  unfold bind at 1. rewrite path_check_step.
  unfold bind at 1. rewrite path_check_step.
  unfold bind at 1.
  assert (Hmain : forall acc,
             match Challenge.full_directory_path c with
             | Some full_directory_path =>
                 ex <- path_exists (joinpath full_directory_path "main.tf") ;;
                 ret (if negb ex
                      then acc ++ ["main.tf not found in challenge directory: "
                                   +:+ joinpath full_directory_path "main.tf"]
                      else acc)
             | None => ret acc
             end s
             = (Ok (acc ++ match Challenge.full_directory_path c with
                           | Some d =>
                               match fs s !! joinpath d "main.tf" with
                               | Some _ => []
                               | None =>
                                   ["main.tf not found in challenge directory: "
                                    +:+ joinpath d "main.tf"]
                               end
                           | None => []
                           end), s)).
  { intros acc. destruct (Challenge.full_directory_path c) as [d|];
      [|unfold ret; now rewrite app_nil_r].
    unfold bind, path_exists, ret. rewrite is_Some_dec_eq.
    destruct (fs s !! joinpath d "main.tf"); cbn [negb];
      [now rewrite app_nil_r | reflexivity]. }
  assert (Hweb : forall acc,
             (if Py.truthy (Challenge.web_content c)
              then gone <- missing_on_disk (Challenge.full_web_content_path c) ;;
                   ret (match gone with
                        | Some path =>
                            acc ++ ["Web content directory not found: " +:+ path]
                        | None => acc
                        end)
              else ret acc) s
             = (Ok (acc ++ (if negb (Py.truthy (Challenge.web_content c)) then []
                            else match Challenge.full_web_content_path c with
                                 | Some path =>
                                     match fs s !! path with
                                     | Some _ => []
                                     | None =>
                                         ["Web content directory not found: "
                                          +:+ path]
                                     end
                                 | None => []
                                 end)), s)).
  { intros acc. destruct (Py.truthy (Challenge.web_content c)); cbn [negb];
      [|unfold ret; now rewrite app_nil_r].
    exact (path_check_step acc false EmptyString _ _ s). }
  rewrite Hmain. unfold bind at 1. rewrite Hweb. unfold ret.
  eexists _, _. split; [reflexivity|]. split; [apply length_zero_iff|].
  rewrite length_zero_iff, !app_nil. subst e12.
  rewrite name_provider_nil, !path_piece_nil.
  unfold well_formed.
  destruct (Py.truthy (Challenge.directory c)),
           (Py.truthy (Challenge.backend_config c)); cbn [negb];
    try (split; [intros ((((_ & [? _]) & [? _]) & _) & _)
                | intros (_ & _ & ? & ? & _)]; discriminate).
  split.
  - intros ((((( Hn & Hs) & [_ Hdir]) & [_ Hback]) & Hmaintf) & Hwebc).
    split; [exact Hn|]. split; [exact Hs|]. do 2 (split; [reflexivity|]).
    split; [|split; [exact Hback|]].
    + intros p Hp. split; [now apply Hdir|].
      rewrite Hp in Hmaintf. destruct (fs s !! joinpath p "main.tf"); eauto.
      discriminate.
    + intros Hw p Hp. rewrite Hw, Hp in Hwebc. cbn [negb] in Hwebc.
      destruct (fs s !! p); eauto. discriminate.
  - intros (Hn & Hs & _ & _ & Hdir & Hback & Hwebc).
    repeat split; try assumption.
    + intros p Hp. now apply Hdir.
    + destruct (Challenge.full_directory_path c) as [d|]; [|reflexivity].
      destruct (Hdir d eq_refl) as [_ [? ->]]. reflexivity.
    + destruct (Py.truthy (Challenge.web_content c)); [|reflexivity].
      cbn [negb].
      destruct (Challenge.full_web_content_path c) as [w|]; [|reflexivity].
      destruct (Hwebc eq_refl w eq_refl) as [? ->]. reflexivity.
Qed.


End ValidateFacts.

(** ** The command runner and the outputs *)

Section RunnerFacts.
Context `{Platform}.

(** X2. The command runner never raises. It starts the command once, on
    the terminal when the command is interactive and captured otherwise;
    success is exit code 0; an interactive run hands back no text, a
    captured run hands back the output and the error stream, a timeout
    hands back its own message and any other exception its text. *)
Theorem run_terraform_command_result
    (command : list string) (dir : string) (env_vars : Py.dict) (t : Z)
    (s : Sys) :
  let s0 := snd (tf_log (LogCommand (String.concat " " command) dir) s) in
  let inv := {| argv := command; cwd := Some dir;
                env := Some (subprocess_env (environ s) env_vars);
                capture_output := negb (interactive command);
                timeout := t |} in
  exists s',
    _run_terraform_command command dir env_vars t s
    = (Ok match fst (subprocess_run inv s0) with
          | Completed r =>
              if interactive command
              then ((returncode r =? 0)%Z, EmptyString, EmptyString)
              else ((returncode r =? 0)%Z, stdout r, stderr r)
          | Raised e =>
              (false, EmptyString,
               match exn_class e with
               | TimeoutExpired =>
                   "Command timed out after " +:+ pretty t +:+ "s"
               | _ => exn_str e
               end)
          end, s') /\
    fs s' = snd (subprocess_run inv s0) /\
    exists logs, events s' = logs ++ ESpawn inv :: events s0 /\
                 Forall is_log logs.
Proof.
  intros s0 inv. subst s0 inv.
  unfold _run_terraform_command, interactive.
  unfold bind at 1, reads. unfold bind at 1. unfold tf_log at 1, emit at 1.
  cbv beta iota. cbn [snd environ]. unfold try_except.
  destruct ((list_in "apply" command || list_in "destroy" command)
            && negb (list_in "-auto-approve" command)); cbn [negb].
  - unfold bind, run.
    destruct (subprocess_run _ _) as [[r|e] fs'] eqn:Ho; cbn [fst snd].
    + eexists. split; [reflexivity|]. split; [reflexivity|].
      exists []. split; [reflexivity | constructor].
    + destruct (exn_class e); unfold log, tf_log, emit, ret;
        (eexists; split; [reflexivity|]; split; [reflexivity|];
         eexists [_; _]; split; [reflexivity | repeat constructor]).
  - unfold bind at 1, run.
    destruct (subprocess_run _ _) as [[r|e] fs'] eqn:Ho; cbn [fst snd].
    + unfold bind, tf_log, emit, ret.
      destruct (PyStr.truthy (stdout r)), (PyStr.truthy (stderr r));
        cbv beta iota;
        (eexists; split; [reflexivity|]; split; [reflexivity|]);
        [eexists [_; _; _] | eexists [_; _] | eexists [_; _] | eexists [_]];
        (split; [reflexivity | repeat constructor]).
    + destruct (exn_class e); unfold bind, log, tf_log, emit, ret;
        (eexists; split; [reflexivity|]; split; [reflexivity|];
         eexists [_; _]; split; [reflexivity | repeat constructor]).
Qed.

Lemma output_values_cons (k : string) (v : PyVal) (rest : Py.dict) :
  output_values (PDict ((k, v) :: rest))
  = res_bind (Py.get v "value" v) (fun x =>
    res_bind (output_values (PDict rest)) (fun r => Ok ((k, x) :: r))).
Proof.
  unfold output_values. simpl. destruct (Py.get v "value" v); reflexivity.
Qed.

(** X3. Extracting the values of the outputs: when every declared output
    is a mapping, each name is kept, in order, with its [value] field (or
    the whole entry when it has none); an entry that is not a mapping, or
    outputs that are not a mapping at all, raise [AttributeError]. *)
Theorem output_values_by_name (outputs : PyVal) :
  match outputs with
  | PDict d =>
      (Forall (fun kv => is_dict (snd kv)) d ->
       output_values outputs
       = Ok (map (fun kv => (fst kv, value_field (snd kv))) d)) /\
      (~ Forall (fun kv => is_dict (snd kv)) d ->
       exists e, output_values outputs = Raise e /\
                 exn_class e = AttributeError)
  | _ => output_values outputs = Raise (Py.attribute_error outputs "items")
  end.
Proof.
  destruct outputs as [| | | | |l|d]; try reflexivity.
  induction d as [|[k v] rest [IHok IHbad]].
  - split; [reflexivity|]. intros Hn. exfalso. apply Hn. constructor.
  - split.
    + intros Hall. apply Forall_cons in Hall as [Hv Hrest].
      rewrite output_values_cons, (IHok Hrest).
      destruct v; try contradiction. reflexivity.
    + intros Hn. rewrite output_values_cons.
      destruct v; try (eexists; split; reflexivity).
      cbn [snd] in *. destruct IHbad as (e & He & Hc).
      * intros Hrest. apply Hn. constructor; [exact I | exact Hrest].
      * exists e. rewrite He. split; [reflexivity | exact Hc].
Qed.

End RunnerFacts.

(** ** Credentials *)

Section CredentialFacts.
Context `{Platform}.

Lemma returns_ret {A} (Q : A -> Prop) (a : A) : Q a -> returns Q (ret a).
Proof. intros Ha s a' s' [= <- _]. exact Ha. Qed.

Lemma returns_bind {A B} (Q : B -> Prop) (m : M A) (k : A -> M B) :
  (forall a, returns Q (k a)) -> returns Q (bind m k).
Proof.
  intros Hk s b s' Hrun. unfold bind in Hrun.
  destruct (m s) as [[a|e] s1]; [|discriminate].
  exact (Hk a s1 b s' Hrun).
Qed.

Lemma drop_none_no_none (d : Py.dict) :
  Forall (fun kv => snd kv <> PNone) (CredentialManager.drop_none d).
Proof.
  unfold CredentialManager.drop_none, Py.dict in *.
  induction d as [|kv d IH]; [constructor|].
  rewrite filter_cons. destruct (decide _) as [Hk|Hk]; [|exact IH].
  constructor; [|exact IH].
  intros Hnone. rewrite Hnone in Hk. discriminate.
Qed.

(** X4. The credentials of a provider, whenever they are obtained, hold
    no [None]: a credential that was found nowhere is left out of the
    mapping. *)
Theorem provider_credentials_without_none (self : CredentialManager.t)
                                          (provider : PyVal) :
  returns (Forall (fun kv => snd kv <> PNone))
          (CredentialManager.get_provider_credentials self provider).
Proof.
  unfold CredentialManager.get_provider_credentials.
  destruct (Py.eq_str provider "aws");
    [|destruct (Py.eq_str provider "azure");
      [|destruct (Py.eq_str provider "gcp")]].
  - unfold CredentialManager.get_aws_credentials.
    repeat (apply returns_bind; intros ?).
    apply returns_ret, drop_none_no_none.
  - unfold CredentialManager.get_azure_credentials.
    repeat (apply returns_bind; intros ?).
    apply returns_ret, drop_none_no_none.
  - unfold CredentialManager.get_gcp_credentials.
    repeat (apply returns_bind; intros ?).
    apply returns_ret, drop_none_no_none.
  - intros s a s' Hr. discriminate.
Qed.

(** X5. A provider other than [aws], [azure] and [gcp] passes the
    credential validation, with nothing missing and nothing looked up,
    although asking for its credentials raises [ValueError]. *)
Theorem unsupported_provider_validates (self : CredentialManager.t)
                                       (provider : PyVal) (s : Sys) :
  supported_provider provider = false ->
  CredentialChecks.validate_provider_credentials self provider s
  = (Ok (true, []), s) /\
  exists e,
    CredentialManager.get_provider_credentials self provider s = (Raise e, s)
    /\ exn_class e = ValueError.
Proof.
  unfold supported_provider. intros Hs.
  apply orb_false_elim in Hs as [Hs Hgcp].
  apply orb_false_elim in Hs as [Haws Hazure].
  unfold CredentialChecks.validate_provider_credentials,
    CredentialManager.get_provider_credentials.
  rewrite Haws, Hazure, Hgcp. split; [reflexivity|].
  eexists. split; reflexivity.
Qed.

Lemma has_drop_none_head (k : string) (v : PyVal) (rest : Py.dict) :
  Py.is_not_none v = true ->
  CredentialChecks.has (CredentialManager.drop_none ((k, v) :: rest)) k
  = Py.truthy v.
Proof.
  intros Hv. unfold CredentialChecks.has, CredentialManager.drop_none, Py.dict.
  rewrite filter_cons. cbn [snd].
  destruct (decide (Py.is_not_none v = true)) as [_|Hn]; [|congruence].
  cbn [Py.dict_lookup]. rewrite String.eqb_refl. reflexivity.
Qed.

(** X6. On a machine where the credentials file has no [aws] section and
    [AWS_PROFILE] is unset or non-empty, the validation of the AWS
    credentials succeeds whether or not any access key exists: the
    profile falls back to [default], and a profile is enough. *)
Theorem aws_validation_by_default_profile
    (self : CredentialManager.t) (sections : Py.dict) (s : Sys) :
  CredentialManager.credentials self = PDict sections ->
  Py.dict_lookup "aws" sections = None ->
  environ s !! "AWS_PROFILE" <> Some EmptyString ->
  CredentialChecks.validate_provider_credentials self (PStr "aws") s
  = (Ok (true, []), s).
Proof.
  intros Hc Haws Hprofile.
  unfold CredentialChecks.validate_provider_credentials.
  change (Py.eq_str (PStr "aws") "aws") with true. cbv iota.
  unfold CredentialManager.get_aws_credentials.
  rewrite Hc. cbn [Py.get]. rewrite Haws.
  cbv beta iota zeta delta
    [bind lift CredentialManager.getenv_or getenv ret Py.get
     Py.dict_lookup default from_option id].
  rewrite has_drop_none_head
    by (destruct (environ s !! "AWS_PROFILE"); reflexivity).
  destruct (environ s !! "AWS_PROFILE") as [[|c p]|];
    [congruence|reflexivity|reflexivity].
Qed.

Lemma split_head (sep : ascii) (text : string) :
  exists first rest, PyText.split sep text = first :: rest.
Proof.
  induction text as [|c t (first & rest & IH)]; simpl.
  - eauto.
  - destruct (Ascii.eqb c sep); [eauto|]. rewrite IH. eauto.
Qed.

(** X7. The installation check reports Terraform as installed exactly
    when [terraform version] exits with 0, and then hands back a version
    line; a non-zero exit, a timeout and a missing binary are reported as
    not installed; any other exception of the subprocess call is not
    caught and reaches the caller. *)
Theorem terraform_installation_check (s : Sys) :
  let done := subprocess_run CredentialChecks.terraform_version s in
  match fst done with
  | Completed r =>
      if (returncode r =? 0)%Z then
        exists line s',
          CredentialChecks.check_terraform_installation s
          = (Ok (true, Some line), s') /\
          head (PyText.lines (stdout r)) = Some line
      else
        exists s',
          CredentialChecks.check_terraform_installation s
          = (Ok (false, None), s')
  | Raised e =>
      exists s',
        CredentialChecks.check_terraform_installation s
        = (match exn_class e with
           | TimeoutExpired | FileNotFoundError => Ok (false, None)
           | _ => Raise e
           end, s')
  end.
Proof.
  intros done. subst done.
  unfold CredentialChecks.check_terraform_installation, try_except_on,
    bind, run.
  destruct (subprocess_run CredentialChecks.terraform_version s)
    as [[r|e] fs'] eqn:Ho; cbn [fst].
  - destruct (returncode r =? 0)%Z.
    + destruct (split_head (ascii_of_nat 10) (stdout r)) as (l & rest & Hl).
      unfold PyText.lines. rewrite Hl. eexists _, _. split; reflexivity.
    + eexists. reflexivity.
  - destruct (exn_class e); eexists; reflexivity.
Qed.

End CredentialFacts.

(** ** The state report of the Terraform manager *)

Section StateFacts.
Context `{Platform}.



Lemma bind_path_exists {A} (p : string) (k : bool -> M A) (s : Sys) :
  (ex <- path_exists p ;; k ex) s
  = k (bool_decide (is_Some (fs s !! p))) s.
Proof. reflexivity. Qed.

Local Ltac answer :=
  eexists _, _, _, _;
  split; [reflexivity|]; split; [reflexivity|]; split; reflexivity.


Lemma bind_Ok {A B} (m : M A) (k : A -> M B) (s s' : Sys) (b : B) :
  (x <- m ;; k x) s = (Ok b, s') ->
  exists a s1, m s = (Ok a, s1) /\ k a s1 = (Ok b, s').
Proof.
  unfold bind. destruct (m s) as [[a|e] s1]; [eauto | discriminate].
Qed.

(** What a positive resource count in the state report implies. *)
Lemma state_info_counted (c : Challenge.t) (s s' : Sys) (info : Py.dict) :
  TerraformManager.get_state_info c s = (Ok info, s') ->
  TerraformManager.positive_count info "resource_count" = Ok true ->
  Py.dict_lookup "state_exists" info = Some (PBool true) /\
  exists d, Challenge.full_directory_path c = Some d /\
            bool_decide (is_Some (fs s !! joinpath d ".terraform")) = true.
Proof.
  unfold TerraformManager.get_state_info.
  destruct (Challenge.full_directory_path c) as [d|].
  2: { intros [= <- <-]. discriminate. }
  rewrite bind_path_exists.
  destruct (bool_decide (is_Some (fs s !! joinpath d ".terraform"))) eqn:Hex;
    cbn [negb].
  2: { intros [= <- <-]. discriminate. }
  unfold try_except, bind, run.
  destruct (subprocess_run (terraform_state_list d) s) as [[r|e] fs'].
  - destruct (returncode r =? 0)%Z; intros [= <- <-]; [|discriminate].
    intros _. split; [reflexivity|]. exists d. split; [reflexivity | exact Hex].
  - destruct (exn_class e); intros [= <- <-]; discriminate.
Qed.

(** X9. The deployment report has a fixed set of fields, and
    [resource_count] is not one of them. Its list of validation errors
    is empty exactly when it says that resources are deployed: deployed
    resources are only counted where Terraform is initialised and a
    state was found, so the other two checks add nothing. *)
Theorem deployment_report_consistent (self : CredentialManager.t)
                                     (c : Challenge.t) :
  returns
    (fun report =>
       map fst report
       = ["challenge"; "provider"; "terraform_initialized"; "state_exists";
          "resources_deployed"; "outputs_available"; "validation_errors"] /\
       Py.dict_lookup "resource_count" report = None /\
       (Py.dict_lookup "validation_errors" report = Some (PList []) <->
        Py.dict_lookup "resources_deployed" report = Some (PBool true)))
    (TerraformManager.validate_challenge_deployment self c).
Proof.
  intros s report s' Hrun.
  unfold TerraformManager.validate_challenge_deployment in Hrun.
  apply bind_Ok in Hrun as (initialized & s1 & Hinit & Hrun).
  apply bind_Ok in Hrun as (info & s2 & Hinfo & Hrun).
  apply bind_Ok in Hrun as (deployed & s3 & Hcount & Hrun).
  apply bind_Ok in Hrun as ([outputs_success outputs] & s4 & _ & Hrun).
  injection Hrun as <- _.
  injection Hcount as Hcount _.
  split; [reflexivity|]. split; [reflexivity|].
  cbn [Py.dict_lookup String.eqb Ascii.eqb Bool.eqb].
  change (Py.dict_lookup "validation_errors" _) with
    (Some (TerraformManager.py_strings
             ((if negb initialized then ["Terraform not initialized"] else [])
              ++ (if negb (Py.truthy
                             (default (PBool false)
                                (Py.dict_lookup "state_exists" info)))
                  then ["No Terraform state found"] else [])
              ++ (if negb deployed then ["No resources deployed"] else [])))).
  change (Py.dict_lookup "resources_deployed" _) with (Some (PBool deployed)).
  destruct deployed; cbn [negb].
  - assert (Hs1 : s1 = s).
    { destruct (Challenge.full_directory_path c);
        [unfold path_exists in Hinit | unfold ret in Hinit]; congruence. }
    subst s1.
    destruct (state_info_counted c s s2 info Hinfo Hcount)
      as (Hstate & d & Hd & Hex).
    rewrite Hd in Hinit. unfold path_exists in Hinit. rewrite Hex in Hinit.
    injection Hinit as <-. rewrite Hstate. split; reflexivity.
  - split; [|discriminate].
    unfold TerraformManager.py_strings. intros [= Hnil].
    apply map_eq_nil in Hnil.
    apply app_eq_nil in Hnil as [_ Hnil].
    apply app_eq_nil in Hnil as [_ Hnil]. discriminate.
Qed.

End StateFacts.

(** ** Which subprocesses the operations start, and how *)

Section CalmFacts.
Context `{Platform}.
Context (P : Event -> Prop).
Hypothesis P_calm : forall e, calm e -> P e.

Lemma is_log_calm (e : Event) : is_log e -> calm e.
Proof. destruct e; simpl; try tauto; intros _; split; exact I. Qed.

Lemma calm_log (lvl : Level) (msg : string) : emits P (log lvl msg).
Proof. apply emits_emit, P_calm. split; exact I. Qed.

Lemma calm_tf_log (r : TfLogRecord) : emits P (tf_log r).
Proof. apply emits_emit, P_calm. split; exact I. Qed.

Lemma calm_query (inv : Invocation) :
  is_query inv = true -> capture_output inv = true -> emits P (run inv).
Proof. intros Hq Hc. apply emits_run, P_calm. split; assumption. Qed.

(** The command runner: log records, and the command, captured unless it
    is interactive. *)
Lemma emits_command (command : list string) (dir : string)
                    (env_vars : Py.dict) (t : Z) :
  (forall inv, argv inv = command -> cwd inv = Some dir -> timeout inv = t ->
               capture_output inv = negb (interactive command) ->
               P (ESpawn inv)) ->
  emits P (_run_terraform_command command dir env_vars t).
Proof.
  intros Hspawn. unfold _run_terraform_command.
  apply emits_bind; [apply emits_reads | intros env].
  apply emits_bind; [apply calm_tf_log | intros _].
  apply emits_try_except.
  - fold (interactive command).
    destruct (interactive command) eqn:Hi.
    + apply emits_bind; [|intros r; apply emits_ret].
      apply emits_run, Hspawn; try reflexivity; cbn; now rewrite Hi.
    + apply emits_bind.
      { apply emits_run, Hspawn; try reflexivity; cbn; now rewrite Hi. }
      intros r.
      repeat first [apply calm_tf_log | emits_step].
  - intros e. destruct (exn_class e);
      repeat first [apply calm_log | apply calm_tf_log | emits_step].
Qed.

Local Ltac calm_go :=
  repeat first [ apply calm_log | apply calm_tf_log
               | apply calm_query; reflexivity | emits_step ].

Lemma calm_load_challenges_config (cl : ConfigLoader.t) :
  emits P (ConfigLoader.load_challenges_config cl).
Proof. unfold ConfigLoader.load_challenges_config. calm_go. Qed.

Lemma calm_load_credentials_config (cl : ConfigLoader.t) :
  emits P (ConfigLoader.load_credentials_config cl).
Proof. unfold ConfigLoader.load_credentials_config. calm_go. Qed.

Lemma calm_get_challenge_config (cl : ConfigLoader.t) (n : string) :
  emits P (ConfigLoader.get_challenge_config cl n).
Proof.
  unfold ConfigLoader.get_challenge_config, ConfigLoader.ensure_loaded.
  repeat first [apply calm_load_challenges_config | calm_go].
Qed.

Lemma calm_loader_get_all_challenges (cl : ConfigLoader.t) :
  emits P (ConfigLoader.get_all_challenges cl).
Proof.
  unfold ConfigLoader.get_all_challenges, ConfigLoader.ensure_loaded.
  repeat first [apply calm_load_challenges_config | calm_go].
Qed.

Lemma calm_credential_init (cl : ConfigLoader.t) :
  emits P (CredentialManager.init cl).
Proof.
  unfold CredentialManager.init.
  repeat first [apply calm_load_credentials_config | calm_go].
Qed.

Lemma calm_getenv_or (k : string) (d : PyVal) :
  emits P (CredentialManager.getenv_or k d).
Proof. unfold CredentialManager.getenv_or. calm_go. Qed.

Lemma calm_get_aws_credentials (cm : CredentialManager.t) :
  emits P (CredentialManager.get_aws_credentials cm).
Proof.
  unfold CredentialManager.get_aws_credentials.
  repeat first [apply calm_getenv_or | emits_step].
Qed.

Lemma calm_get_azure_credentials (cm : CredentialManager.t) :
  emits P (CredentialManager.get_azure_credentials cm).
Proof.
  unfold CredentialManager.get_azure_credentials,
    CredentialManager.azure_cli_handler.
  repeat first [apply calm_getenv_or | calm_go].
Qed.

Lemma calm_gcloud_detect (what msg : string) (current : PyVal) :
  emits P (CredentialManager.gcloud_detect what msg current).
Proof. unfold CredentialManager.gcloud_detect. calm_go. Qed.

Lemma calm_get_gcp_credentials (cm : CredentialManager.t) :
  emits P (CredentialManager.get_gcp_credentials cm).
Proof.
  unfold CredentialManager.get_gcp_credentials,
    CredentialManager.gcp_cli_handler.
  repeat first [apply calm_getenv_or | apply calm_gcloud_detect | calm_go].
Qed.

Lemma calm_get_provider_credentials (cm : CredentialManager.t)
                                    (provider : PyVal) :
  emits P (CredentialManager.get_provider_credentials cm provider).
Proof.
  unfold CredentialManager.get_provider_credentials.
  repeat first [apply calm_get_aws_credentials
               | apply calm_get_azure_credentials
               | apply calm_get_gcp_credentials | emits_step].
Qed.

Lemma calm_setup_environment_variables (cm : CredentialManager.t)
                                       (provider variables : PyVal) :
  emits P (CredentialManager.setup_environment_variables cm provider variables).
Proof.
  unfold CredentialManager.setup_environment_variables.
  repeat first [apply calm_get_aws_credentials
               | apply calm_get_azure_credentials
               | apply calm_get_gcp_credentials | emits_step].
Qed.

Lemma calm_validate_provider_credentials (cm : CredentialManager.t)
                                         (provider : PyVal) :
  emits P (CredentialChecks.validate_provider_credentials cm provider).
Proof.
  unfold CredentialChecks.validate_provider_credentials.
  repeat first [apply calm_get_aws_credentials
               | apply calm_get_azure_credentials
               | apply calm_get_gcp_credentials | emits_step].
Qed.

Lemma calm_get_status (c : Challenge.t) :
  emits P (get_status_from_terraform_state c).
Proof. unfold get_status_from_terraform_state. calm_go. Qed.

Lemma calm_get_outputs (cm : CredentialManager.t) (c : Challenge.t)
                       (fmt : string) :
  emits P (get_outputs cm c fmt).
Proof.
  unfold get_outputs.
  repeat first [apply calm_log | apply calm_setup_environment_variables
               | apply emits_command; intros inv Ha _ _ Hc;
                 apply P_calm; split;
                 [exact (is_query_output _ _ Ha)
                 | simpl; rewrite Hc;
                   destruct (String.eqb fmt "json"); reflexivity]
               | emits_step].
Qed.

Lemma calm_resolve_challenge_dependency (self : Challenge.t)
                                        (dependency : string) :
  emits P (_resolve_challenge_dependency self dependency).
Proof.
  unfold _resolve_challenge_dependency, dependency_lookup, dependency_context.
  repeat first [apply calm_log | apply calm_credential_init
               | apply calm_get_challenge_config | apply calm_get_status
               | apply calm_get_outputs
               | apply emits_emit, P_calm; split; exact I | emits_step].
Qed.

Lemma calm_resolve_variable_value (self : Challenge.t) (value : PyVal)
                                  (creds : Py.dict) :
  emits P (_resolve_variable_value self value creds).
Proof.
  unfold _resolve_variable_value.
  repeat first [apply calm_log | apply calm_resolve_challenge_dependency
               | emits_step].
Qed.

Lemma calm_variables_file_content (self : Challenge.t) :
  emits P (get_terraform_variables_file_content self).
Proof.
  unfold get_terraform_variables_file_content.
  repeat first [apply calm_log | apply calm_credential_init
               | apply calm_get_provider_credentials
               | apply calm_resolve_variable_value | emits_step].
Qed.

Lemma calm_get_challenge (self : CTFManager.t) (n : string) :
  emits P (CTFManager.get_challenge self n).
Proof.
  unfold CTFManager.get_challenge.
  repeat first [apply calm_get_challenge_config | emits_step].
Qed.

Lemma calm_get_all_challenges (self : CTFManager.t) :
  emits P (CTFManager.get_all_challenges self).
Proof.
  unfold CTFManager.get_all_challenges.
  repeat first [apply calm_loader_get_all_challenges | emits_step].
Qed.

Lemma calm_is_deployed (c : Challenge.t) :
  emits P (CTFManager.is_deployed c).
Proof.
  unfold CTFManager.is_deployed.
  repeat first [apply calm_get_status | emits_step].
Qed.

Lemma calm_validate (c : Challenge.t) : emits P (validate c).
Proof. unfold validate, missing_on_disk. repeat emits_step. Qed.

Lemma calm_var_file_args (d : string) (vf : bool) :
  emits P (var_file_args d vf).
Proof. unfold var_file_args. repeat emits_step. Qed.

End CalmFacts.



(** ** Preparation scripts *)

Section PreparationFacts.
Context `{Platform}.


Local Ltac logs :=
  repeat first [apply emits_emit; left; exact I | emits_step].

(** What running one script adds to the trace. *)
Lemma emits_execute_preparation_script (c : Challenge.t) (script : string) :
  emits (fun e => is_log e \/ script_spawn c script e)
        (CTFDeploy._execute_preparation_script c script).
Proof.
  unfold CTFDeploy._execute_preparation_script.
  apply emits_try_except.
  - destruct (Challenge.full_directory_path c) as [d|] eqn:Hd;
      [|apply emits_raise].
    apply emits_bind.
    { intros s. exists []. split; [|constructor].
      unfold CTFDeploy.chmod. destruct (fs s !! _); reflexivity. }
    intros _. apply emits_bind; [logs|intros _].
    apply emits_bind.
    { apply emits_run. right. exists d. rewrite Hd. split; reflexivity. }
    intros r. logs.
  - intros e. destruct (exn_class e); logs.
Qed.


Lemma emits_run_preparation_scripts (c : Challenge.t) (scripts : list string) :
  emits (fun e => is_log e \/ e = EInput CTFDeploy.confirm_prompt
                  \/ exists script, script_spawn c script e)
        (CTFDeploy.run_preparation_scripts c scripts).
Proof.
  induction scripts as [|script rest IH]; cbn [CTFDeploy.run_preparation_scripts].
  - apply emits_ret.
  - apply emits_bind.
    { unfold CTFDeploy._confirm_preparation_script.
      apply emits_bind; [|intros a; apply emits_ret].
      apply emits_input. right. left. reflexivity. }
    intros [|]; [|exact IH].
    apply emits_bind.
    { eapply emits_weaken; [|apply emits_execute_preparation_script].
      intros e [He|He]; [left; exact He | right; right; eauto]. }
    intros [|]; cbn [negb]; [exact IH|].
    repeat first [apply emits_emit; left; exact I | emits_step].
Qed.

Lemma emits_handle_preparation_scripts (c : Challenge.t) :
  emits (fun e => is_log e \/ e = EInput CTFDeploy.confirm_prompt
                  \/ exists script, script_spawn c script e)
        (CTFDeploy._handle_preparation_scripts c).
Proof.
  unfold CTFDeploy._handle_preparation_scripts.
  apply emits_bind.
  { unfold CTFDeploy._detect_preparation_scripts.
    destruct (Challenge.full_directory_path c);
      [apply emits_reads | apply emits_ret]. }
  intros [|script rest]; [apply emits_ret|].
  apply emits_run_preparation_scripts.
Qed.



(** X13. The question about a preparation script is asked whatever the
    flags of the deployment are, and its end of input is not handled: on
    a closed standard input, the first detected script makes the handler
    raise [EOFError], before anything is run. *)
Theorem closed_stdin_aborts_preparation (c : Challenge.t) (s : Sys)
                                        (script : string)
                                        (more : list string) :
  CTFDeploy._detect_preparation_scripts c s = (Ok (script :: more), s) ->
  stdin s = [] ->
  exists e,
    CTFDeploy._handle_preparation_scripts c s
    = (Raise e,
       {| fs := fs s; environ := environ s; stdin := [];
          events := EInput CTFDeploy.confirm_prompt :: events s |}) /\
    exn_class e = EOFError.
Proof.
  intros Hdet Hin.
  unfold CTFDeploy._handle_preparation_scripts, bind. rewrite Hdet.
  cbn [CTFDeploy.run_preparation_scripts].
  unfold bind, CTFDeploy._confirm_preparation_script, bind, input.
  rewrite Hin. eexists. split; reflexivity.
Qed.

End PreparationFacts.

(** ** Deploying and destroying *)

Section OperationTraces.
Context `{Platform}.

Lemma calm_or_left (Q : Event -> Prop) (e : Event) : calm e -> calm e \/ Q e.
Proof. tauto. Qed.

Lemma init_command_captured (p : string) (force : bool) :
  interactive (["terraform"; "init"; "-backend-config=" +:+ p]
               ++ (if force then ["-reconfigure"] else [])) = false.
Proof. destruct force; reflexivity. Qed.

Lemma emits_init (tm : CredentialManager.t) (c : Challenge.t)
                  (force_reconfigure : bool) :
  emits (fun e => calm e \/ init_spawn c e)
        (TerraformManager.init tm c force_reconfigure).
Proof.
  unfold TerraformManager.init.
  destruct (Challenge.full_directory_path c) as [d|] eqn:Hd;
    [destruct (Challenge.full_backend_config_path c) as [b|] eqn:Hb|].
  - apply emits_bind;
      [apply calm_setup_environment_variables, calm_or_left | intros env].
    apply emits_bind.
    { apply emits_command; [apply calm_or_left|].
      intros inv Ha Hc Ht Hcap. right. cbn.
      split; [exact (is_terraform_head _ _ _ Ha)|].
      split; [now rewrite Hd|]. split; [exact Ht|].
      split; [now rewrite Hcap, init_command_captured|].
      intros p Hp. rewrite Hb in Hp. injection Hp as <-.
      rewrite Ha. right. right. left. reflexivity. }
    intros [[success out] err].
    repeat first [apply calm_log, calm_or_left | emits_step].
  - repeat first [apply calm_log, calm_or_left | emits_step].
  - repeat first [apply calm_log, calm_or_left | emits_step].
Qed.


Lemma auto_approved_apply (extra : list string) :
  interactive (["terraform"; "apply"] ++ ["-auto-approve"] ++ extra) = false.
Proof. reflexivity. Qed.

Lemma auto_approved_destroy (extra : list string) :
  interactive (["terraform"; "destroy"] ++ ["-auto-approve"] ++ extra) = false.
Proof.
  unfold interactive.
  assert (Hflag : list_in "-auto-approve"
                    (["terraform"; "destroy"] ++ ["-auto-approve"] ++ extra)
                  = true) by reflexivity.
  rewrite Hflag. apply andb_false_r.
Qed.

Local Ltac prop := intros; cbv beta in *; tauto.

Lemma emits_regenerate_calm (c : Challenge.t) :
  emits (fun e => calm e \/ is_write e) (regenerate_variables_file c).
Proof.
  unfold regenerate_variables_file, create_terraform_variables_file.
  repeat first [ apply calm_log, calm_or_left
               | apply calm_variables_file_content, calm_or_left
               | apply emits_write_text; right; exact I
               | emits_step ].
Qed.

Lemma emits_apply_mode (tm : CredentialManager.t) (c : Challenge.t)
                       (auto_approve var_file : bool) :
  emits (fun e => calm e \/ is_write e \/
                  (lifecycle_spawn "apply" c e /\
                   (auto_approve = true -> captured e)))
        (apply tm c auto_approve var_file).
Proof.
  unfold apply.
  destruct (Challenge.full_directory_path c) as [d|] eqn:Hd.
  - apply emits_bind.
    { destruct var_file; [|apply emits_ret].
      eapply emits_weaken; [|apply emits_regenerate_calm]. prop. }
    intros _.
    apply emits_bind;
      [apply calm_setup_environment_variables; prop | intros env].
    apply emits_bind; [apply calm_var_file_args; prop | intros extra].
    apply emits_bind.
    { apply emits_command; [prop|].
      intros inv Ha Hc Ht Hcap. right. right. split.
      - cbn. rewrite Hc, Hd.
        split; [exact (is_terraform_head _ _ _ Ha)|].
        split; [reflexivity | exact Ht].
      - intros ->. cbn. now rewrite Hcap, auto_approved_apply. }
    intros [[success out] err].
    repeat first [apply calm_log; prop | emits_step].
  - repeat first [apply calm_log; prop | emits_step].
Qed.

Lemma emits_destroy_mode (tm : CredentialManager.t) (c : Challenge.t)
                         (auto_approve var_file : bool) :
  emits (fun e => calm e \/
                  (lifecycle_spawn "destroy" c e /\
                   (auto_approve = true -> captured e)))
        (destroy tm c auto_approve var_file).
Proof.
  unfold destroy.
  destruct (Challenge.full_directory_path c) as [d|] eqn:Hd.
  - apply emits_bind;
      [apply calm_setup_environment_variables; prop | intros env].
    apply emits_bind; [apply calm_var_file_args; prop | intros extra].
    apply emits_bind.
    { apply emits_command; [prop|].
      intros inv Ha Hc Ht Hcap. right. split.
      - cbn. rewrite Hc, Hd.
        split; [exact (is_terraform_head _ _ _ Ha)|].
        split; [reflexivity | exact Ht].
      - intros ->. cbn. now rewrite Hcap, auto_approved_destroy. }
    intros [[success out] err].
    repeat first [apply calm_log; prop | emits_step].
  - repeat first [apply calm_log; prop | emits_step].
Qed.

Lemma emits_check_terraform_installation :
  emits (fun e => e = ESpawn CredentialChecks.terraform_version)
        CredentialChecks.check_terraform_installation.
Proof.
  unfold CredentialChecks.check_terraform_installation.
  apply emits_try_except_on; [|intros e; apply emits_ret].
  apply emits_bind; [apply emits_run; reflexivity | intros r].
  repeat emits_step.
Qed.

Lemma emits_validate_environment (tm : CredentialManager.t)
                                 (provider : PyVal) :
  emits (fun e => calm e \/ e = ESpawn CredentialChecks.terraform_version)
        (CredentialChecks.validate_environment tm provider).
Proof.
  unfold CredentialChecks.validate_environment.
  apply emits_bind.
  { eapply emits_weaken; [|apply emits_check_terraform_installation]. prop. }
  intros tf.
  apply emits_bind;
    [apply calm_validate_provider_credentials; prop | intros creds].
  apply emits_ret.
Qed.

Lemma emits_deploy (self : CTFManager.t) (challenge_name : string)
                   (auto_approve : bool) :
  emits (deploy_event auto_approve)
        (CTFDeploy.deploy_challenge self challenge_name auto_approve).
Proof.
  assert (Hcalm : forall e, calm e -> deploy_event auto_approve e)
    by (intros e He; left; exact He).
  unfold CTFDeploy.deploy_challenge.
  apply emits_bind; [apply calm_get_challenge, Hcalm | intros [self' [c|]]];
    cbn [fst snd].
  2: { repeat first [apply calm_log, Hcalm | emits_step]. }
  apply emits_bind; [apply calm_validate | intros [is_valid errors]].
  destruct is_valid; cbn [negb].
  2: { repeat first [apply calm_log, Hcalm | emits_step]. }
  apply emits_bind.
  { eapply emits_weaken; [|apply emits_validate_environment].
    intros e [He|He]; [left; exact He | right; left; exact He]. }
  intros env_validation.
  destruct (CredentialChecks.environment_ready env_validation); cbn [negb].
  2: { repeat first [apply calm_log, Hcalm | emits_step]. }
  apply emits_bind; [apply emits_lift | intros _].
  apply emits_bind.
  { eapply emits_weaken; [|apply emits_init].
    intros e [He|He]; [left; exact He|].
    right. right. right. right. exists c. left. exact He. }
  intros [|]; cbn [negb].
  2: { repeat first [apply calm_log, Hcalm | emits_step]. }
  apply emits_bind.
  { eapply emits_weaken; [|apply emits_handle_preparation_scripts].
    intros e [He|[He|He]].
    - left. now apply is_log_calm.
    - right. right. right. left. exact He.
    - right. right. right. right. exists c. right. left. exact He. }
  intros [|]; cbn [negb].
  2: { repeat first [apply calm_log, Hcalm | emits_step]. }
  apply emits_bind.
  { eapply emits_weaken; [|apply emits_apply_mode].
    intros e [He|[He|He]].
    - left. exact He.
    - right. right. left. exact He.
    - right. right. right. right. exists c. right. right. exact He. }
  intros [|]; cbn [negb].
  2: { repeat first [apply calm_log, Hcalm | emits_step]. }
  apply emits_bind; [apply calm_get_outputs, Hcalm | intros r].
  apply emits_ret.
Qed.

Lemma is_terraform_one (a b : string) (inv : Invocation) :
  is_terraform a inv = true -> is_terraform b inv = true -> a = b.
Proof.
  unfold is_terraform. destruct (argv inv) as [|prog [|arg rest]];
    try discriminate.
  intros [_ Ha]%andb_true_iff [_ Hb]%andb_true_iff.
  apply String.eqb_eq in Ha, Hb. congruence.
Qed.

Lemma calm_not_destroy (e : Event) : calm e -> ~ is_destroy_spawn e.
Proof. intros [Hb _]. now apply benign_not_destroy. Qed.

(** X15. What a deployment does on the machine. Every event it adds is
    a log record, a captured query, the version check, a write of the
    variables file, the question about a preparation script, or -- for
    one challenge -- its [terraform init], one of its preparation
    scripts or its [terraform apply]. So a deployment never starts a
    [terraform destroy], and when it is auto-approved every subprocess
    it starts runs captured, off the operator's terminal. *)
Theorem deploy_events (self : CTFManager.t) (challenge_name : string)
                      (auto_approve : bool) :
  emits (deploy_event auto_approve)
        (CTFDeploy.deploy_challenge self challenge_name auto_approve) /\
  emits (fun e => ~ is_destroy_spawn e /\
                  (auto_approve = true -> captured e))
        (CTFDeploy.deploy_challenge self challenge_name auto_approve).
Proof.
  split; [apply emits_deploy|].
  eapply emits_weaken; [|apply emits_deploy].
  intros e [He|[->|[He|[->|(c & [He|[(script & He)|[He Hcap]]])]]]].
  - split; [now apply calm_not_destroy | intros _; apply He].
  - split; [cbn; discriminate | intros _; reflexivity].
  - destruct e; try contradiction. split; [tauto | intros _; exact I].
  - split; [tauto | intros _; exact I].
  - destruct e as [inv| | | |]; try contradiction.
    destruct He as (Hi & _ & _ & Hcap & _).
    split; [|intros _; exact Hcap].
    cbn. intros Hd. pose proof (is_terraform_one _ _ _ Hi Hd). discriminate.
  - destruct e as [inv| | | |]; try contradiction.
    destruct He as (d & _ & ->). split; [cbn; discriminate|].
    intros _. reflexivity.
  - destruct e as [inv| | | |]; try contradiction.
    split; [|exact Hcap].
    destruct He as (Hi & _). cbn. intros Hd.
    pose proof (is_terraform_one _ _ _ Hi Hd). discriminate.
Qed.

Lemma emits_bind_returned {A B} (P : Event -> Prop) (m : M A)
                          (k : A -> M B) :
  emits P m ->
  (forall a s s', m s = (Ok a, s') -> emits P (k a)) ->
  emits P (bind m k).
Proof.
  intros Hm Hk s. unfold bind.
  destruct (Hm s) as (new1 & E1 & F1).
  destruct (m s) as [[a|e] s1] eqn:Hrun; cbn [snd] in *.
  - destruct (Hk a s s1 Hrun s1) as (new2 & E2 & F2).
    exists (new2 ++ new1). split.
    + rewrite E2, E1. apply app_assoc.
    + apply Forall_app. split; assumption.
  - exists new1. split; assumption.
Qed.

Lemma plan_command_captured (d : string) (extra : list string) :
  joinpath d "terraform.tfvars" <> "apply" ->
  joinpath d "terraform.tfvars" <> "destroy" ->
  extra = [] \/ extra = ["-var-file"; joinpath d "terraform.tfvars"] ->
  interactive (["terraform"; "plan"] ++ extra) = false.
Proof.
  intros Ha Hd [->| ->]; [reflexivity|].
  unfold interactive, list_in. cbn [app existsb].
  apply not_eq_sym in Ha, Hd.
  apply String.eqb_neq in Ha, Hd. rewrite Ha, Hd. reflexivity.
Qed.

(** X16. Planning changes no infrastructure and needs no operator: besides
    log records and captured queries it writes the variables file (only
    when asked to use one) and starts [terraform plan] in the challenge
    directory, captured, with a timeout of 600 seconds -- provided the
    path of the variables file is not itself the word [apply] or
    [destroy], which would make the command runner take the command for
    an interactive one. *)
Theorem plan_events (tm : CredentialManager.t) (c : Challenge.t)
                    (var_file : bool) :
  (forall d, joinpath d "terraform.tfvars" <> "apply" /\
             joinpath d "terraform.tfvars" <> "destroy") ->
  emits (fun e => calm e \/ (var_file = true /\ is_write e) \/ plan_spawn c e)
        (plan tm c var_file).
Proof.
  intros Hpath. unfold plan.
  destruct (Challenge.full_directory_path c) as [d|] eqn:Hd.
  - apply emits_bind.
    { destruct var_file; [|apply emits_ret].
      eapply emits_weaken; [|apply emits_regenerate_calm]. prop. }
    intros _.
    apply emits_bind;
      [apply calm_setup_environment_variables; prop | intros env].
    apply emits_bind_returned; [apply calm_var_file_args|].
    intros extra s0 s0' Hextra.
    rewrite var_file_args_spec in Hextra. injection Hextra as Hextra _.
    apply emits_bind.
    { apply emits_command; [prop|].
      intros inv Ha Hc Ht Hcap. right. right. cbn.
      split; [exact (is_terraform_head _ _ _ Ha)|].
      split; [now rewrite Hd|]. split; [exact Ht|].
      rewrite Hcap. apply negb_true_iff.
      destruct (Hpath d) as [Hna Hnd].
      apply (plan_command_captured d); [exact Hna | exact Hnd|].
      subst extra. destruct (var_file && _); auto. }
    intros [[success out] err].
    repeat first [apply calm_log; prop | emits_step].
  - repeat first [apply calm_log; prop | emits_step].
Qed.

(** X17. A challenge that fails validation is not deployed: the
    operation answers [False] straight after the lookup, having added one
    error record to the log and nothing else -- no version check, no
    credential query, no [terraform] run, no question. *)
Theorem deploy_invalid_challenge_blocked
    (self self' : CTFManager.t) (challenge_name : string)
    (auto_approve : bool) (c : Challenge.t) (s s1 : Sys) :
  CTFManager.get_challenge self challenge_name s = (Ok (self', Some c), s1) ->
  ~ well_formed (fs s1) c ->
  exists msg,
    CTFDeploy.deploy_challenge self challenge_name auto_approve s
    = (Ok (self', false),
       {| fs := fs s1; environ := environ s1; stdin := stdin s1;
          events := ELog ERROR msg :: events s1 |}).
Proof.
  intros Hget Hbad.
  unfold CTFDeploy.deploy_challenge. unfold bind at 1. rewrite Hget.
  cbn [fst snd].
  destruct (validate_verdict c s1) as (ok & errors & Hv & _ & Hok).
  unfold bind at 1. rewrite Hv.
  destruct ok; [exfalso; apply Hbad, Hok; reflexivity|].
  cbn [negb]. eexists. reflexivity.
Qed.

Lemma bind_unfold {A B} (m : M A) (k : A -> M B) (s : Sys) :
  (x <- m ;; k x) s
  = match m s with
    | (Ok a, s') => k a s'
    | (Raise e, s') => (Raise e, s')
    end.
Proof. reflexivity. Qed.

Lemma emits_events {A} (P : Event -> Prop) (m : M A) (s s' : Sys)
                   (r : Res A) :
  emits P m -> m s = (r, s') -> exists new, events s' = new ++ events s.
Proof.
  intros Hm Hrun. destruct (Hm s) as (new & E & _).
  rewrite Hrun in E. eauto.
Qed.

Lemma init_true_started (tm : CredentialManager.t) (c : Challenge.t)
                        (force : bool) (s s' : Sys) :
  TerraformManager.init tm c force s = (Ok true, s') ->
  exists post inv pre,
    events s' = post ++ ESpawn inv :: pre ++ events s /\
    is_terraform "init" inv = true.
Proof.
  unfold TerraformManager.init.
  destruct (Challenge.full_directory_path c) as [d|];
    [destruct (Challenge.full_backend_config_path c) as [b|]|];
    try (intros [= ? ?]; discriminate).
  intros Hrun.
  apply bind_Ok in Hrun as (env & s1 & Henv & Hrun).
  apply bind_Ok in Hrun as ([[success out] err] & s2 & Hcmd & Hrun).
  destruct (emits_events _ _ _ _ _
              (calm_setup_environment_variables calm (fun e He => He) tm
                 (Challenge.provider c) (Challenge.variables c)) Henv)
    as (pre & Epre).
  destruct (run_terraform_command_trace
              (["terraform"; "init"; "-backend-config=" +:+ b]
               ++ (if force then ["-reconfigure"] else [])) d env 600 s1)
    as (r & s2' & post & inv & Hcmd' & Epost & _ & Ha & _).
  rewrite Hcmd in Hcmd'. injection Hcmd' as _ <-.
  assert (Hfin : exists fin, events s' = fin ++ events s2).
  { eapply (emits_events (fun _ => True)); [|exact Hrun].
    destruct success;
      repeat first [apply emits_emit; exact I | emits_step]. }
  destruct Hfin as (fin & Efin).
  exists (fin ++ post), inv, (ETfLog (LogCommand
            (String.concat " "
               (["terraform"; "init"; "-backend-config=" +:+ b]
                ++ (if force then ["-reconfigure"] else []))) d) :: pre).
  split; [|exact (is_terraform_head _ _ _ Ha)].
  rewrite Efin, Epost, Epre, <- app_assoc. reflexivity.
Qed.

Lemma apply_true_started (tm : CredentialManager.t) (c : Challenge.t)
                         (auto_approve var_file : bool) (s s' : Sys) :
  apply tm c auto_approve var_file s = (Ok true, s') ->
  exists post inv pre,
    events s' = post ++ ESpawn inv :: pre ++ events s /\
    is_terraform "apply" inv = true.
Proof.
  intros Hrun.
  destruct (Challenge.full_directory_path c) as [d|] eqn:Hd.
  2: { unfold apply in Hrun. rewrite Hd in Hrun.
       injection Hrun as ? ?; discriminate. }
  destruct (apply_trace tm c auto_approve var_file d s s' true Hd Hrun)
    as (post & inv & pre & E & _ & _ & Ha & _).
  assert (Hs0 : exists new,
             events (if var_file then snd (regenerate_variables_file c s)
                     else s) = new ++ events s).
  { destruct var_file; [|exists []; reflexivity].
    destruct (regenerate_variables_file c s) as [r0 s0] eqn:Hreg.
    exact (emits_events _ _ _ _ _ (emits_regenerate_calm c) Hreg). }
  destruct Hs0 as (new & Enew).
  exists post, inv, (pre ++ new).
  split; [|exact (is_terraform_head _ _ _ Ha)].
  rewrite E, Enew, <- app_assoc. reflexivity.
Qed.

(** X18. A deployment only reports success after both Terraform steps:
    whenever it answers [True], the trace it added holds the start of a
    [terraform init] and, later, the start of a [terraform apply]. *)
Theorem deploy_success_ran_init_then_apply
    (self self' : CTFManager.t) (challenge_name : string)
    (auto_approve : bool) (s s' : Sys) :
  CTFDeploy.deploy_challenge self challenge_name auto_approve s
  = (Ok (self', true), s') ->
  exists later applied between initialised earlier,
    events s' = later ++ ESpawn applied :: between
                      ++ ESpawn initialised :: earlier ++ events s /\
    is_terraform "apply" applied = true /\
    is_terraform "init" initialised = true.
Proof.
  intros Hrun. unfold CTFDeploy.deploy_challenge in Hrun.
  apply bind_Ok in Hrun as ([self1 oc] & s1 & Hget & Hrun).
  cbn [fst snd] in Hrun.
  destruct oc as [c|].
  2: { apply bind_Ok in Hrun as (u & s2 & _ & Hrun). discriminate. }
  apply bind_Ok in Hrun as ([is_valid errors] & s2 & Hval & Hrun).
  destruct is_valid; cbn [negb] in Hrun.
  2: { apply bind_Ok in Hrun as (u & s3 & _ & Hrun). discriminate. }
  apply bind_Ok in Hrun as (env_validation & s3 & Henv & Hrun).
  destruct (CredentialChecks.environment_ready env_validation);
    cbn [negb] in Hrun.
  2: { apply bind_Ok in Hrun as (u1 & s4 & _ & Hrun).
       apply bind_Ok in Hrun as (u2 & s5 & _ & Hrun).
       apply bind_Ok in Hrun as (u3 & s6 & _ & Hrun). discriminate. }
  apply bind_Ok in Hrun as (banner & s4 & Hbanner & Hrun).
  apply bind_Ok in Hrun as (init_ok & s5 & Hinit & Hrun).
  destruct init_ok; cbn [negb] in Hrun.
  2: { apply bind_Ok in Hrun as (u & s6 & _ & Hrun). discriminate. }
  apply bind_Ok in Hrun as (prep_ok & s6 & Hprep & Hrun).
  destruct prep_ok; cbn [negb] in Hrun.
  2: { apply bind_Ok in Hrun as (u & s7 & _ & Hrun). discriminate. }
  apply bind_Ok in Hrun as (apply_ok & s7 & Happly & Hrun).
  destruct apply_ok; cbn [negb] in Hrun.
  2: { apply bind_Ok in Hrun as (u & s8 & _ & Hrun). discriminate. }
  apply bind_Ok in Hrun as (outs & s8 & Houts & Hrun).
  injection Hrun as _ <-.
  destruct (emits_events _ _ _ _ _
              (calm_get_challenge calm (fun e He => He) self challenge_name)
              Hget) as (n1 & E1).
  destruct (emits_events _ _ _ _ _ (calm_validate (fun _ => True) c) Hval)
    as (n2 & E2).
  destruct (emits_events _ _ _ _ _
              (emits_validate_environment _ _) Henv) as (n3 & E3).
  assert (E4 : s4 = s3) by (unfold lift in Hbanner; congruence).
  subst s4.
  destruct (init_true_started _ _ _ _ _ Hinit)
    as (post_i & inv_i & pre_i & E5 & Hi).
  destruct (emits_events _ _ _ _ _
              (emits_handle_preparation_scripts c) Hprep) as (n6 & E6).
  destruct (apply_true_started _ _ _ _ _ _ Happly)
    as (post_a & inv_a & pre_a & E7 & Ha).
  destruct (emits_events _ _ _ _ _
              (calm_get_outputs calm (fun e He => He) _ c "json") Houts)
    as (n8 & E8).
  exists (n8 ++ post_a), inv_a, (pre_a ++ n6 ++ post_i), inv_i,
         (pre_i ++ n3 ++ n2 ++ n1).
  split; [|split; assumption].
  rewrite E8, E7, E6, E5, E3, E2, E1.
  repeat rewrite <- app_assoc. cbn [app]. repeat rewrite <- app_assoc.
  reflexivity.
Qed.


(** X20. A challenge without a usable provider cannot be destroyed once
    it is deployed: when the provider is not a string and the probed
    status is anything but [not_deployed], the banner raises
    [AttributeError] straight after the probe, and no [terraform
    destroy] is started. *)
Theorem destroy_needs_string_provider
    (self self' : CTFManager.t) (challenge_name : string)
    (auto_approve : bool) (c : Challenge.t) (st : ChallengeStatus)
    (s s1 s2 : Sys) :
  CTFManager.get_challenge self challenge_name s = (Ok (self', Some c), s1) ->
  get_status_from_terraform_state c s1 = (Ok st, s2) ->
  st <> NOT_DEPLOYED ->
  (forall p, Challenge.provider c <> PStr p) ->
  exists e,
    CTFDeploy.destroy_challenge self challenge_name auto_approve s
    = (Raise e, s2) /\
    exn_class e = AttributeError.
Proof.
  intros Hget Hst Hdeployed Hprov.
  unfold CTFDeploy.destroy_challenge. unfold bind at 1. rewrite Hget.
  cbn [fst snd]. unfold bind at 1. rewrite Hst.
  destruct st; try contradiction; cbn [ChallengeStatus_eqb];
    (unfold bind, lift, CTFDeploy.upper_of;
     destruct (Challenge.provider c) as [| | | |p| |] eqn:Hp;
     try (eexists; split; reflexivity);
     exfalso; exact (Hprov p eq_refl)).
Qed.

Lemma emits_destroy_challenge_auto (self : CTFManager.t) (n : string) :
  emits (destroy_all_event true) (CTFDeploy.destroy_challenge self n true).
Proof.
  assert (Hcalm : forall e, calm e -> destroy_all_event true e)
    by (intros e He; left; exact He).
  unfold CTFDeploy.destroy_challenge.
  apply emits_bind; [apply calm_get_challenge, Hcalm | intros [self' [c|]]];
    cbn [fst snd].
  2: { repeat first [apply calm_log, Hcalm | emits_step]. }
  apply emits_bind; [apply calm_get_status, Hcalm | intros st].
  destruct (ChallengeStatus_eqb st NOT_DEPLOYED); [apply emits_ret|].
  apply emits_bind; [apply emits_lift | intros _].
  apply emits_bind.
  { eapply emits_weaken; [|apply emits_destroy_mode].
    intros e [He|[He Hcap]]; [left; exact He|].
    right. right. exists c. split; [exact He | now apply Hcap]. }
  intros [|]; cbn [negb];
    repeat first [apply calm_log, Hcalm | emits_step].
Qed.

Lemma emits_destroy_all (self : CTFManager.t) (auto_approve : bool) :
  emits (destroy_all_event auto_approve)
        (CTFDeploy.destroy_all_challenges self auto_approve).
Proof.
  assert (Hcalm : forall e, calm e -> destroy_all_event auto_approve e)
    by (intros e He; left; exact He).
  unfold CTFDeploy.destroy_all_challenges.
  apply emits_bind; [apply calm_get_all_challenges, Hcalm | intros r].
  apply emits_bind.
  { apply emits_filterM. intros c. apply calm_is_deployed, Hcalm. }
  intros [|c0 deployed]; [apply emits_ret|].
  apply emits_bind.
  { destruct auto_approve; cbn [negb]; [apply emits_ret|].
    apply emits_bind; [|intros a; apply emits_ret].
    apply emits_input. right. left. split; reflexivity. }
  intros [|]; cbn [negb]; [|apply emits_ret].
  apply emits_bind; [|intros r'; apply emits_ret].
  apply emits_foldM. intros acc c.
  unfold CTFDeploy.destroy_next.
  apply emits_bind.
  { eapply emits_weaken; [|apply emits_destroy_challenge_auto].
    intros e [He|[[Hf _]|He]];
      [left; exact He | discriminate | right; right; exact He]. }
  intros r'. destruct (snd r');
    repeat first [apply calm_log, Hcalm | emits_step].
Qed.

(** X21. What destroying everything does on the machine. Every event it
    adds is a log record, a captured query, a [terraform destroy] of one
    challenge that runs captured (each one is started auto-approved,
    whatever the flag of the call), or the confirmation question. So no
    subprocess ever gets the operator's terminal, and an auto-approved
    call asks nothing. *)
Theorem destroy_all_events (self : CTFManager.t) (auto_approve : bool) :
  emits (destroy_all_event auto_approve)
        (CTFDeploy.destroy_all_challenges self auto_approve) /\
  emits (fun e => captured e /\ (auto_approve = true -> no_prompt e))
        (CTFDeploy.destroy_all_challenges self auto_approve).
Proof.
  split; [apply emits_destroy_all|].
  eapply emits_weaken; [|apply emits_destroy_all].
  intros e [[Hb Hc]|[[Hf ->]|(c & He & Hc)]].
  - split; [exact Hc|]. intros _. destruct e; try exact I. contradiction.
  - split; [exact I|]. intros Ht. congruence.
  - split; [exact Hc|]. intros _. destruct e; try exact I. contradiction.
Qed.

(** X22. Selecting the challenges of a provider: when every configured
    challenge is a mapping, the selection is the sub-list, in order, of
    those whose [provider] field equals the name asked for; a challenge
    that is not a mapping makes the selection raise [AttributeError],
    whatever the other challenges are. *)
Theorem challenges_of_provider (provider : string) (items : Py.dict) :
  match CTFDeploy.of_provider provider items with
  | Ok kept =>
      Forall (fun kv => is_dict (snd kv)) items /\
      kept = filter (fun kv => provider_is provider (snd kv) = true) items
  | Raise e =>
      exn_class e = AttributeError /\
      Exists (fun kv => ~ is_dict (snd kv)) items
  end.
Proof.
  unfold Py.dict in *.
  induction items as [|[name config] rest IH];
    cbn [CTFDeploy.of_provider].
  - split; [constructor | reflexivity].
  - destruct config as [| | | | | |d];
      try (cbn; split; [reflexivity | left; cbn; tauto]).
    cbn [Py.get res_bind].
    destruct (CTFDeploy.of_provider provider rest) as [kept|e];
      cbn [res_bind].
    + destruct IH as [Hall ->]. split; [constructor; [exact I | exact Hall]|].
      rewrite filter_cons. cbn [snd].
      change (provider_is provider (PDict d))
        with (Py.eq_str (default PNone (Py.dict_lookup "provider" d))
                        provider).
      destruct (Py.eq_str (default PNone (Py.dict_lookup "provider" d))
                          provider);
        destruct (decide _); congruence.
    + destruct IH as [Hc Hex]. split; [exact Hc | right; exact Hex].
Qed.

Lemma emits_get_challenges_by_provider (P : Event -> Prop)
    (self : CTFManager.t) (provider : string) :
  (forall e, calm e -> P e) ->
  emits P (CTFDeploy.get_challenges_by_provider self provider).
Proof.
  intros Hcalm. unfold CTFDeploy.get_challenges_by_provider.
  repeat first [apply calm_loader_get_all_challenges, Hcalm | emits_step].
Qed.

(** X23. Deploying all challenges of a provider adds to the trace only
    what single deployments add, so it never starts a [terraform
    destroy] either; and when no challenge of that provider is
    configured it answers [False], with one error record and nothing
    run. *)
Theorem deploy_provider_events (self : CTFManager.t) (provider : string)
                               (auto_approve : bool) :
  emits (deploy_event auto_approve)
        (CTFDeploy.deploy_provider_challenges self provider auto_approve) /\
  forall self' s s1,
    CTFDeploy.get_challenges_by_provider self provider s
    = (Ok (self', []), s1) ->
    CTFDeploy.deploy_provider_challenges self provider auto_approve s
    = (Ok (self', false),
       {| fs := fs s1; environ := environ s1; stdin := stdin s1;
          events := ELog ERROR ("No challenges found for provider: "
                                +:+ provider) :: events s1 |}).
Proof.
  split.
  - assert (Hcalm : forall e, calm e -> deploy_event auto_approve e)
      by (intros e He; left; exact He).
    unfold CTFDeploy.deploy_provider_challenges.
    apply emits_bind;
      [apply emits_get_challenges_by_provider, Hcalm | intros [self' cs]].
    cbn [fst snd]. destruct cs as [|c cs].
    + repeat first [apply calm_log, Hcalm | emits_step].
    + apply emits_bind; [|intros r; apply emits_ret].
      apply emits_foldM. intros acc c'. unfold CTFDeploy.deploy_next.
      apply emits_bind; [apply emits_deploy | intros r].
      destruct (snd r); repeat first [apply calm_log, Hcalm | emits_step].
  - intros self' s s1 Hget.
    unfold CTFDeploy.deploy_provider_challenges.
    rewrite bind_unfold, Hget. reflexivity.
Qed.

End OperationTraces.

(** ** The variables file and the substitution of references *)

Section SubstitutionFacts.
Context `{Platform}.




(** Induction on Python values, through lists and mappings. *)
Lemma PyVal_nested_ind (P : PyVal -> Prop) :
  P PNone -> (forall b, P (PBool b)) -> (forall z, P (PInt z)) ->
  (forall r, P (PFloat r)) -> (forall v, P (PStr v)) ->
  (forall l, Forall P l -> P (PList l)) ->
  (forall d, Forall (fun kv => P (snd kv)) d -> P (PDict d)) ->
  forall v, P v.
Proof.
  intros HNone HBool HInt HFloat HStr HList HDict.
  fix IH 1. intros [| b | z | r | v | l | d].
  - exact HNone.
  - apply HBool.
  - apply HInt.
  - apply HFloat.
  - apply HStr.
  - apply HList. induction l as [|x l IHl]; constructor; [apply IH | exact IHl].
  - apply HDict. induction d as [|[k x] d IHd]; constructor;
      [apply IH | exact IHd].
Qed.

(** X25. Substituting environment variables keeps the shape of a
    configuration: the type of the value, the keys of a mapping in
    their order and the length of a list stay as they were, at every
    depth only reference strings change; and in an environment without
    variables the configuration comes back unchanged. *)
Theorem substitution_keeps_shape (environ : gmap string string)
                                 (value : PyVal) :
  Py.type_name (Substitution.substitute_value environ value)
  = Py.type_name value /\
  (forall d, value = PDict d ->
     exists d', Substitution.substitute_value environ value = PDict d' /\
                map fst d' = map fst d) /\
  (forall l, value = PList l ->
     exists l', Substitution.substitute_value environ value = PList l' /\
                length l' = length l) /\
  Substitution.substitute_value ∅ value = value.
Proof.
  split; [|split; [|split]].
  - destruct value as [| | | |v| |]; try reflexivity.
    cbn [Substitution.substitute_value].
    destruct (PyStr.startswith "${" v && PyStr.endswith "}" v);
      [|reflexivity].
    destruct (environ !! PyStr.slice_2_m1 v); reflexivity.
  - intros d ->. cbn [Substitution.substitute_value].
    eexists. split; [reflexivity|].
    rewrite map_map. apply map_ext. intros [k v]. reflexivity.
  - intros l ->. cbn [Substitution.substitute_value].
    eexists. split; [reflexivity|]. apply length_map.
  - induction value as [| | | |v|l IH|d IH] using PyVal_nested_ind;
      try reflexivity.
    + cbn [Substitution.substitute_value].
      destruct (PyStr.startswith "${" v && PyStr.endswith "}" v);
        [|reflexivity].
      rewrite lookup_empty. reflexivity.
    + cbn [Substitution.substitute_value]. f_equal.
      induction IH as [|x l Hx _ IHl]; [reflexivity|].
      cbn [map]. now rewrite Hx, IHl.
    + cbn [Substitution.substitute_value]. f_equal.
      induction IH as [|[k x] d Hx _ IHd]; [reflexivity|].
      cbn [map snd] in *. now rewrite Hx, IHd.
Qed.

(** X26. The two ways of filling in a bare reference [${NAME}] agree,
    except on a variable that is set to the empty string: the loader's
    substitution and the resolver of the variables file (for a name that
    the credentials do not provide) both take the value of a variable
    that is set and keep the reference of one that is not; an empty
    value is taken by the substitution and refused by the resolver. *)
Theorem substitution_agrees_with_resolver
    (self : Challenge.t) (name : string) (provider_creds : Py.dict)
    (s : Sys) :
  PyStr.contains "." name = false ->
  credential_for name provider_creds = None ->
  let reference := PStr (unresolved name) in
  let resolved :=
    fst (_resolve_variable_value self reference provider_creds s) in
  let substituted := Substitution.substitute_value (environ s) reference in
  (environ s !! name <> Some EmptyString -> resolved = Ok substituted) /\
  (environ s !! name = Some EmptyString ->
   resolved = Ok reference /\ substituted = PStr EmptyString).
Proof.
  intros Hdot Hcred reference resolved substituted.
  subst reference resolved substituted.
  unfold _resolve_variable_value.
  cbn [Substitution.substitute_value].
  rewrite startswith_wrap, endswith_wrap, slice_wrap, Hdot, Hcred.
  cbn [andb]. unfold bind, getenv.
  destruct (environ s !! name) as [[|c r]|]; cbn [PyStr.truthy fst].
  - split; [congruence|]. intros _. split; reflexivity.
  - split; [reflexivity | discriminate].
  - split; [reflexivity | discriminate].
Qed.

End SubstitutionFacts.

(** ** The levels of Terraform's output *)

Section LogFilterFacts.


End LogFilterFacts.

(** ** Where the credentials come from *)

Section CredentialSources.
Context `{Platform}.

Lemma total_ret {A} (a : A) : never_raises (ret a).
Proof. intros s. eexists _, _. reflexivity. Qed.

Lemma total_bind {A B} (m : M A) (k : A -> M B) :
  never_raises m -> (forall a, never_raises (k a)) -> never_raises (bind m k).
Proof.
  intros Hm Hk s. destruct (Hm s) as (a & s1 & Ha).
  destruct (Hk a s1) as (b & s2 & Hb).
  exists b, s2. unfold bind. now rewrite Ha.
Qed.

Lemma total_lift_Ok {A} (a : A) : never_raises (lift (Ok a)).
Proof. intros s. eexists _, _. reflexivity. Qed.

Lemma total_log (lvl : Level) (msg : string) : never_raises (log lvl msg).
Proof. intros s. eexists _, _. reflexivity. Qed.

Lemma total_getenv_or (k : string) (d : PyVal) :
  never_raises (CredentialManager.getenv_or k d).
Proof. intros s. eexists _, _. reflexivity. Qed.

Lemma total_try_except {A} (m : M A) (h : Exn -> M A) :
  (forall e, never_raises (h e)) -> never_raises (try_except m h).
Proof.
  intros Hh s. unfold try_except.
  destruct (m s) as [[a|e] s1]; [eauto | apply Hh].
Qed.

Lemma bind_lift_Ok {A B} (a : A) (k : A -> M B) :
  (x <- lift (Ok a) ;; k x) = k a.
Proof. reflexivity. Qed.

Local Ltac total :=
  repeat first
    [ apply total_ret | apply total_log | apply total_getenv_or
    | apply total_lift_Ok
    | apply total_try_except; intros ?
    | apply total_bind; [|intros ?]
    | match goal with
      | |- never_raises (if ?b then _ else _) => destruct b
      | |- never_raises (match exn_class ?e with _ => _ end) =>
          destruct (exn_class e)
      end ].

(** The section of a provider in a well-shaped credentials document. *)
Lemma provider_section (self : CredentialManager.t) (k : string) :
  sections_are_mappings self ->
  exists cfg,
    Py.get (CredentialManager.credentials self) k (PDict []) = Ok (PDict cfg).
Proof.
  intros (sections & Hc & Hmap). rewrite Hc. cbn [Py.get].
  destruct (Py.dict_lookup k sections) as [section|] eqn:Hk; cbn [default].
  - specialize (Hmap k section Hk). destruct section; try contradiction.
    eauto.
  - eauto.
Qed.

(** X28. Building the credential manager never fails: whatever goes
    wrong while the credentials file is loaded -- unreadable, not YAML --
    is caught, a warning is logged, and the manager starts with empty
    credentials and the loader it was given. *)
Theorem credential_manager_always_builds (config_loader : ConfigLoader.t)
                                         (s : Sys) :
  exists loader manager s',
    CredentialManager.init config_loader s = (Ok (loader, manager), s') /\
    forall e s1,
      ConfigLoader.load_credentials_config config_loader s = (Raise e, s1) ->
      loader = config_loader /\
      CredentialManager.credentials manager = PDict [] /\
      s' = snd (log WARNING ("Could not load credentials file: "
                             +:+ exn_str e) s1).
Proof.
  unfold CredentialManager.init, try_except. rewrite bind_unfold.
  destruct (ConfigLoader.load_credentials_config config_loader s)
    as [[[loader doc]|e] s1].
  - eexists _, _, _. split; [reflexivity|]. discriminate.
  - eexists _, _, _. split; [reflexivity|].
    intros e' s1' [= <- <-]. repeat split.
Qed.

(** X29. With a credentials document that is a mapping of mappings, the
    credentials of a supported provider are always obtained: a cloud CLI
    that is missing, times out, fails or prints something unexpected is
    never fatal. *)
Theorem provider_credentials_total (self : CredentialManager.t)
                                   (provider : PyVal) :
  sections_are_mappings self ->
  supported_provider provider = true ->
  never_raises (CredentialManager.get_provider_credentials self provider).
Proof.
  intros Hshape Hsup. unfold CredentialManager.get_provider_credentials.
  unfold supported_provider in Hsup.
  destruct (Py.eq_str provider "aws");
    [|destruct (Py.eq_str provider "azure");
      [|destruct (Py.eq_str provider "gcp"); [|discriminate]]].
  - destruct (provider_section self "aws" Hshape) as (cfg & Hcfg).
    unfold CredentialManager.get_aws_credentials.
    rewrite Hcfg, bind_lift_Ok. total.
  - destruct (provider_section self "azure" Hshape) as (cfg & Hcfg).
    unfold CredentialManager.get_azure_credentials,
      CredentialManager.azure_cli_handler.
    rewrite Hcfg, bind_lift_Ok. total.
  - destruct (provider_section self "gcp" Hshape) as (cfg & Hcfg).
    unfold CredentialManager.get_gcp_credentials,
      CredentialManager.gcp_cli_handler.
    rewrite Hcfg, bind_lift_Ok. total.
Qed.

Local Ltac logged :=
  first [ exists []; split; [reflexivity | repeat constructor]
        | eexists [_]; split; [reflexivity | repeat constructor]
        | eexists [_; _]; split; [reflexivity | repeat constructor]
        | eexists [_; _; _]; split; [reflexivity | repeat constructor] ].

(** The detour through the Azure CLI always comes back, having started
    [az account show] once. *)
Lemma azure_cli_block (subscription_id tenant_id : PyVal) (s : Sys) :
  exists ids s1,
    try_except
      (result <- run CredentialManager.az_account_show ;;
       if (returncode result =? 0)%Z then
         account_info <- lift (json_loads (stdout result)) ;;
         sid <- (if negb (Py.truthy subscription_id) then
                   v <- lift (Py.get account_info "id" PNone) ;;
                   log INFO "Detected Azure subscription ID from Azure CLI" ;;
                   ret v
                 else ret subscription_id) ;;
         tid <- (if negb (Py.truthy tenant_id) then
                   v <- lift (Py.get account_info "tenantId" PNone) ;;
                   log INFO "Detected Azure tenant ID from Azure CLI" ;;
                   ret v
                 else ret tenant_id) ;;
         ret (sid, tid)
       else
         log WARNING "Azure CLI not authenticated or available" ;;
         ret (subscription_id, tenant_id))
      (fun e => CredentialManager.azure_cli_handler
                  e (subscription_id, tenant_id)) s
    = (Ok ids, s1) /\
    exists logs,
      events s1 = logs ++ ESpawn CredentialManager.az_account_show
                       :: events s /\
      Forall is_log logs.
Proof.
  unfold try_except, CredentialManager.azure_cli_handler.
  rewrite bind_unfold. unfold run.
  destruct (subprocess_run CredentialManager.az_account_show s)
    as [[r|e] fs'].
  - destruct (returncode r =? 0)%Z.
    + rewrite bind_unfold. unfold lift at 1.
      destruct (json_loads (stdout r)) as [account_info|e].
      * destruct (Py.truthy subscription_id), (Py.truthy tenant_id);
          cbn [negb]; destruct account_info;
          unfold bind, lift, log, emit, ret; cbn;
          eexists _, _; (split; [reflexivity|]); logged.
      * destruct (exn_class e); unfold bind, log, emit, ret;
          eexists _, _; (split; [reflexivity|]); logged.
    + unfold bind, log, emit, ret.
      eexists _, _; (split; [reflexivity|]); logged.
  - destruct (exn_class e); unfold bind, log, emit, ret;
      eexists _, _; (split; [reflexivity|]); logged.
Qed.

(** X30. The Azure CLI is asked only when it is needed. When both the
    subscription and the tenant are known from the credentials file or
    from the environment, the credentials are put together without
    starting anything, and they hold exactly these two values;
    otherwise [az account show] is started, once, and everything else
    added to the trace is a log record. Either way the credentials are
    obtained. *)
Theorem azure_cli_only_when_needed (self : CredentialManager.t)
                                   (cfg : Py.dict) (s : Sys) :
  Py.get (CredentialManager.credentials self) "azure" (PDict [])
  = Ok (PDict cfg) ->
  let from_env k := match environ s !! k with
                    | Some x => PStr x
                    | None => PNone
                    end in
  let subscription_id :=
    default (from_env "AZURE_SUBSCRIPTION_ID")
            (Py.dict_lookup "subscription_id" cfg) in
  let tenant_id :=
    default (from_env "AZURE_TENANT_ID") (Py.dict_lookup "tenant_id" cfg) in
  exists creds s',
    CredentialManager.get_azure_credentials self s = (Ok creds, s') /\
    if Py.truthy subscription_id && Py.truthy tenant_id then
      s' = s /\
      Py.dict_lookup "subscription_id" creds = Some subscription_id /\
      Py.dict_lookup "tenant_id" creds = Some tenant_id
    else
      exists logs,
        events s' = logs ++ ESpawn CredentialManager.az_account_show
                         :: events s /\
        Forall is_log logs.
Proof.
  intros Hcfg from_env subscription_id tenant_id.
  unfold CredentialManager.get_azure_credentials.
  rewrite Hcfg, bind_lift_Ok.
  rewrite bind_unfold. unfold CredentialManager.getenv_or at 1.
  unfold bind at 1, getenv at 1, ret at 1. cbv beta iota.
  cbn [Py.get]. rewrite bind_lift_Ok.
  rewrite bind_unfold. unfold CredentialManager.getenv_or at 1.
  unfold bind at 1, getenv at 1, ret at 1. cbv beta iota.
  rewrite bind_lift_Ok.
  fold (from_env "AZURE_SUBSCRIPTION_ID") (from_env "AZURE_TENANT_ID").
  fold subscription_id tenant_id.
  assert (Htail : forall ids s1,
    exists creds,
      (d <- CredentialManager.getenv_or "AZURE_CLIENT_ID" PNone ;;
       client_id <- lift (Ok (default d (Py.dict_lookup "client_id" cfg))) ;;
       d0 <- CredentialManager.getenv_or "AZURE_CLIENT_SECRET" PNone ;;
       client_secret <-
         lift (Ok (default d0 (Py.dict_lookup "client_secret" cfg))) ;;
       location <-
         lift (Ok (default (PStr "East US")
                           (Py.dict_lookup "location" cfg))) ;;
       ret (CredentialManager.drop_none
              [("subscription_id", fst ids); ("tenant_id", snd ids);
               ("client_id", client_id); ("client_secret", client_secret);
               ("location", location)])) s1 = (Ok creds, s1) /\
      (Py.truthy (fst ids) = true -> Py.truthy (snd ids) = true ->
       Py.dict_lookup "subscription_id" creds = Some (fst ids) /\
       Py.dict_lookup "tenant_id" creds = Some (snd ids))).
  { intros [sid tid] s1. eexists. split; [reflexivity|].
    cbn [fst snd]. intros Hs Ht.
    unfold CredentialManager.drop_none, Py.dict.
    rewrite !filter_cons. cbn [snd].
    destruct sid; try discriminate; destruct tid; try discriminate;
      cbn [Py.is_not_none];
      (destruct (decide (true = true)); [|congruence]);
      split; reflexivity. }
  rewrite bind_unfold.
  replace (negb (Py.truthy subscription_id) || negb (Py.truthy tenant_id))
    with (negb (Py.truthy subscription_id && Py.truthy tenant_id))
    by apply negb_andb.
  destruct (Py.truthy subscription_id && Py.truthy tenant_id) eqn:Hboth;
    cbn [negb].
  - apply andb_true_iff in Hboth as [Hsid Htid]. unfold ret at 1.
    destruct (Htail (subscription_id, tenant_id) s) as (creds & Hrun & Hids).
    exists creds, s. split; [exact Hrun|].
    split; [reflexivity | exact (Hids Hsid Htid)].
  - destruct (azure_cli_block subscription_id tenant_id s)
      as (ids & s1 & Hblock & Htrace).
    rewrite Hblock.
    destruct (Htail ids s1) as (creds & Hrun & _).
    exists creds, s1. split; [exact Hrun | exact Htrace].
Qed.

End CredentialSources.
(** ** Concrete runs of the further properties *)

Lemma unsupported_provider_validates_run :
  supported_provider (PStr "oracle") = false /\
  @CredentialChecks.validate_provider_credentials
    deployed no_credentials (PStr "oracle") (world [])
  = (Ok (true, []), world []) /\
  exists e,
    @CredentialManager.get_provider_credentials
      deployed no_credentials (PStr "oracle") (world [])
    = (Raise e, world []) /\
    exn_class e = ValueError.
Proof.
  split; [reflexivity|].
  apply (@unsupported_provider_validates deployed). reflexivity.
Defined.

Lemma aws_validation_by_default_profile_run :
  environ (world []) !! "AWS_PROFILE" = None /\
  @CredentialChecks.validate_provider_credentials
    deployed no_credentials (PStr "aws") (world [])
  = (Ok (true, []), world []).
Proof.
  split; [reflexivity|].
  apply (@aws_validation_by_default_profile deployed no_credentials []).
  - reflexivity.
  - reflexivity.
  - vm_compute. discriminate.
Defined.

Lemma provider_credentials_without_none_run :
  Forall (fun kv => snd kv <> PNone)
         [("profile", PStr "default"); ("region", PStr "us-east-1");
          ("access_key_id", PStr "from-environment")].
Proof.
  apply (@provider_credentials_without_none deployed no_credentials
           (PStr "aws") (world []) _ (world [])).
  vm_compute. reflexivity.
Defined.




Lemma closed_stdin_aborts_preparation_run :
  exists e,
    @CTFDeploy._handle_preparation_scripts
      Site.tools Site.ready (Site.machine [])
    = (Raise e,
       {| fs := Site.files; environ := ∅; stdin := [];
          events := [EInput CTFDeploy.confirm_prompt] |}) /\
    exn_class e = EOFError.
Proof.
  apply (@closed_stdin_aborts_preparation Site.tools Site.ready
           (Site.machine []) "setup.sh" []).
  - vm_compute. reflexivity.
  - reflexivity.
Defined.

(** The directory of [elsewhere] is not on disk. *)
Lemma deploy_invalid_challenge_blocked_run :
  Site.files !! "/ctf/gone" = None /\
  exists msg,
    fst (@CTFDeploy.deploy_challenge Site.tools Site.manager "elsewhere" true
           (Site.machine []))
    = Ok (CTFManager.with_loader Site.manager
            {| ConfigLoader.config_dir := "/ctf/config";
               ConfigLoader.challenges_config := Site.registry;
               ConfigLoader.credentials_config := PNone |}, false) /\
    events (snd (@CTFDeploy.deploy_challenge Site.tools Site.manager
                   "elsewhere" true (Site.machine [])))
    = [ELog ERROR msg;
       ELog INFO "Loaded challenges config from /ctf/config/challenges.yaml"].
Proof.
  split; [reflexivity|].
  destruct (@deploy_invalid_challenge_blocked Site.tools Site.manager
              (CTFManager.with_loader Site.manager
                 {| ConfigLoader.config_dir := "/ctf/config";
                    ConfigLoader.challenges_config := Site.registry;
                    ConfigLoader.credentials_config := PNone |})
              "elsewhere" true Site.elsewhere (Site.machine [])
              (snd (@CTFManager.get_challenge Site.tools Site.manager
                      "elsewhere" (Site.machine []))))
    as (msg & Hrun).
  - vm_compute. reflexivity.
  - intros (_ & _ & _ & _ & Hdir & _).
    destruct (Hdir "/ctf/gone" eq_refl) as [[n Hn] _].
    vm_compute in Hn. discriminate.
  - exists msg. rewrite Hrun. split; reflexivity.
Defined.

(** [ready] is deployed with auto-approve; the operator declines its
    preparation script. *)
Lemma deploy_success_ran_init_then_apply_run :
  exists later applied between initialised earlier,
    events (snd (@CTFDeploy.deploy_challenge Site.tools Site.manager "ready"
                   true (Site.machine ["n"])))
    = later ++ ESpawn applied :: between
            ++ ESpawn initialised :: earlier ++ [] /\
    is_terraform "apply" applied = true /\
    is_terraform "init" initialised = true.
Proof.
  apply (@deploy_success_ran_init_then_apply Site.tools Site.manager
           (CTFManager.with_loader Site.manager
              {| ConfigLoader.config_dir := "/ctf/config";
                 ConfigLoader.challenges_config := Site.registry;
                 ConfigLoader.credentials_config := PNone |})
           "ready" true (Site.machine ["n"])).
  vm_compute. reflexivity.
Defined.


(** [anonymous] is deployed and names no provider. *)
Lemma destroy_needs_string_provider_run :
  Challenge.provider Site.anonymous = PNone /\
  exists e,
    fst (@CTFDeploy.destroy_challenge Site.tools Site.manager "anonymous"
           true (Site.machine []))
    = Raise e /\
    exn_class e = AttributeError /\
    exn_str e = "'NoneType' object has no attribute 'upper'".
Proof.
  split; [reflexivity|].
  destruct (@destroy_needs_string_provider Site.tools Site.manager
              (CTFManager.with_loader Site.manager
                 {| ConfigLoader.config_dir := "/ctf/config";
                    ConfigLoader.challenges_config := Site.registry;
                    ConfigLoader.credentials_config := PNone |})
              "anonymous" true Site.anonymous DEPLOYED (Site.machine [])
              (snd (@CTFManager.get_challenge Site.tools Site.manager
                      "anonymous" (Site.machine [])))
              (snd (@get_status_from_terraform_state Site.tools Site.anonymous
                      (snd (@CTFManager.get_challenge Site.tools Site.manager
                              "anonymous" (Site.machine []))))))
    as (e & Hrun & Hclass).
  - vm_compute. reflexivity.
  - vm_compute. reflexivity.
  - discriminate.
  - intros p. vm_compute. discriminate.
  - exists e. split; [now rewrite Hrun|]. split; [exact Hclass|].
    vm_compute in Hrun. injection Hrun as He. rewrite <- He. reflexivity.
Defined.

(** No challenge of the site is on GCP. *)
Lemma deploy_provider_events_run :
  fst (@CTFDeploy.deploy_provider_challenges Site.tools Site.manager "gcp"
         true (Site.machine []))
  = Ok (CTFManager.with_loader Site.manager
          {| ConfigLoader.config_dir := "/ctf/config";
             ConfigLoader.challenges_config := Site.registry;
             ConfigLoader.credentials_config := PNone |}, false) /\
  events (snd (@CTFDeploy.deploy_provider_challenges Site.tools Site.manager
                 "gcp" true (Site.machine [])))
  = [ELog ERROR "No challenges found for provider: gcp";
     ELog INFO "Loaded challenges config from /ctf/config/challenges.yaml"].
Proof.
  rewrite (proj2 (@deploy_provider_events Site.tools Site.manager "gcp" true)
             (CTFManager.with_loader Site.manager
                {| ConfigLoader.config_dir := "/ctf/config";
                   ConfigLoader.challenges_config := Site.registry;
                   ConfigLoader.credentials_config := PNone |})
             (Site.machine [])
             (snd (@CTFDeploy.get_challenges_by_provider Site.tools
                     Site.manager "gcp" (Site.machine [])))).
  - split; reflexivity.
  - vm_compute. reflexivity.
Defined.

(** The report on [ready], which is deployed. *)
Lemma deployment_report_consistent_run :
  Py.dict_lookup "resource_count"
    (match fst (@TerraformManager.validate_challenge_deployment Site.tools
                  no_credentials Site.ready (Site.machine [])) with
     | Ok report => report
     | Raise _ => []
     end) = None /\
  Py.dict_lookup "resources_deployed"
    (match fst (@TerraformManager.validate_challenge_deployment Site.tools
                  no_credentials Site.ready (Site.machine [])) with
     | Ok report => report
     | Raise _ => []
     end) = Some (PBool true).
Proof.
  destruct (@TerraformManager.validate_challenge_deployment Site.tools
              no_credentials Site.ready (Site.machine []))
    as [[report|e] s'] eqn:Hrun; [|vm_compute in Hrun; discriminate].
  destruct (@deployment_report_consistent Site.tools no_credentials Site.ready
              (Site.machine []) report s' Hrun) as (_ & Hnone & _).
  split; [exact Hnone|].
  vm_compute in Hrun. injection Hrun as <- _. reflexivity.
Defined.

Lemma substitution_keeps_shape_run :
  exists d',
    Substitution.substitute_value
      (environ (world []))
      (PDict [("region", PStr "${REGION}"); ("zones", PList [PStr "${ZONE}"])])
    = PDict d' /\
    map fst d' = ["region"; "zones"].
Proof.
  apply (proj1 (proj2 (@substitution_keeps_shape (environ (world []))
                         (PDict [("region", PStr "${REGION}");
                                 ("zones", PList [PStr "${ZONE}"])])))
           [("region", PStr "${REGION}"); ("zones", PList [PStr "${ZONE}"])]).
  reflexivity.
Defined.

(** [REGION] is set in the environment of the fixture. *)
Lemma substitution_agrees_with_resolver_run :
  environ (world []) !! "REGION" = Some "eu-west-1" /\
  fst (@_resolve_variable_value deployed y (PStr "${REGION}") [] (world []))
  = Ok (Substitution.substitute_value (environ (world []))
          (PStr "${REGION}")).
Proof.
  split; [reflexivity|].
  apply (proj1 (@substitution_agrees_with_resolver deployed y "REGION" []
                  (world []) eq_refl eq_refl)).
  vm_compute. discriminate.
Defined.


(** The credentials file of the site is not YAML. *)
Lemma credential_manager_always_builds_run :
  exists loader manager s',
    @CredentialManager.init Site.tools (ConfigLoader.init "/ctf/config")
      (Site.machine [])
    = (Ok (loader, manager), s') /\
    loader = ConfigLoader.init "/ctf/config" /\
    CredentialManager.credentials manager = PDict [].
Proof.
  destruct (@credential_manager_always_builds Site.tools
              (ConfigLoader.init "/ctf/config") (Site.machine []))
    as (loader & manager & s' & Hrun & Hfail).
  exists loader, manager, s'. split; [exact Hrun|].
  destruct (Hfail {| exn_class := YAMLError; exn_str := "could not parse" |}
              (snd (@ConfigLoader.load_credentials_config Site.tools
                      (ConfigLoader.init "/ctf/config") (Site.machine []))))
    as (Hl & Hc & _).
  - vm_compute. reflexivity.
  - split; assumption.
Defined.

(** Without any cloud CLI installed. *)
Lemma provider_credentials_total_run :
  exists creds s',
    @CredentialManager.get_provider_credentials missing no_credentials
      (PStr "gcp") (world [])
    = (Ok creds, s').
Proof.
  apply (@provider_credentials_total missing no_credentials (PStr "gcp")).
  - exists []. split; [reflexivity|]. intros k section Hk. discriminate.
  - reflexivity.
Defined.

Lemma azure_cli_only_when_needed_run :
  exists creds,
    @CredentialManager.get_azure_credentials Site.tools Site.azure_configured
      (Site.machine [])
    = (Ok creds, Site.machine []) /\
    Py.dict_lookup "subscription_id" creds = Some (PStr "sub-1") /\
    Py.dict_lookup "tenant_id" creds = Some (PStr "tenant-1").
Proof.
  destruct (@azure_cli_only_when_needed Site.tools Site.azure_configured
              [("subscription_id", PStr "sub-1");
               ("tenant_id", PStr "tenant-1")]
              (Site.machine []) eq_refl)
    as (creds & s' & Hrun & Hs & Hsid & Htid).
  exists creds. subst s'. split; [exact Hrun|]. split; assumption.
Defined.

(** Planning [ready] without a variables file. *)
Lemma plan_events_run :
  Forall (fun e => calm e \/ (false = true /\ is_write e)
                   \/ @plan_spawn Site.tools Site.ready e)
         (events (snd (@plan Site.tools no_credentials Site.ready false
                         (Site.machine [])))).
Proof.
  destruct (@plan_events Site.tools no_credentials Site.ready false)
    with (s := Site.machine []) as (new & Enew & Fnew).
  - intros d. split; intros Heq; apply (f_equal String.length) in Heq;
      cbn [joinpath Site.tools fake] in Heq;
      rewrite !length_append in Heq; cbn in Heq; lia.
  - rewrite Enew. cbn [events Site.machine]. rewrite app_nil_r. exact Fnew.
Defined.

Lemma output_values_by_name_run :
  output_values outputs_x
  = Ok [("db_password", PStr "s3cr3t");
        ("chained", PStr "${challenge-y.db_pass}")].
Proof.
  apply (proj1 (output_values_by_name outputs_x)).
  repeat constructor.
Defined.

(** An auto-approved deployment of [ready]: nothing it started was a
    destroy, and everything it started ran captured. *)
Lemma deploy_events_run :
  Forall (fun e => ~ is_destroy_spawn e /\ (true = true -> captured e))
         (events (snd (@CTFDeploy.deploy_challenge Site.tools Site.manager
                         "ready" true (Site.machine ["n"])))).
Proof.
  destruct (proj2 (@deploy_events Site.tools Site.manager "ready" true)
              (Site.machine ["n"])) as (new & Enew & Fnew).
  rewrite Enew. cbn [events Site.machine]. rewrite app_nil_r. exact Fnew.
Defined.

(** Destroying everything on the site, after the operator said yes. *)
Lemma destroy_all_events_run :
  Forall (fun e => captured e /\ (false = true -> no_prompt e))
         (events (snd (@CTFDeploy.destroy_all_challenges Site.tools
                         Site.manager false (Site.machine ["yes"])))).
Proof.
  destruct (proj2 (@destroy_all_events Site.tools Site.manager false)
              (Site.machine ["yes"])) as (new & Enew & Fnew).
  rewrite Enew. cbn [events Site.machine]. rewrite app_nil_r. exact Fnew.
Defined.
